(** * XcondoautoPrinter: the order acquisition and deduplication pipeline

    A shallow embedding of [src/api.js] (vendor-ownership verifier,
    processed-order ledger, vendor-order fetcher, polling loop, order
    and vendor lookups), of the reset routine and the configuration
    sanitizer of [main.js] and of the daily password of [utils.js], with
    the properties of the specification stated over it.

    The file has three parts. The first holds the embedding: the
    JavaScript values and operations the code relies on, the verifier,
    the ledger and its file, the fetcher, the polling cycle and the
    listener, then the notions the properties are stated with, the
    lookups, the sanitizer, the password and a concrete store for the
    examples. The second holds the properties of the specification,
    C1 to C10, each with the lemmas it rests on, and the scenarios of
    the specification run on the model. The third holds further
    properties of the same code: its edge cases, the invariants of the
    polling loop, the lookups, the sanitizer and the password.

    Conventions of the embedding:
    - a JavaScript value received from the store API or kept in the
      configuration is a [value]; numbers are the integer-valued ones
      (order and vendor identifiers, intervals in seconds), carried as [Z];
    - a JavaScript exception is a [Throw] completion; [try]/[catch] is
      [tryCatch];
    - [logger] calls have no effect on the program state; a template
      literal inside one is kept only where evaluating it can raise. *)

From Stdlib Require Import ZArith List String Ascii Bool Lia DecimalString.
Import ListNotations.
Open Scope string_scope.
Open Scope list_scope.

Set Warnings "-register-all".

(* ================================================================== *)
(** ** Completions: normal return or thrown exception *)
(* ================================================================== *)

(** Every value thrown by the runtime, by [axios] and by [fs] is an
    [Error] object; only its kind and its [message] are kept. *)
Inductive exn : Type :=
| TypeError
| Failure (message : string).

Inductive completion (A : Type) : Type :=
| Normal (a : A)
| Throw (e : exn).
Arguments Normal {A} a.
Arguments Throw {A} e.

Definition bindC {A B} (m : completion A) (k : A -> completion B) : completion B :=
  match m with
  | Normal a => k a
  | Throw e => Throw e
  end.

(** [try { body } catch (error) { handler }] *)
Definition tryCatch {A} (body : completion A) (handler : exn -> completion A) : completion A :=
  match body with
  | Normal a => Normal a
  | Throw e => handler e
  end.

Declare Scope exc_scope.
Delimit Scope exc_scope with exc.
Notation "x <- m ;; k" := (bindC m (fun x => k))
  (at level 61, m at next level, right associativity) : exc_scope.
Notation "m ;;; k" := (bindC m (fun _ => k))
  (at level 61, right associativity) : exc_scope.

Definition throws {A} (m : completion A) : bool :=
  match m with Normal _ => false | Throw _ => true end.

(* ================================================================== *)
(** ** JavaScript values *)
(* ================================================================== *)

Module JS.

(** A value as [JSON.parse] builds it, plus [undefined] (the reading of a
    missing property). An object is its list of own properties in
    insertion order; its keys are distinct and [prop] reads the first
    binding. *)
Inductive value : Type :=
| JUndefined
| JNull
| JBool (b : bool)
| JNum (n : Z)
| JStr (s : string)
| JArr (elems : list value)
| JObj (props : list (string * value)).

Fixpoint assoc (k : string) (ps : list (string * value)) : option value :=
  match ps with
  | [] => None
  | (k', v) :: rest => if String.eqb k' k then Some v else assoc k rest
  end.

Definition hasOwn (k : string) (ps : list (string * value)) : bool :=
  match assoc k ps with Some _ => true | None => false end.

(** [v.k] for a [v] that is neither [null] nor [undefined], and for the
    property names the program reads ([id], [meta_data], [line_items],
    [key], [value], [vendor_id], [orders], ...): none of them is
    inherited from a prototype, so only an object's own property answers. *)
Definition prop (v : value) (k : string) : value :=
  match v with
  | JObj ps => match assoc k ps with Some x => x | None => JUndefined end
  | _ => JUndefined
  end.

(** [v.k] in general: reading a property of [null] or [undefined] raises. *)
Definition getProp (v : value) (k : string) : completion value :=
  match v with
  | JUndefined | JNull => Throw TypeError
  | _ => Normal (prop v k)
  end.

(** ToBoolean *)
Definition truthy (v : value) : bool :=
  match v with
  | JUndefined | JNull => false
  | JBool b => b
  | JNum n => negb (n =? 0)%Z
  | JStr s => negb (String.eqb s "")
  | JArr _ | JObj _ => true
  end.

Definition isArray (v : value) : bool :=
  match v with JArr _ => true | _ => false end.

(** The elements an array is iterated over. *)
Definition elements (v : value) : list value :=
  match v with JArr l => l | _ => [] end.

(** [v === 'literal'] *)
Definition strictEqStr (v : value) (s : string) : bool :=
  match v with JStr t => String.eqb t s | _ => false end.

(** Number::toString on an integer-valued number: its decimal digits.
    That is what JavaScript prints below 10^21 in absolute value, where
    order and vendor identifiers, intervals and date seeds lie; larger
    numbers, which it prints with an exponent, are outside the model. *)
Definition numberToString (n : Z) : string :=
  NilZero.string_of_int (Z.to_int n).

(** [Array.prototype.join]: [null] and [undefined] elements print as the
    empty string, the others through [conv]. *)
Definition joinWith (conv : value -> completion string) (sep : string)
  : list value -> completion string :=
  fix go (l : list value) : completion string :=
    match l with
    | [] => Normal ""
    | x :: rest =>
        (sx <- match x with
               | JUndefined | JNull => Normal ""
               | _ => conv x
               end ;;
         match rest with
         | [] => Normal sx
         | _ => (sr <- go rest ;; Normal (sx ++ sep ++ sr)%string)
         end)%exc
    end.

(** The abstract operation ToString (template literals, [join]). An
    object whose own [toString] property shadows the inherited method
    cannot be converted: the property is data, not a function, and the
    inherited [valueOf] answers the object itself. *)
Fixpoint ToString (v : value) : completion string :=
  match v with
  | JUndefined => Normal "undefined"
  | JNull => Normal "null"
  | JBool true => Normal "true"
  | JBool false => Normal "false"
  | JNum n => Normal (numberToString n)
  | JStr s => Normal s
  | JArr l => joinWith ToString "," l
  | JObj ps => if hasOwn "toString" ps then Throw TypeError
               else Normal "[object Object]"
  end.

(** The method call [v.toString()]. *)
Definition toStringCall (v : value) : completion string :=
  match v with
  | JUndefined | JNull => Throw TypeError
  | _ => ToString v
  end.

(** [Array.prototype.find] with a predicate that may raise; answers
    [undefined] when no element satisfies it. *)
Fixpoint arrayFind (p : value -> completion bool) (l : list value) : completion value :=
  match l with
  | [] => Normal JUndefined
  | x :: rest => (b <- p x ;; if b then Normal x else arrayFind p rest)%exc
  end.

(** [Array.prototype.filter] with a predicate that may raise. *)
Fixpoint arrayFilter (p : value -> completion bool) (l : list value)
  : completion (list value) :=
  match l with
  | [] => Normal []
  | x :: rest =>
      (b <- p x ;; r <- arrayFilter p rest ;; Normal (if b then x :: r else r))%exc
  end.

(** [Array.prototype.some] with a predicate that may raise. *)
Fixpoint arraySome (p : value -> completion bool) (l : list value) : completion bool :=
  match l with
  | [] => Normal false
  | x :: rest => (b <- p x ;; if b then Normal true else arraySome p rest)%exc
  end.

(** [Array.prototype.map] with a function that may raise. *)
Fixpoint arrayMap (f : value -> completion value) (l : list value)
  : completion (list value) :=
  match l with
  | [] => Normal []
  | x :: rest => (y <- f x ;; r <- arrayMap f rest ;; Normal (y :: r))%exc
  end.

End JS.
Import JS.

(* ================================================================== *)
(** ** Vendor-ownership verifier ([api.js], [orderBelongsToVendor]) *)
(* ================================================================== *)

(** Order-level meta keys of the first check. *)
Definition orderMetaKeys : list string :=
  ["_dokan_vendor_id"; "dokan_vendor_id"; "_vendor_id"; "vendor_id";
   "_store_id"; "store_owner_id"].

(** Line-item meta keys of the second check. *)
Definition itemMetaKeys : list string :=
  ["_dokan_vendor_id"; "vendor_id"; "_vendor_id"].

(** [possibleFields] of the third check. *)
Definition possibleFields : list string :=
  ["store_id"; "vendor_id"; "seller_id"; "store_owner_id"; "dokan_vendor_id"].

(** [x && x.toString() === vendorIdStr] *)
Definition valueMatches (x : value) (vendorIdStr : string) : completion bool :=
  if truthy x then (s <- toStringCall x ;; Normal (String.eqb s vendorIdStr))%exc
  else Normal false.

(** The predicate given to [find]:
    [(meta.key === k1 || ... || meta.key === kn) && meta.value &&
     meta.value.toString() === vendorIdStr]. *)
Definition metaMatches (keys : list string) (vendorIdStr : string) (meta : value)
  : completion bool :=
  (key <- getProp meta "key" ;;
   if existsb (strictEqStr key) keys then
     (val <- getProp meta "value" ;; valueMatches val vendorIdStr)
   else Normal false)%exc.

(** The block [if (m && Array.isArray(m)) { const vendorMeta = m.find(..);
    if (vendorMeta) return true }], as both checks on meta data run it. *)
Definition metaCheck (keys : list string) (s : string) (m : value) : completion bool :=
  if truthy m && isArray m then
    (vendorMeta <- arrayFind (metaMatches keys s) (elements m) ;;
     Normal (truthy vendorMeta))%exc
  else Normal false.

(** The loop over [order.line_items]; [true] when it returns from the
    function, [false] when it runs to its end. *)
Fixpoint lineItemsBelong (vendorIdStr : string) (items : list value) : completion bool :=
  match items with
  | [] => Normal false
  | item :: rest =>
      (md <- getProp item "meta_data" ;;
       viaMeta <- metaCheck itemMetaKeys vendorIdStr md ;;
       if viaMeta then Normal true else
       (vid <- getProp item "vendor_id" ;;
        m <- valueMatches vid vendorIdStr ;;
        if m then Normal true else lineItemsBelong vendorIdStr rest))%exc
  end.

(** The loop over [possibleFields]. *)
Fixpoint fieldsBelong (order : value) (vendorIdStr : string) (fields : list string)
  : completion bool :=
  match fields with
  | [] => Normal false
  | field :: rest =>
      (m <- valueMatches (prop order field) vendorIdStr ;;
       if m then Normal true else fieldsBelong order vendorIdStr rest)%exc
  end.

(** The body of the [try] block. The first [logger.info] converts
    [order.id] to a string; the later log lines convert the same value. *)
Definition orderBelongsToVendor_try (order vendorId : value) : completion bool :=
  if negb (truthy order) || negb (truthy vendorId) then Normal false else
  (vendorIdStr <- toStringCall vendorId ;;
   ToString (prop order "id") ;;;
   viaMeta <- metaCheck orderMetaKeys vendorIdStr (prop order "meta_data") ;;
   if viaMeta then Normal true else
   let line_items := prop order "line_items" in
   viaItems <- (if truthy line_items && isArray line_items then
                  lineItemsBelong vendorIdStr (elements line_items)
                else Normal false) ;;
   if viaItems then Normal true else
   fieldsBelong order vendorIdStr possibleFields)%exc.

(** [orderBelongsToVendor(order, vendorId)]: any error is caught and
    answered [false]. *)
Definition orderBelongsToVendor (order vendorId : value) : completion bool :=
  tryCatch (orderBelongsToVendor_try order vendorId) (fun _ => Normal false).

(** *** Ownership evidence, after the three categories of the specification *)

(** A stored value counts when the property is there at all. *)
Definition present (v : value) : list value :=
  match v with JUndefined => [] | _ => [v] end.

(** The values of the entries of a [meta_data] list whose key is one of
    the vendor-id aliases [keys]. *)
Definition metaEvidence (keys : list string) (metas : list value) : list value :=
  flat_map (fun meta =>
              if existsb (strictEqStr (prop meta "key")) keys
              then present (prop meta "value") else []) metas.

(** The annotations of one line item: its [meta_data] under the narrower
    alias set, then its own [vendor_id] field. *)
Definition itemEvidence (item : value) : list value :=
  metaEvidence itemMetaKeys (elements (prop item "meta_data"))
  ++ present (prop item "vendor_id").

(** Every ownership annotation an order carries, in inspection order:
    order-level [meta_data] under an alias key, then per line item its
    [meta_data] under the narrower alias set and its [vendor_id] field,
    then the fixed top-level vendor fields. *)
Definition evidenceValues (order : value) : list value :=
  metaEvidence orderMetaKeys (elements (prop order "meta_data"))
  ++ flat_map itemEvidence (elements (prop order "line_items"))
  ++ flat_map (fun field => present (prop order field)) possibleFields.


(* ================================================================== *)
(** ** More of the JavaScript runtime *)
(* ================================================================== *)

(** White space and line terminators that [String.prototype.trim]
    strips, among the characters of a byte string: the ASCII ones. The
    no-break space, the byte order mark and the other Unicode spaces,
    which [trim] strips too, are not among them; a string the model
    takes for blank is blank for [trim]. *)
Definition isSpace (c : ascii) : bool :=
  match nat_of_ascii c with
  | 9 | 10 | 11 | 12 | 13 | 32 => true
  | _ => false
  end.

Fixpoint trimStart (l : list ascii) : list ascii :=
  match l with
  | c :: rest => if isSpace c then trimStart rest else l
  | [] => []
  end.

Definition trim (s : string) : string :=
  string_of_list_ascii
    (rev (trimStart (rev (trimStart (list_ascii_of_string s))))).

(** The method call [v.trim()]: only a string has the method. *)
Definition trimCall (v : value) : completion string :=
  match v with
  | JStr s => Normal (trim s)
  | _ => Throw TypeError
  end.

(** [v.length], for a [v] that is neither [null] nor [undefined]. *)
Definition lengthProp (v : value) : value :=
  match v with
  | JArr l => JNum (Z.of_nat (List.length l))
  | JStr s => JNum (Z.of_nat (String.length s))
  | _ => prop v "length"
  end.

(** SameValueZero, the equality of [Set]. Two objects are the same only
    as references; every object the ledger meets is freshly parsed from
    a response or from the state file, so no two of them are. *)
Definition sameValueZero (a b : value) : bool :=
  match a, b with
  | JUndefined, JUndefined => true
  | JNull, JNull => true
  | JBool x, JBool y => Bool.eqb x y
  | JNum x, JNum y => (x =? y)%Z
  | JStr x, JStr y => String.eqb x y
  | _, _ => false
  end.

(** [a === b]; on two objects the comparison is by reference and is
    answered [false] (it is met only while a log line is composed). *)
Definition strictEq (a b : value) : bool := sameValueZero a b.

(** A [Set] is the list of its members in insertion order. *)
Definition setHas (s : list value) (x : value) : bool :=
  existsb (sameValueZero x) s.

Definition setAdd (s : list value) (x : value) : list value :=
  if setHas s x then s else s ++ [x].

(** [new Set(array)] *)
Definition setOfList (l : list value) : list value :=
  fold_left setAdd l [].

(** [array.slice(-n)]: the last [n] elements. *)
Definition sliceLast (n : nat) (l : list value) : list value :=
  skipn (List.length l - n) l.

(** The value [JSON.parse] reads back from what [JSON.stringify] wrote:
    inside an array [undefined] is written [null], inside an object a
    property whose value is [undefined] is left out. *)
Fixpoint jsonRoundTrip (v : value) : value :=
  match v with
  | JUndefined => JNull
  | JArr l => JArr (map jsonRoundTrip l)
  | JObj ps =>
      JObj ((fix props (ps : list (string * value)) : list (string * value) :=
               match ps with
               | [] => []
               | (k, JUndefined) :: rest => props rest
               | (k, x) :: rest => (k, jsonRoundTrip x) :: props rest
               end) ps)
  | _ => v
  end.

(** The characters of a string, as [new Set(string)] iterates them. *)
Definition characters (s : string) : list value :=
  map (fun c => JStr (String c EmptyString)) (list_ascii_of_string s).

(** [new Set(iterable)] on an arbitrary value. *)
Definition newSet (v : value) : completion (list value) :=
  match v with
  | JUndefined | JNull => Normal []
  | JArr l => Normal (setOfList l)
  | JStr s => Normal (setOfList (characters s))
  | _ => Throw TypeError
  end.

(* ================================================================== *)
(** ** Configuration, requests, the world *)
(* ================================================================== *)

(** The configuration object handed to the core. The credentials are
    strings; [vendorId] and [checkInterval] are whatever was stored. *)
Record config : Type := {
  apiUrl : string;
  username : string;
  password : string;
  vendorId : value;
  checkInterval : value
}.

(** The calls [axios.get] is given, one constructor per call site. Every
    one carries [Authorization: Basic base64(username:password)]. *)
Inductive call : Type :=
| OrdersWith (params : value)
    (** [/wp-json/wc/v3/orders] with the caller's parameters *)
| OrdersMetaQuery (vendor : value)
    (** [/wp-json/wc/v3/orders], [status=processing], [per_page=20],
        [meta_query=[{key:'_dokan_vendor_id', value, compare:'='}]]
        serialised as JSON by the call's own [paramsSerializer] *)
| OrdersUnfiltered
    (** [/wp-json/wc/v3/orders], [status=processing], [per_page=50] *)
| DokanOrders
    (** [/wp-json/dokan/v1/orders], [status=processing], [per_page=20] *)
| OrdersMetaQueryString (vendor : value)
    (** [/wp-json/wc/v3/orders], [status=processing], [per_page=20],
        [meta_query] given as the [JSON.stringify] of the same filter *)
| OrdersRecent
    (** [/wp-json/wc/v3/orders], [status=processing], [per_page=50],
        [orderby=date], [order=desc] *).

Record request : Type := {
  baseUrl : string;
  credentials : string * string;
  what : call
}.

Definition requestOf (c : config) (k : call) : request :=
  {| baseUrl := apiUrl c; credentials := (username c, password c); what := k |}.

(** What an observer of the core sees. *)
Inductive event : Type :=
| EvRequest (r : request)        (** an HTTP request was sent *)
| EvDispatch (order : value)     (** the dispatch callback was invoked *)
| EvPrune                        (** the ledger was cut down *).

(** [data/processed_orders.json] *)
Inductive file : Type :=
| NoFile
| Unparsable
| Document (data : value).

(* ================================================================== *)
(** ** The program *)
(* ================================================================== *)

Section Program.

(** The store API: [axios.get] answers the [data] of the response or
    raises; the network has a state of its own. *)
Context {Net : Type}.
Variable axiosGet : request -> Net -> completion value * Net.

(** The private state of the dispatch callback. A callback is a function
    [value -> Handler -> completion unit * Handler]: it returns (also
    when it is [async] and its promise is later rejected: the loop does
    not wait for it) or it throws synchronously. It has no access to the
    ledger. *)
Context {Handler : Type}.

(** StringToNumber of the language, [None] for NaN: met only when a
    non-numeric value is compared or multiplied as a number. *)
Variable StringToNumber : string -> option Z.

(** The Identity Resolver ([getVendorIdFromCredentials]): a function of
    the network that never raises and answers a vendor id, ["" ] when it
    finds none. Nothing below depends on how it searches. *)
Variable getVendorIdFromCredentials : config -> Net -> string * Net.

Record world : Type := {
  processedOrders : option (list value);  (** [global.processedOrders] *)
  stateFile : file;                       (** [data/processed_orders.json] *)
  diskWritable : bool;                    (** whether [fs] can create and write it *)
  isListening : bool;
  intervalId : option nat;                (** [null] or a timer handle *)
  timers : list (nat * option Z);         (** armed interval timers: handle, delay in ms *)
  nextTimer : nat;
  net : Net;
  handler : Handler;
  clock : string;                         (** [new Date().toISOString()] *)
  trace : list event
}.

Definition setProcessedOrders (s : option (list value)) (w : world) : world :=
  {| processedOrders := s; stateFile := stateFile w; diskWritable := diskWritable w;
     isListening := isListening w; intervalId := intervalId w; timers := timers w;
     nextTimer := nextTimer w; net := net w; handler := handler w;
     clock := clock w; trace := trace w |}.

Definition setStateFile (f : file) (w : world) : world :=
  {| processedOrders := processedOrders w; stateFile := f; diskWritable := diskWritable w;
     isListening := isListening w; intervalId := intervalId w; timers := timers w;
     nextTimer := nextTimer w; net := net w; handler := handler w;
     clock := clock w; trace := trace w |}.

Definition setIsListening (b : bool) (w : world) : world :=
  {| processedOrders := processedOrders w; stateFile := stateFile w;
     diskWritable := diskWritable w;
     isListening := b; intervalId := intervalId w; timers := timers w;
     nextTimer := nextTimer w; net := net w; handler := handler w;
     clock := clock w; trace := trace w |}.

Definition setTimers (i : option nat) (ts : list (nat * option Z)) (n : nat) (w : world)
  : world :=
  {| processedOrders := processedOrders w; stateFile := stateFile w;
     diskWritable := diskWritable w;
     isListening := isListening w; intervalId := i; timers := ts;
     nextTimer := n; net := net w; handler := handler w;
     clock := clock w; trace := trace w |}.

Definition setNet (n : Net) (ev : event) (w : world) : world :=
  {| processedOrders := processedOrders w; stateFile := stateFile w;
     diskWritable := diskWritable w;
     isListening := isListening w; intervalId := intervalId w; timers := timers w;
     nextTimer := nextTimer w; net := n; handler := handler w;
     clock := clock w; trace := trace w ++ [ev] |}.

Definition setNetQuiet (n : Net) (w : world) : world :=
  {| processedOrders := processedOrders w; stateFile := stateFile w;
     diskWritable := diskWritable w;
     isListening := isListening w; intervalId := intervalId w; timers := timers w;
     nextTimer := nextTimer w; net := n; handler := handler w;
     clock := clock w; trace := trace w |}.

Definition setHandler (h : Handler) (ev : event) (w : world) : world :=
  {| processedOrders := processedOrders w; stateFile := stateFile w;
     diskWritable := diskWritable w;
     isListening := isListening w; intervalId := intervalId w; timers := timers w;
     nextTimer := nextTimer w; net := net w; handler := h;
     clock := clock w; trace := trace w ++ [ev] |}.

Definition logEvent (ev : event) (w : world) : world :=
  setHandler (handler w) ev w.

(** *** Programs: state and exceptions *)

Definition prog (A : Type) : Type := world -> completion A * world.

Definition ret {A} (a : A) : prog A := fun w => (Normal a, w).
Definition throw {A} (e : exn) : prog A := fun w => (Throw e, w).
Definition lift {A} (c : completion A) : prog A := fun w => (c, w).
Definition gets {A} (f : world -> A) : prog A := fun w => (Normal (f w), w).
Definition modify (f : world -> world) : prog unit := fun w => (Normal tt, f w).

Definition bind {A B} (m : prog A) (k : A -> prog B) : prog B :=
  fun w => match m w with
           | (Normal a, w') => k a w'
           | (Throw e, w') => (Throw e, w')
           end.

(** [try { body } catch (error) { handler }]; what the body did to the
    world before raising stays done. *)
Definition try {A} (body : prog A) (handler : exn -> prog A) : prog A :=
  fun w => match body w with
           | (Normal a, w') => (Normal a, w')
           | (Throw e, w') => handler e w'
           end.

(** A [catch] block that logs and throws the error again. *)
Definition rethrow {A} (e : exn) : prog A := throw e.

(** An [async] call that is not awaited: a rejection stays with the
    promise. The model lets the call run to its end at once. *)
Definition detached {A} (m : prog A) : prog unit :=
  fun w => (Normal tt, snd (m w)).

Declare Scope prog_scope.
Delimit Scope prog_scope with prog.
Notation "x <- m ;; k" := (bind m (fun x => k))
  (at level 61, m at next level, right associativity) : prog_scope.
Notation "m ;;; k" := (bind m (fun _ => k))
  (at level 61, right associativity) : prog_scope.
Local Open Scope prog_scope.

(** [await axios.get(...)], then [response.data] *)
Definition httpGet (r : request) : prog value :=
  fun w => let (res, n) := axiosGet r (net w) in (res, setNet n (EvRequest r) w).

(** [callback(order)] *)
Definition invoke (callback : value -> Handler -> completion unit * Handler)
  (order : value) : prog unit :=
  fun w => let (res, h) := callback order (handler w) in
           (res, setHandler h (EvDispatch order) w).

(** *** Numeric coercions *)

(** ToNumber; an object goes through its string form. *)
Definition ToNumber (v : value) : completion (option Z) :=
  match v with
  | JUndefined => Normal None
  | JNull => Normal (Some 0%Z)
  | JBool b => Normal (Some (if b then 1 else 0)%Z)
  | JNum n => Normal (Some n)
  | JStr s => Normal (StringToNumber s)
  | _ => (s <- ToString v ;; Normal (StringToNumber s))%exc
  end.

(** [v > 0] *)
Definition gtZero (v : value) : completion bool :=
  (n <- ToNumber v ;;
   Normal (match n with Some z => (0 <? z)%Z | None => false end))%exc.

(** [v.length > 0] *)
Definition lengthPositive (v : value) : completion bool :=
  match v with
  | JUndefined | JNull => Throw TypeError
  | _ => gtZero (lengthProp v)
  end.

(** [v && v.length > 0] *)
Definition hasItems (v : value) : completion bool :=
  if truthy v then lengthPositive v else Normal false.

(** [!v || v.trim() === ''] *)
Definition vendorMissing (v : value) : completion bool :=
  if truthy v then (s <- trimCall v ;; Normal (String.eqb s ""))%exc
  else Normal true.

(** *** The ledger file ([saveProcessedOrdersState], [loadProcessedOrdersState]) *)

(** [fs.mkdirSync] and [fs.writeFileSync] of the JSON text of [doc]. *)
Definition writeStateFile (doc : value) : prog unit :=
  fun w => if diskWritable w
           then (Normal tt, setStateFile (Document (jsonRoundTrip doc)) w)
           else (Throw (Failure "EACCES"), w).

Definition saveProcessedOrdersState : prog bool :=
  try
    (ids <- gets (fun w => match processedOrders w with Some s => s | None => [] end) ;;
     now <- gets clock ;;
     writeStateFile (JObj [("orders", JArr ids); ("lastUpdate", JStr now)]) ;;;
     ret true)
    (fun _ => ret false).

Definition loadProcessedOrdersState : prog bool :=
  try
    (f <- gets stateFile ;;
     match f with
     | NoFile => modify (setProcessedOrders (Some [])) ;;; ret true
     | Unparsable => throw (Failure "JSON.parse")
     | Document data =>
         orders <- lift (getProp data "orders") ;;
         s <- lift (newSet orders) ;;
         modify (setProcessedOrders (Some s)) ;;;
         lift (ToString (prop data "lastUpdate")) ;;;
         ret true
     end)
    (fun _ => modify (setProcessedOrders (Some [])) ;;; ret false).

(** [clearProcessedOrdersState] of [main.js], the explicit reset. *)
Definition clearProcessedOrdersState : prog bool :=
  try
    (modify (setProcessedOrders (Some [])) ;;;
     saveProcessedOrdersState ;;;
     ret true)
    (fun _ => ret false).

(** *** The batch verifier ([verifyOrdersBelongToVendor]) *)

(** The audit lines: the ids of the orders that are not among the
    verified ones, joined for the log. Composing them reads [order.id]
    on every order of the batch. *)
Definition blockedIdsLine (orders verifiedOrders : list value) : completion string :=
  (blocked <- arrayFilter
                (fun order =>
                   found <- arraySome
                              (fun vo => a <- getProp vo "id" ;;
                                         b <- getProp order "id" ;;
                                         Normal (strictEq a b))
                              verifiedOrders ;;
                   Normal (negb found))
                orders ;;
   blockedIds <- arrayMap (fun order => getProp order "id") blocked ;;
   joinWith ToString ", " blockedIds)%exc.

Definition verifyOrdersBelongToVendor (orders vendorId : value)
  : completion (list value) :=
  if negb (truthy orders) || negb (isArray orders) || negb (truthy vendorId)
  then Normal []
  else
    (ToString vendorId ;;;
     verifiedOrders <- arrayFilter (fun order => orderBelongsToVendor order vendorId)
                                   (elements orders) ;;
     (if (List.length verifiedOrders <? List.length (elements orders))%nat
      then blockedIdsLine (elements orders) verifiedOrders
      else Normal "") ;;;
     Normal verifiedOrders)%exc.

(** *** The vendor-order fetcher *)

(** The parameters of the second attempt are sent only for a configured
    vendor: [config.vendorId && config.vendorId.trim() !== '']. *)
Definition vendorConfigured (v : value) : completion bool :=
  if truthy v then (s <- trimCall v ;; Normal (negb (String.eqb s "")))%exc
  else Normal false.

(** The local filter of the third attempt of [getWooCommerceOrders]. *)
Definition hasDokanVendorMeta (vendor : value) (order : value) : completion bool :=
  (md <- getProp order "meta_data" ;;
   if negb (truthy md) || negb (isArray md) then Normal false else
   arraySome (fun meta =>
                key <- getProp meta "key" ;;
                if strictEqStr key "_dokan_vendor_id" || strictEqStr key "dokan_vendor_id"
                then (val <- getProp meta "value" ;;
                      s <- toStringCall val ;;
                      t <- toStringCall vendor ;;
                      Normal (String.eqb s t))
                else Normal false)
             (elements md))%exc.

(** [data.filter(p)]: only an array has the method. *)
Definition filterCall (data : value) (p : value -> completion bool)
  : completion (list value) :=
  match data with
  | JArr l => arrayFilter p l
  | _ => Throw TypeError
  end.

(** One attempt that answers on a non-empty response and otherwise,
    error included, lets the next attempt run. *)
Definition attempt (r : request) : prog (option value) :=
  try (data <- httpGet r ;;
       ok <- lift (hasItems data) ;;
       ret (if ok then Some data else None))
      (fun _ => ret None).

Definition getWooCommerceOrders (c : config) (params : value) : prog value :=
  try
    (first <- attempt (requestOf c (OrdersWith params)) ;;
     match first with
     | Some data => ret data
     | None =>
         configured <- lift (vendorConfigured (vendorId c)) ;;
         second <- (if configured
                    then attempt (requestOf c (OrdersMetaQuery (vendorId c)))
                    else ret None) ;;
         match second with
         | Some data => ret data
         | None =>
             try (data <- httpGet (requestOf c OrdersUnfiltered) ;;
                  ok <- lift (hasItems data) ;;
                  if ok
                  then (vendorOrders <- lift (filterCall data (hasDokanVendorMeta (vendorId c))) ;;
                        ret (JArr vendorOrders))
                  else ret (JArr []))
                 rethrow
         end
     end)
    rethrow.

Definition getDokanOrders (c : config) : prog value :=
  try
    (try (lift (ToString (vendorId c)) ;;;
          httpGet (requestOf c DokanOrders))
         (fun _ => httpGet (requestOf c (OrdersMetaQueryString (vendorId c)))))
    rethrow.

Definition getAllOrdersAndFilter (c : config) (vendor : value) : prog value :=
  try
    (if String.eqb (apiUrl c) "" || String.eqb (username c) ""
        || String.eqb (password c) ""
     then throw (Failure "Configurações de API incompletas")
     else
       missing <- lift (vendorMissing vendor) ;;
       if missing
       then throw (Failure "ID do vendedor obrigatório para buscar pedidos")
       else
         data <- httpGet (requestOf c OrdersRecent) ;;
         if negb (truthy data) || negb (isArray data) then ret (JArr []) else
         vendorOrders <- lift (verifyOrdersBelongToVendor data vendor) ;;
         ret (JArr vendorOrders))
    (fun _ => ret (JArr [])).

(** *** The polling cycle ([checkForNewOrders]) *)

(** Programs over the local variable [orders] of [checkForNewOrders],
    which its [catch] blocks read back as it stood when the error was
    raised. *)
Definition block (A : Type) : Type := value -> world -> completion A * value * world.

Definition retB {A} (a : A) : block A := fun o w => (Normal a, o, w).

Definition bindB {A B} (m : block A) (k : A -> block B) : block B :=
  fun o w => match m o w with
             | (Normal a, o', w') => k a o' w'
             | (Throw e, o', w') => (Throw e, o', w')
             end.

Definition tryB {A} (body : block A) (handler : exn -> block A) : block A :=
  fun o w => match body o w with
             | (Normal a, o', w') => (Normal a, o', w')
             | (Throw e, o', w') => handler e o' w'
             end.

(** [orders = await m] *)
Definition assign (m : prog value) : block unit :=
  fun o w => match m w with
             | (Normal v, w') => (Normal tt, v, w')
             | (Throw e, w') => (Throw e, o, w')
             end.

(** An expression over [orders]. *)
Definition test {A} (f : value -> completion A) : block A :=
  fun o w => (f o, o, w).

(** [let orders = init; body]: the block answers the final [orders]. *)
Definition runBlock (init : value) (body : block unit) : prog value :=
  fun w => match body init w with
           | (Normal _, o, w') => (Normal o, w')
           | (Throw e, _, w') => (Throw e, w')
           end.

Declare Scope block_scope.
Delimit Scope block_scope with block.
Notation "x <- m ;; k" := (bindB m (fun x => k))
  (at level 61, m at next level, right associativity) : block_scope.
Notation "m ;;; k" := (bindB m (fun _ => k))
  (at level 61, right associativity) : block_scope.

(** [orders = await getAllOrdersAndFilter(config, vendorId)], then the
    test [orders && orders.length > 0] that only chooses a log line. *)
Definition manualFilter (c : config) (vendor : value) : block unit :=
  (assign (getAllOrdersAndFilter c vendor) ;;;
   test hasItems ;;;
   retB tt)%block.

(** Lines 752-811: the methods tried in turn. *)
Definition fetchOrders (c : config) (apiParams vendor : value) : prog value :=
  runBlock (JArr [])
    (tryB
       (assign (getWooCommerceOrders c apiParams) ;;;
        found <- test hasItems ;;
        if found then retB tt
        else
          tryB
            (assign (getDokanOrders c) ;;;
             found <- test hasItems ;;
             if found then retB tt else manualFilter c vendor)
            (fun _ => manualFilter c vendor))
       (fun _ => tryB (manualFilter c vendor) (fun _ => retB tt)))%block.

(** [global.processedOrders], which must be a [Set] to be used. *)
Definition ledger : prog (list value) :=
  fun w => match processedOrders w with
           | Some s => (Normal s, w)
           | None => (Throw TypeError, w)
           end.

(** [if (!global.processedOrders) global.processedOrders = new Set()] *)
Definition initProcessedOrders : prog unit :=
  modify (fun w => match processedOrders w with
                   | Some _ => w
                   | None => setProcessedOrders (Some []) w
                   end).

(** [orders.filter(order => !global.processedOrders.has(order.id))] *)
Definition filterNew (orders : list value) : prog (list value) :=
  s <- ledger ;;
  lift (arrayFilter (fun order => (id <- getProp order "id" ;;
                                   Normal (negb (setHas s id)))%exc) orders).

(** The loop [for (const order of newOrders)]. Nothing catches what the
    callback throws inside it. *)
Fixpoint dispatchAll (vendor : value)
  (callback : value -> Handler -> completion unit * Handler)
  (newOrders : list value) : prog unit :=
  match newOrders with
  | [] => ret tt
  | order :: rest =>
      belongs <- lift (orderBelongsToVendor order vendor) ;;
      (if belongs
       then (id <- lift (getProp order "id") ;;
             s <- ledger ;;
             modify (setProcessedOrders (Some (setAdd s id))) ;;;
             lift (ToString id) ;;;
             invoke callback order)
       else (id <- lift (getProp order "id") ;;
             lift (ToString id) ;;;
             ret tt)) ;;;
      dispatchAll vendor callback rest
  end.

(** Lines 844-853: the cut of the ledger. *)
Definition pruneProcessedOrders : prog unit :=
  s <- ledger ;;
  if (1000 <? List.length s)%nat
  then (modify (logEvent EvPrune) ;;;
        modify (setProcessedOrders (Some (setOfList (sliceLast 500 s)))) ;;;
        saveProcessedOrdersState ;;;
        ret tt)
  else ret tt.

(** Lines 813-859: what is done with the orders obtained. *)
Definition processOrders (vendor : value)
  (callback : value -> Handler -> completion unit * Handler)
  (orders : value) : prog unit :=
  some <- lift (lengthPositive orders) ;;
  if some
  then (verified <- lift (verifyOrdersBelongToVendor orders vendor) ;;
        newOrders <- filterNew verified ;;
        match newOrders with
        | [] => ret tt
        | _ :: _ =>
            dispatchAll vendor callback newOrders ;;;
            saveProcessedOrdersState ;;;
            pruneProcessedOrders
        end)
  else ret tt.

Definition checkForNewOrders (c : config)
  (callback : value -> Handler -> completion unit * Handler) : prog unit :=
  try
    (missing <- lift (vendorMissing (vendorId c)) ;;
     if missing then ret tt else
     trimmed <- lift (trimCall (vendorId c)) ;;
     let vendor := JStr trimmed in
     let apiParams := JObj [("per_page", JNum 20); ("status", JStr "processing");
                            ("vendor_id", vendor)] in
     initProcessedOrders ;;;
     orders <- fetchOrders c apiParams vendor ;;
     processOrders vendor callback orders)
    (fun _ => ret tt).

(** *** The listener ([startOrderListener], [stopOrderListener]) *)

(** [clearInterval(intervalId); intervalId = null] *)
Definition clearIntervalId : prog unit :=
  modify (fun w => match intervalId w with
                   | Some h => setTimers None
                                 (List.filter (fun t => negb (Nat.eqb (fst t) h)) (timers w))
                                 (nextTimer w) w
                   | None => w
                   end).

(** [intervalId = setInterval(..., intervalMs)] *)
Definition setIntervalId (intervalMs : option Z) : prog unit :=
  modify (fun w => setTimers (Some (nextTimer w))
                     (timers w ++ [(nextTimer w, intervalMs)])
                     (S (nextTimer w)) w).

Definition stopOrderListener : prog bool :=
  clearIntervalId ;;;
  s <- gets processedOrders ;;
  match s with
  | Some _ => saveProcessedOrdersState ;;; ret tt
  | None => ret tt
  end ;;;
  modify (setIsListening false) ;;;
  ret true.

(** [(config.checkInterval || 60) * 1000] *)
Definition intervalMs (c : config) : completion (option Z) :=
  (n <- ToNumber (if truthy (checkInterval c) then checkInterval c else JNum 60) ;;
   Normal (option_map (fun z => z * 1000)%Z n))%exc.

Definition withVendorId (c : config) (v : value) : config :=
  {| apiUrl := apiUrl c; username := username c; password := password c;
     vendorId := v; checkInterval := checkInterval c |}.

(** The automatic detection writes the vendor id found into [config];
    the function answers the configuration as it leaves it. *)
Definition startOrderListener (c : config)
  (callback : value -> Handler -> completion unit * Handler) : prog (bool * config) :=
  listening <- gets isListening ;;
  (if listening then stopOrderListener ;;; ret tt else ret tt) ;;;
  missing <- lift (vendorMissing (vendorId c)) ;;
  c <- (if missing
        then try (autoVendorId <- (fun w => let (v, n) := getVendorIdFromCredentials c (net w) in
                                            (Normal v, setNetQuiet n w)) ;;
                  if negb (String.eqb autoVendorId "")
                  then ret (withVendorId c (JStr autoVendorId))
                  else throw (Failure "ID do vendedor não fornecido e não foi possível detectar automaticamente"))
                 rethrow
        else ret c) ;;
  modify (setIsListening true) ;;;
  loadProcessedOrdersState ;;;
  initProcessedOrders ;;;
  lift (ToString (checkInterval c)) ;;;
  detached (checkForNewOrders c callback) ;;;
  ms <- lift (intervalMs c) ;;
  setIntervalId ms ;;;
  ret (true, c).

(** [n] polling cycles in a row. *)
Fixpoint runCycles (n : nat) (c : config)
  (callback : value -> Handler -> completion unit * Handler) (w : world) : world :=
  match n with
  | O => w
  | S k => runCycles k c callback (snd (checkForNewOrders c callback w))
  end.

End Program.
(* ================================================================== *)
(** ** Notions the properties are stated with *)
(* ================================================================== *)

(** No two members are the same for [Set]: what the list of a [Set]
    always satisfies. *)
Fixpoint distinct (l : list value) : bool :=
  match l with
  | [] => true
  | x :: rest => negb (existsb (sameValueZero x) rest) && distinct rest
  end.

(** The document [saveProcessedOrdersState] writes for the ids [s] at
    the instant [now]: [{ orders: [...], lastUpdate: now }]. *)
Definition ledgerDocument (s : list value) (now : string) : value :=
  JObj [("orders", JArr (map jsonRoundTrip s)); ("lastUpdate", JStr now)].

(** The place of a call in the order the fetcher tries its methods. *)
Definition stage (k : call) : nat :=
  match k with
  | OrdersWith _ => 1
  | OrdersMetaQuery _ => 2
  | OrdersUnfiltered => 3
  | DokanOrders => 4
  | OrdersMetaQueryString _ => 5
  | OrdersRecent => 6
  end.

(** [chain lo hi l]: the stages [l] strictly increase, all above [lo]
    and none above [hi]. *)
Fixpoint chain (lo hi : nat) (l : list nat) : Prop :=
  match l with
  | [] => lo <= hi
  | x :: rest => lo < x /\ chain x hi rest
  end.

(** The requests among the events. *)
Definition requestsOf (tr : list event) : list request :=
  flat_map (fun ev => match ev with EvRequest r => [r] | _ => [] end) tr.

(** The orders dispatched among the events. *)
Definition dispatchedOf (tr : list event) : list value :=
  flat_map (fun ev => match ev with EvDispatch o => [o] | _ => [] end) tr.

(** How many orders of a list carry the id [id]. *)
Definition countId (id : value) (orders : list value) : nat :=
  List.length (List.filter (fun o => sameValueZero (prop o "id") id) orders).

(** Whether the events record a cut of the ledger. *)
Definition pruned (tr : list event) : bool :=
  existsb (fun ev => match ev with EvPrune => true | _ => false end) tr.

(** The orders of a verified batch whose id the ledger [s] does not hold. *)
Definition newOrdersOf (s : list value) (verified : list value) : list value :=
  List.filter (fun o => negb (setHas s (prop o "id"))) verified.

Section Notions.

Context {Net Handler : Type}.

(** The world after some requests were sent and nothing else happened. *)
Definition withRequests (n : Net) (reqs : list request) (w : @world Net Handler)
  : @world Net Handler :=
  {| processedOrders := processedOrders w; stateFile := stateFile w;
     diskWritable := diskWritable w;
     isListening := isListening w; intervalId := intervalId w; timers := timers w;
     nextTimer := nextTimer w; net := n; handler := handler w;
     clock := clock w; trace := trace w ++ map EvRequest reqs |}.

Definition stages (reqs : list request) : list nat :=
  map (fun r => stage (what r)) reqs.

(** [Fetches c lo hi hiThrow Q m]: the program [m] only sends requests,
    all built from [c], in strictly increasing stages above [lo]; when
    it returns the stages end at [hi] at most and the result satisfies
    [Q], when it raises they end at [hiThrow] at most. *)
Definition Fetches {A} (c : config) (lo hi hiThrow : nat) (Q : A -> Prop)
  (m : @prog Net Handler A) : Prop :=
  forall w, exists reqs n,
    snd (m w) = withRequests n reqs w
    /\ Forall (fun r => r = requestOf c (what r)) reqs
    /\ match fst (m w) with
       | Normal a => chain lo hi (stages reqs) /\ Q a
       | Throw _ => chain lo hiThrow (stages reqs)
       end.

(** The same for a block over the local variable [orders], which
    satisfies [I] throughout. *)
Definition FetchesB {A} (c : config) (lo hi hiThrow : nat) (I : value -> Prop)
  (m : @block Net Handler A) : Prop :=
  forall o w, I o -> exists reqs n,
    snd (m o w) = withRequests n reqs w
    /\ Forall (fun r => r = requestOf c (what r)) reqs
    /\ I (snd (fst (m o w)))
    /\ match fst (fst (m o w)) with
       | Normal _ => chain lo hi (stages reqs)
       | Throw _ => chain lo hiThrow (stages reqs)
       end.

(** The orders a callback is invoked on when a list of orders is handed
    to it one after the other until it throws, with the outcome and the
    state it is left in. *)
Fixpoint served (callback : value -> Handler -> completion unit * Handler)
  (orders : list value) (h : Handler) : list value * completion unit * Handler :=
  match orders with
  | [] => ([], Normal tt, h)
  | o :: rest =>
      match callback o h with
      | (Normal _, h') =>
          let '(invoked, res, hf) := served callback rest h' in
          (o :: invoked, res, hf)
      | (Throw e, h') => ([o], Throw e, h')
      end
  end.

Definition idsOf (orders : list value) : list value :=
  map (fun o => prop o "id") orders.

(** The world after the orders [invoked] were marked and dispatched and
    nothing else happened. *)
Definition withDispatches (s : list value) (h : Handler) (invoked : list value)
  (w : @world Net Handler) : @world Net Handler :=
  {| processedOrders := Some s; stateFile := stateFile w;
     diskWritable := diskWritable w;
     isListening := isListening w; intervalId := intervalId w; timers := timers w;
     nextTimer := nextTimer w; net := net w; handler := h;
     clock := clock w; trace := trace w ++ map EvDispatch invoked |}.

(** The ids the ledger holds, none while it is not set up. *)
Definition ledgerOf (w : @world Net Handler) : list value :=
  match processedOrders w with Some s => s | None => [] end.

(** [once id w w']: from [w] to [w'] events were added and, unless the
    ledger was cut meanwhile, the orders with the id [id] (as the ledger
    compares ids) were dispatched once at most, not at all if the ledger
    held [id] already, and the ledger holds [id] afterwards if it did or
    if such an order was dispatched. *)
Definition once (id : value) (w w' : @world Net Handler) : Prop :=
  exists new,
    trace w' = trace w ++ new
    /\ (pruned new = false ->
        countId id (dispatchedOf new) <= 1
        /\ (setHas (ledgerOf w) id = true ->
            countId id (dispatchedOf new) = 0 /\ setHas (ledgerOf w') id = true)
        /\ (1 <= countId id (dispatchedOf new) -> setHas (ledgerOf w') id = true)).

End Notions.

(** *** What a cycle, a start and a stop leave behind *)

(** The verdict of the verifier as a boolean; an internal error is a
    rejection, as the [catch] of the function has it. *)
Definition verdict (order vendorId : value) : bool :=
  match orderBelongsToVendor order vendorId with
  | Normal b => b
  | Throw _ => false
  end.

Section Shapes.

Context {Net Handler : Type}.
Implicit Types w : @world Net Handler.

(** The world after the orders [invoked] were marked and dispatched, the
    ledger [s] was saved and then cut if it had grown too large. *)
Definition afterBatch (s : list value) (h : Handler) (invoked : list value) w
  : @world Net Handler :=
  snd (pruneProcessedOrders
         (snd (saveProcessedOrdersState (withDispatches s h invoked w)))).

(** At most one interval timer is armed, the one [intervalId] names, and
    only while the listener is marked as listening. *)
Definition oneTimer w : Prop :=
  match intervalId w with
  | Some h => isListening w = true /\ exists ms, timers w = [(h, ms)]
  | None => timers w = []
  end.

(** [Ensures P m Q]: started in a world satisfying [P], the program [m]
    leaves a world satisfying [Q], whether it returns or raises. *)
Definition Ensures {A} (P : @world Net Handler -> Prop) (m : @prog Net Handler A)
  (Q : @world Net Handler -> Prop) : Prop :=
  forall w, P w -> Q (snd (m w)).

(** No timer is armed. *)
Definition unarmed w : Prop := intervalId w = None /\ timers w = [].

(** Nothing of the listener's own variables has changed. *)
Definition sameListener w w' : Prop :=
  isListening w' = isListening w /\ intervalId w' = intervalId w
  /\ timers w' = timers w /\ nextTimer w' = nextTimer w.

(** Events were added, and every order dispatched among them satisfies
    [P]. *)
Definition dispatchesOnly (P : value -> Prop) w w' : Prop :=
  exists new, trace w' = trace w ++ new /\ Forall P (dispatchedOf new).

(** Events were added; an id the ledger holds afterwards was held before
    or is the id of an order dispatched meanwhile, and, unless the
    ledger was cut meanwhile, the ids held before and the ids of the
    orders dispatched are all held afterwards. *)
Definition ledgerTracks w w' : Prop :=
  exists new,
    trace w' = trace w ++ new
    /\ (forall id, In id (ledgerOf w') ->
                   In id (ledgerOf w) \/ In id (idsOf (dispatchedOf new)))
    /\ (pruned new = false ->
        forall id, In id (ledgerOf w) \/ In id (idsOf (dispatchedOf new)) ->
                   In id (ledgerOf w')).

End Shapes.

(** *** A start that waits for the detection *)

(** [startOrderListener] is an [async] function with one [await], that
    of the automatic detection of the vendor id. The function runs
    without interruption up to that point and again from it; whatever
    else was called meanwhile has run in between. *)
Section Suspension.

Context {Net Handler : Type}.
Variable axiosGet : request -> Net -> completion value * Net.
Variable StringToNumber : string -> option Z.
Variable getVendorIdFromCredentials : config -> Net -> string * Net.
Implicit Types callback : value -> Handler -> completion unit * Handler.

(** From the first line to the test of [config.vendorId]: a running
    listener is stopped. The answer tells whether the function goes on
    to the [await] ([true]) or needs no detection ([false]). *)
Definition startUntilAwait (c : config) : @prog Net Handler bool :=
  bind (gets isListening) (fun listening =>
  bind (if listening then bind stopOrderListener (fun _ => ret tt) else ret tt) (fun _ =>
  lift (vendorMissing (vendorId c)))).

(** The detection the function waits for. *)
Definition awaitedDetection (c : config) : @prog Net Handler string :=
  fun w => let (v, n) := getVendorIdFromCredentials c (net w) in
           (Normal v, setNetQuiet n w).

(** From [isListening = true] to the end: the set is loaded, a first
    cycle is launched and the timer is armed. *)
Definition startArm (c : config) callback : @prog Net Handler (bool * config) :=
  bind (modify (setIsListening true)) (fun _ =>
  bind loadProcessedOrdersState (fun _ =>
  bind initProcessedOrders (fun _ =>
  bind (lift (ToString (checkInterval c))) (fun _ =>
  bind (detached (checkForNewOrders axiosGet StringToNumber c callback)) (fun _ =>
  bind (lift (intervalMs StringToNumber c)) (fun ms =>
  bind (setIntervalId ms) (fun _ =>
  ret (true, c)))))))).

(** From the answer of the detection on. *)
Definition startFromAwait (c : config) callback (autoVendorId : string)
  : @prog Net Handler (bool * config) :=
  bind (try (if negb (String.eqb autoVendorId "")
             then ret (withVendorId c (JStr autoVendorId))
             else throw (Failure "ID do vendedor não fornecido e não foi possível detectar automaticamente"))
            rethrow)
       (fun c => startArm c callback).

(** A start during whose [await] nothing else runs. *)
Definition startAlone (c : config) callback : @prog Net Handler (bool * config) :=
  bind (startUntilAwait c) (fun waits =>
  if waits then bind (awaitedDetection c) (startFromAwait c callback)
  else startArm c callback).

(** The promise of an [async] call: what the call answers or raises is
    kept with it, not raised. *)
Definition settled {A} (m : @prog Net Handler A) : @prog Net Handler (completion A) :=
  fun w => (Normal (fst (m w)), snd (m w)).

(** Two starts, the second one called while the first one waits: each
    runs to its [await], then each goes on with the vendor id detected
    for it, the first one first. A start that has nothing to wait for,
    or that raises before it waits, is over when the next one is called.
    The answer is that of the second start; what the first one answers
    or raises stays with its promise. *)
Definition overlappingStarts (c1 : config) callback1 (c2 : config) callback2
  : @prog Net Handler (bool * config) :=
  let resume1 := detached (bind (awaitedDetection c1) (startFromAwait c1 callback1)) in
  bind (settled (startUntilAwait c1)) (fun first =>
  match first with
  | Normal true =>
      bind (settled (startUntilAwait c2)) (fun second =>
      match second with
      | Normal true =>
          bind resume1 (fun _ =>
          bind (awaitedDetection c2) (startFromAwait c2 callback2))
      | Normal false =>
          bind (settled (startArm c2 callback2)) (fun answer =>
          bind resume1 (fun _ => lift answer))
      | Throw e => bind resume1 (fun _ => throw e)
      end)
  | Normal false =>
      bind (detached (startArm c1 callback1)) (fun _ => startAlone c2 callback2)
  | Throw _ => startAlone c2 callback2
  end).

End Suspension.

(* ================================================================== *)
(** ** Code with a state of its own: the lookups *)
(* ================================================================== *)

(** Programs over a state [S], with exceptions. *)
Definition stateful (S A : Type) : Type := S -> completion A * S.

Definition sret {S A} (a : A) : stateful S A := fun s => (Normal a, s).
Definition sthrow {S A} (e : exn) : stateful S A := fun s => (Throw e, s).
Definition slift {S A} (c : completion A) : stateful S A := fun s => (c, s).

Definition sbind {S A B} (m : stateful S A) (k : A -> stateful S B) : stateful S B :=
  fun s => match m s with
           | (Normal a, s') => k a s'
           | (Throw e, s') => (Throw e, s')
           end.

(** [try { body } catch (error) { handler }] *)
Definition stry {S A} (body : stateful S A) (handler : exn -> stateful S A)
  : stateful S A :=
  fun s => match body s with
           | (Normal a, s') => (Normal a, s')
           | (Throw e, s') => handler e s'
           end.

Declare Scope stateful_scope.
Delimit Scope stateful_scope with stateful.
Notation "x <- m ;; k" := (sbind m (fun x => k))
  (at level 61, m at next level, right associativity) : stateful_scope.
Notation "m ;;; k" := (sbind m (fun _ => k))
  (at level 61, right associativity) : stateful_scope.

(** *** More of the runtime *)

(** [s.includes(t)] on strings. *)
Definition includes (s t : string) : bool :=
  match String.index 0 t s with Some _ => true | None => false end.

(** The method call [v.includes(t)]: strings and arrays have the
    method. *)
Definition includesCall (v : value) (t : string) : completion bool :=
  match v with
  | JStr s => Normal (includes s t)
  | JArr l => Normal (existsb (sameValueZero (JStr t)) l)
  | _ => Throw TypeError
  end.

(** [v[0]], for a [v] that is neither [null] nor [undefined]. *)
Definition index0 (v : value) : value :=
  match v with
  | JArr l => hd JUndefined l
  | JStr (String a _) => JStr (String a EmptyString)
  | JObj _ => prop v "0"
  | _ => JUndefined
  end.

(** What [for (const x of v)] iterates over. *)
Definition iterate (v : value) : completion (list value) :=
  match v with
  | JArr l => Normal l
  | JStr s => Normal (characters s)
  | _ => Throw TypeError
  end.

(** [Array.prototype.forEach] with a function that may raise. *)
Fixpoint forEach (f : value -> completion unit) (l : list value) : completion unit :=
  match l with
  | [] => Normal tt
  | x :: rest => (f x ;;; forEach f rest)%exc
  end.

(** A [Set] of strings, in insertion order. *)
Definition addString (s : list string) (x : string) : list string :=
  if existsb (String.eqb x) s then s else s ++ [x].

(** [!config.apiUrl || !config.username || !config.password] *)
Definition incomplete (c : config) : bool :=
  (String.eqb (apiUrl c) "" || String.eqb (username c) ""
   || String.eqb (password c) "")%bool.

(** *** The requests of the lookups *)

(** The other calls [axios.get] is given, one constructor per call site;
    every one carries the same [Authorization] header. *)
Inductive lookup : Type :=
| OrderById (orderId : string)
    (** [/wp-json/wc/v3/orders/${orderId}] *)
| Stores
    (** [/wp-json/dokan/v1/stores], [per_page=100] *)
| UsersMe
    (** [/wp-json/wp/v2/users/me] *)
| StoresOfOwner (userId : value)
    (** [/wp-json/dokan/v1/stores], [owner_id=userId] *)
| OrdersSample
    (** [/wp-json/wc/v3/orders], [per_page=10] *).

Record query : Type := {
  site : string;
  auth : string * string;
  about : lookup
}.

Definition queryOf (c : config) (k : lookup) : query :=
  {| site := apiUrl c; auth := (username c, password c); about := k |}.

Section Lookups.

Context {Net : Type}.

(** [axios.get] on these calls: the [data] of the response, or an
    error. *)
Variable axiosLookup : query -> Net -> completion value * Net.

Variable StringToNumber : string -> option Z.

(** [String.prototype.toLowerCase]. *)
Variable toLowerCase : string -> string.

(** The network, and the queries sent so far. *)
Definition wire : Type := (Net * list query)%type.

Local Open Scope stateful_scope.

(** [await axios.get(...)], then [response.data] *)
Definition httpLookup (q : query) : stateful wire value :=
  fun s => let (res, n) := axiosLookup q (fst s) in (res, (n, snd s ++ [q])).

(** **** [getOrderDetails] *)

Definition getOrderDetails (c : config) (orderId : value) : stateful wire value :=
  stry
    (slift (ToString orderId) ;;;
     if incomplete c
     then sthrow (Failure "Configurações incompletas para obter detalhes do pedido")
     else if negb (truthy orderId)
     then sthrow (Failure "ID do pedido é obrigatório")
     else
       idText <- slift (ToString orderId) ;;
       data <- httpLookup (queryOf c (OrderById idText)) ;;
       if negb (truthy data) || negb (truthy (prop data "id"))
       then sthrow (Failure ("Não foi possível obter detalhes válidos para o pedido #"
                             ++ idText))
       else if truthy (vendorId c)
       then belongs <- slift (orderBelongsToVendor data (vendorId c)) ;;
            if belongs then sret data
            else vendorText <- slift (ToString (vendorId c)) ;;
                 sthrow (Failure ("Pedido #" ++ idText ++ " não pertence ao vendedor "
                                  ++ vendorText))
       else sret data)
    (fun e => sthrow e).

(** **** [getVendorIdFromCredentials] *)

(** The method call [v.toLowerCase()]: only a string has the method. *)
Definition lowerOf (v : value) : completion string :=
  match v with
  | JStr s => Normal (toLowerCase s)
  | _ => Throw TypeError
  end.

(** The log line written for every vendor of the list: it reads and
    prints [vendor.id], [vendor.store_name] and [vendor.email || 'N/A']. *)
Definition describeVendor (vendor : value) : completion unit :=
  (id <- getProp vendor "id" ;;
   ToString id ;;;
   name <- getProp vendor "store_name" ;;
   ToString name ;;;
   email <- getProp vendor "email" ;;
   ToString (if truthy email then email else JStr "N/A") ;;;
   Normal tt)%exc.

(** [(vendor.email && test(vendor.email.toLowerCase())) ||
     (vendor.user && vendor.user.email && test(vendor.user.email.toLowerCase()))] *)
Definition emailMatches (test : string -> bool) (vendor : value) : completion bool :=
  (email <- getProp vendor "email" ;;
   direct <- (if truthy email then (s <- lowerOf email ;; Normal (test s))
              else Normal false) ;;
   if direct then Normal true else
   let user := prop vendor "user" in
   if truthy user && truthy (prop user "email")
   then (s <- lowerOf (prop user "email") ;; Normal (test s))
   else Normal false)%exc.

(** [vendor.store_name && vendor.store_name.toLowerCase().includes(u)] *)
Definition storeMatches (u : string) (vendor : value) : completion bool :=
  (name <- getProp vendor "store_name" ;;
   if truthy name then (s <- lowerOf name ;; Normal (includes s u))
   else Normal false)%exc.

(** The first method: the list of stores, searched for the user name as
    an e-mail address (exactly, then as a part) or as a part of a store
    name. [None] when the method gives nothing and the next one is to be
    tried. *)
Definition byStoreList (c : config) : stateful wire (option string) :=
  stry
    (data <- httpLookup (queryOf c Stores) ;;
     if truthy data && isArray data && (0 <? List.length (elements data))%nat
     then
       let vendors := elements data in
       let u := toLowerCase (username c) in
       slift (forEach describeVendor vendors) ;;;
       byEmail <- slift (if includes (username c) "@"
                         then (exact <- arrayFind (emailMatches (String.eqb u)) vendors ;;
                               if truthy exact then Normal exact
                               else arrayFind (emailMatches (fun s => includes s u)) vendors)%exc
                         else Normal JNull) ;;
       matchedVendor <- slift (if truthy byEmail then Normal byEmail
                               else arrayFind (storeMatches u) vendors) ;;
       if truthy matchedVendor
       then slift (ToString (prop matchedVendor "id")) ;;;
            slift (ToString (prop matchedVendor "store_name")) ;;;
            id <- slift (toStringCall (prop matchedVendor "id")) ;;
            sret (Some id)
       else sret None
     else sret None)
    (fun _ => sret None).

(** The second method: the current user, then the store owned by that
    user; the id of the user itself when no store is found. *)
Definition byCurrentUser (c : config) : stateful wire (option string) :=
  stry
    (data <- httpLookup (queryOf c UsersMe) ;;
     if truthy data && truthy (prop data "id")
     then
       let userId := prop data "id" in
       slift (ToString userId) ;;;
       viaStore <- stry
                     (slift (ToString userId) ;;;
                      stores <- httpLookup (queryOf c (StoresOfOwner userId)) ;;
                      some <- slift (hasItems StringToNumber stores) ;;
                      if some
                      then vendorId <- slift (getProp (index0 stores) "id") ;;
                           slift (ToString vendorId) ;;;
                           id <- slift (toStringCall vendorId) ;;
                           sret (Some id)
                      else sret None)
                     (fun _ => sret None) ;;
       match viaStore with
       | Some id => sret (Some id)
       | None => id <- slift (toStringCall userId) ;; sret (Some id)
       end
     else sret None)
    (fun _ => sret None).

(** The loop over the meta data of one order of the sample. *)
Fixpoint metaVendorIds (order : value) (metas : list value) (found : list string)
  : completion (list string) :=
  match metas with
  | [] => Normal found
  | meta :: rest =>
      (key <- getProp meta "key" ;;
       hit <- (if strictEqStr key "_dokan_vendor_id" || strictEqStr key "dokan_vendor_id"
                  || strictEqStr key "_vendor_id"
               then Normal true
               else includesCall key "vendor_id") ;;
       found' <- (if hit
                  then (val <- getProp meta "value" ;;
                        id <- toStringCall val ;;
                        ToString (prop order "id") ;;;
                        Normal (addString found id))
                  else Normal found) ;;
       metaVendorIds order rest found')%exc
  end.

(** The loop over the orders of the sample. *)
Fixpoint sampleVendorIds (orders : list value) (found : list string)
  : completion (list string) :=
  match orders with
  | [] => Normal found
  | order :: rest =>
      (md <- getProp order "meta_data" ;;
       found' <- (if truthy md && isArray md
                  then metaVendorIds order (elements md) found
                  else Normal found) ;;
       sampleVendorIds rest found')%exc
  end.

(** The third method: the vendor ids met in the meta data of a sample
    of orders, answered when there is exactly one. *)
Definition byOrderMeta (c : config) : stateful wire (option string) :=
  stry
    (data <- httpLookup (queryOf c OrdersSample) ;;
     some <- slift (hasItems StringToNumber data) ;;
     if some
     then orders <- slift (iterate data) ;;
          foundVendorIds <- slift (sampleVendorIds orders []) ;;
          match foundVendorIds with
          | [vendorId] => sret (Some vendorId)
          | _ => sret None
          end
     else sret None)
    (fun _ => sret None).

Definition getVendorIdFromCredentials (c : config) : stateful wire string :=
  stry
    (if incomplete c then sret "" else
     first <- byStoreList c ;;
     match first with
     | Some id => sret id
     | None =>
         second <- byCurrentUser c ;;
         match second with
         | Some id => sret id
         | None =>
             third <- byOrderMeta c ;;
             match third with
             | Some id => sret id
             | None => sret ""
             end
         end
     end)
    (fun _ => sret "").

End Lookups.

(** The place of a lookup in the order the resolver tries them. *)
Definition rank (k : lookup) : nat :=
  match k with
  | OrderById _ => 0
  | Stores => 1
  | UsersMe => 2
  | StoresOfOwner _ => 3
  | OrdersSample => 4
  end.

(** [Sends c lo hi m]: whether it returns or raises, the program [m]
    only adds queries to those sent, all built from [c], of strictly
    increasing ranks above [lo] and up to [hi]. *)
Definition Sends {Net A} (c : config) (lo hi : nat) (m : stateful (@wire Net) A) : Prop :=
  forall st, exists n qs,
    snd (m st) = (n, snd st ++ qs)
    /\ Forall (fun q => q = queryOf c (about q)) qs
    /\ chain lo hi (map (fun q => rank (about q)) qs).

(** An order carries the vendor id [id] in its meta data: an entry whose
    [key] has [vendor_id] in it has a [value] that prints as [id]. *)
Definition carriesVendor (order : value) (id : string) : Prop :=
  exists meta,
    In meta (elements (prop order "meta_data"))
    /\ includesCall (prop meta "key") "vendor_id" = Normal true
    /\ toStringCall (prop meta "value") = Normal id.

(* ================================================================== *)
(** ** The configuration as it is saved ([main.js]) *)
(* ================================================================== *)

(** The properties [sanitizeConfigObject] copies, in its order. *)
Definition safeProps : list string :=
  ["apiUrl"; "username"; "password"; "vendorId"; "checkInterval";
   "printerId"; "autostart"; "printWidth"].

(** [v !== undefined] *)
Definition defined (v : value) : bool :=
  match v with JUndefined => false | _ => true end.

(** [typeof v === 'object' && v !== null] *)
Definition isObject (v : value) : bool :=
  match v with JArr _ | JObj _ => true | _ => false end.

(** [o[k] = v] on the properties of [o]: an existing property keeps its
    place, a new one comes last. *)
Fixpoint setProp (k : string) (v : value) (ps : list (string * value))
  : list (string * value) :=
  match ps with
  | [] => [(k, v)]
  | (k', x) :: rest =>
      if String.eqb k' k then (k', v) :: rest else (k', x) :: setProp k v rest
  end.

Section Sanitize.

(** [JSON.stringify] answers a string or [undefined], or raises. *)
Variable JSONstringify : value -> completion (option string).
Variable StringToNumber : string -> option Z.

(** The [try]/[catch] around [JSON.stringify]: [String(v)] where it
    raises. *)
Definition stringified (v : value) : completion value :=
  tryCatch
    (r <- JSONstringify v ;;
     Normal (match r with Some s => JStr s | None => JUndefined end))%exc
    (fun _ => (s <- ToString v ;; Normal (JStr s))%exc).

(** The loop [for (const prop of safeProps)]. *)
Fixpoint copySafe (config : value) (props : list string)
  (safeConfig : list (string * value)) : completion (list (string * value)) :=
  match props with
  | [] => Normal safeConfig
  | p :: rest =>
      (v <- getProp config p ;;
       safeConfig' <- (if defined v
                       then if isObject v
                            then (s <- stringified v ;; Normal (setProp p s safeConfig))
                            else Normal (setProp p v safeConfig)
                       else Normal safeConfig) ;;
       copySafe config rest safeConfig')%exc
  end.

(** [if (o[k]) o[k] = Number(o[k]) || d] *)
Definition numberOr (k : string) (d : Z) (ps : list (string * value))
  : completion (list (string * value)) :=
  let v := prop (JObj ps) k in
  if truthy v
  then (n <- ToNumber StringToNumber v ;;
        Normal (setProp k (JNum (match n with
                                 | Some z => if (z =? 0)%Z then d else z
                                 | None => d
                                 end)) ps))%exc
  else Normal ps.

(** [if (o[k] !== undefined) o[k] = Boolean(o[k])] *)
Definition booleanOf (k : string) (ps : list (string * value)) : list (string * value) :=
  let v := prop (JObj ps) k in
  if defined v then setProp k (JBool (truthy v)) ps else ps.

Definition sanitizeConfigObject (config : value) : completion value :=
  (safeConfig <- copySafe config safeProps [] ;;
   safeConfig <- numberOr "checkInterval" 60 safeConfig ;;
   let safeConfig := booleanOf "autostart" safeConfig in
   safeConfig <- numberOr "printWidth" 48 safeConfig ;;
   Normal (JObj safeConfig))%exc.

End Sanitize.

(* ================================================================== *)
(** ** The support password of the day ([utils.js], [generateDailyPassword]) *)
(* ================================================================== *)

(** ToInt32: a number read as a 32-bit integer in two's complement. *)
Definition toInt32 (z : Z) : Z := ((z + 2 ^ 31) mod 2 ^ 32 - 2 ^ 31)%Z.

(** [h << 5] *)
Definition shl5 (h : Z) : Z := toInt32 (Z.shiftl (toInt32 h) 5).

(** The code units [charCodeAt] answers along a string. *)
Definition charCodes (s : string) : list Z :=
  map (fun a => Z.of_nat (nat_of_ascii a)) (list_ascii_of_string s).

(** One turn of the loop of [simpleHash]:
    [hash = ((hash << 5) - hash) + char; hash = hash & hash]. *)
Definition hashStep (hash char : Z) : Z :=
  toInt32 ((shl5 hash - hash) + char).

Definition simpleHash (input : Z) : Z :=
  Z.abs (fold_left hashStep (charCodes (numberToString input)) 0%Z).

Definition alphabet : string := "abcdefghijklmnopqrstuvwxyz0123456789".

(** What [s[index]] adds to a string: the character, or [undefined]
    where there is none. *)
Definition charAt (s : string) (index : Z) : string :=
  if (index <? 0)%Z then "undefined"
  else match String.get (Z.to_nat index) s with
       | Some a => String a EmptyString
       | None => "undefined"
       end.

(** The loop [for (let i = 0; i < 4; i++)], [n] turns of it. *)
Fixpoint suffix (n : nat) (result : string) (tempHash : Z) : string :=
  match n with
  | O => result
  | S n' =>
      let index := Z.rem tempHash (Z.of_nat (String.length alphabet)) in
      suffix n' (result ++ charAt alphabet index)%string
        (tempHash / Z.of_nat (String.length alphabet))%Z
  end.

(** [generateDailyPassword] on the day the clock shows: [fullYear],
    [month0] and [date] are what [getFullYear], [getMonth] and [getDate]
    answer. *)
Definition generateDailyPassword (fullYear month0 date : Z) : string :=
  let year := fullYear in
  let month := (month0 + 1)%Z in
  let day := date in
  let seed := (year * 10000 + month * 100 + day)%Z in
  let hashValue := simpleHash seed in
  ("suporte" ++ suffix 4 "" hashValue)%string.

(** The base-31 polynomial of a list of codes. *)
Definition poly31 (codes : list Z) : Z :=
  fold_left (fun h c => (31 * h + c)%Z) codes 0%Z.

(** ** A concrete store and handler, for the examples *)

Module Mock.

(** The store answers each call from a fixed table. *)
Definition Net : Type := call -> completion value.

Definition axiosGet (r : request) (n : Net) : completion value * Net :=
  (n (what r), n).

Definition StringToNumber (s : string) : option Z := None.

Definition getVendorIdFromCredentials (c : config) (n : Net) : string * Net :=
  ("", n).

(** A detection that finds vendor 7. *)
Definition detects7 (c : config) (n : Net) : string * Net := ("7", n).

(** A handler that prints, and one whose printer is down. *)
Definition accepts (order : value) (h : unit) : completion unit * unit :=
  (Normal tt, h).


Definition config7 (interval : value) : config :=
  {| apiUrl := "https://loja.example"; username := "ck"; password := "cs";
     vendorId := JStr "7"; checkInterval := interval |}.

(** An order of vendor 7. *)
Definition order (id : Z) : value :=
  JObj [("id", JNum id); ("status", JStr "processing");
        ("meta_data", JArr [JObj [("key", JStr "_dokan_vendor_id");
                                  ("value", JStr "7")]])].

Definition idle (n : Net) (s : option (list value)) : @world Net unit :=
  {| processedOrders := s; stateFile := NoFile; diskWritable := true;
     isListening := false; intervalId := None; timers := []; nextTimer := 1;
     net := n; handler := tt; clock := "2025-01-01T00:00:00.000Z"; trace := [] |}.

(** An order of vendor 7 that has no [id]. *)
Definition anonymous : value :=
  JObj [("status", JStr "processing");
        ("meta_data", JArr [JObj [("key", JStr "_dokan_vendor_id");
                                  ("value", JStr "7")]])].

(** A store with no orders at all. *)
Definition empty : Net := fun _ => Normal (JArr []).

(** A listener at work: its timer, number 1, fires every minute; a
    timer of another owner, number 2, every second. *)
Definition listening (s : option (list value)) : @world Net unit :=
  {| processedOrders := s; stateFile := NoFile; diskWritable := true;
     isListening := true; intervalId := Some 1;
     timers := [(1, Some 60000%Z); (2, Some 1000%Z)]; nextTimer := 3;
     net := empty; handler := tt; clock := "2025-01-01T00:00:00.000Z"; trace := [] |}.




(** The parameters [checkForNewOrders] gives to the first method. *)
Definition apiParams7 : value :=
  JObj [("per_page", JNum 20); ("status", JStr "processing"); ("vendor_id", JStr "7")].

(** The [n] ids [first], [first + 1], ... as a ledger holds them. *)
Definition ids (first n : nat) : list value :=
  map (fun k => JNum (Z.of_nat k)) (seq first n).

(** A store whose first method lists the given orders. *)
Definition listing (orders : list value) : Net :=
  fun k => match k with
           | OrdersWith _ => Normal (JArr orders)
           | _ => Normal (JArr [])
           end.

(** A store that lists the same orders at every poll; its network has
    no state. *)
Definition steadyGet (orders : list value) (r : request) (n : unit)
  : completion value * unit :=
  (match what r with
   | OrdersWith _ => Normal (JArr orders)
   | _ => Normal (JArr [])
   end, n).

Definition idleSteady (s : option (list value)) : @world unit unit :=
  {| processedOrders := s; stateFile := NoFile; diskWritable := true;
     isListening := false; intervalId := None; timers := []; nextTimer := 1;
     net := tt; handler := tt; clock := "2025-01-01T00:00:00.000Z"; trace := [] |}.

(** An order of vendor 9, and a store that shows it in its listing of
    recent orders only. *)
Definition foreign : value :=
  JObj [("id", JNum 300); ("status", JStr "processing");
        ("meta_data", JArr [JObj [("key", JStr "_dokan_vendor_id");
                                  ("value", JStr "9")]])].

Definition recentOnly : Net :=
  fun k => match k with
           | OrdersRecent => Normal (JArr [foreign])
           | _ => Normal (JArr [])
           end.

(** A machine on which an earlier session left order 100 in the state
    file. *)
Definition resumed (n : Net) : @world Net unit :=
  setStateFile (Document (ledgerDocument [JNum 100] "2024-12-31T23:00:00.000Z"))
    (idle n None).

(** A store that shows the given orders in its listing of recent orders
    only. *)
Definition recent (orders : list value) : Net :=
  fun k => match k with
           | OrdersRecent => Normal (JArr orders)
           | _ => Normal (JArr [])
           end.

(** A machine whose state file cannot be written. *)
Definition readOnly (s : option (list value)) : @world Net unit :=
  {| processedOrders := s; stateFile := NoFile; diskWritable := false;
     isListening := false; intervalId := None; timers := []; nextTimer := 1;
     net := empty; handler := tt; clock := "2025-01-01T00:00:00.000Z"; trace := [] |}.

(** The store as the lookups see it: each call answered from a fixed
    table. *)
Definition Directory : Type := lookup -> completion value.

Definition axiosLookup (q : query) (n : Directory) : completion value * Directory :=
  (n (about q), n).

(** Lower case of the unaccented Latin letters. *)
Definition toLowerCase (s : string) : string :=
  string_of_list_ascii
    (map (fun a => let n := nat_of_ascii a in
                   if (65 <=? n)%nat && (n <=? 90)%nat then ascii_of_nat (n + 32) else a)
         (list_ascii_of_string s)).

(** A store that answers no lookup but the sample of orders. *)
Definition sampleOf (orders : list value) : Directory :=
  fun k => match k with
           | OrdersSample => Normal (JArr orders)
           | _ => Throw (Failure "Request failed with status code 404")
           end.

(** A store that lists its vendors and answers nothing else. *)
Definition storesOf (vendors : list value) : Directory :=
  fun k => match k with
           | Stores => Normal (JArr vendors)
           | _ => Throw (Failure "Request failed with status code 404")
           end.

(** A store that tells who is logged in and answers nothing else. *)
Definition userOnly (user : value) : Directory :=
  fun k => match k with
           | UsersMe => Normal user
           | _ => Throw (Failure "Request failed with status code 404")
           end.

(** A store that serves single orders. *)
Definition ordersById (served : string -> completion value) : Directory :=
  fun k => match k with
           | OrderById id => served id
           | _ => Throw (Failure "Request failed with status code 404")
           end.

(** An order of the given vendor. *)
Definition orderOf (id : Z) (vendor : string) : value :=
  JObj [("id", JNum id); ("status", JStr "processing");
        ("meta_data", JArr [JObj [("key", JStr "_dokan_vendor_id");
                                  ("value", JStr vendor)]])].

(** A [JSON.stringify] that prints the arrays of numbers and gives up on
    every other value. *)
Definition JSONstringify (v : value) : completion (option string) :=
  match v with
  | JArr l =>
      if forallb (fun x => match x with JNum _ => true | _ => false end) l
      then (s <- joinWith ToString "," l ;; Normal (Some ("[" ++ s ++ "]")%string))%exc
      else Throw (Failure "Converting circular structure to JSON")
  | _ => Throw (Failure "Converting circular structure to JSON")
  end.

End Mock.

(* ================================================================== *)
(** * Properties *)
(* ================================================================== *)

(** ** The verifier *)

Section Verifier.

Local Open Scope exc_scope.

Lemma bindC_Normal_inv A B (m : completion A) (k : A -> completion B) b :
  bindC m k = Normal b -> exists a, m = Normal a /\ k a = Normal b.
Proof. destruct m as [a|e]; simpl; [eauto | discriminate]. Qed.

Lemma valueMatches_true x s :
  valueMatches x s = Normal true -> truthy x = true /\ x <> JUndefined.
Proof.
  unfold valueMatches. destruct (truthy x) eqn:T; [|discriminate].
  intros _. split; [reflexivity|]. intros ->. discriminate.
Qed.

Lemma present_In v : v <> JUndefined -> In v (present v).
Proof. destruct v; simpl; auto; congruence. Qed.

Lemma metaMatches_true keys s meta :
  metaMatches keys s meta = Normal true ->
  truthy meta = true
  /\ existsb (strictEqStr (prop meta "key")) keys = true
  /\ valueMatches (prop meta "value") s = Normal true.
Proof.
  unfold metaMatches. intros H.
  apply bindC_Normal_inv in H as (key & Hk & H).
  destruct (existsb (strictEqStr key) keys) eqn:E; [|discriminate].
  apply bindC_Normal_inv in H as (val & Hv & H).
  destruct meta; simpl in Hk, Hv; try discriminate;
    injection Hk as <-; injection Hv as <-; simpl in E; auto.
  all: exfalso; clear -E; induction keys; simpl in E; auto; discriminate.
Qed.

Lemma alias_key_object meta keys :
  existsb (strictEqStr (prop meta "key")) keys = true -> exists ps, meta = JObj ps.
Proof.
  destruct meta; simpl; eauto; induction keys; simpl; auto; discriminate.
Qed.

Lemma metaMatches_evidence keys s meta metas :
  In meta metas -> metaMatches keys s meta = Normal true ->
  In (prop meta "value") (metaEvidence keys metas).
Proof.
  intros Hin H. apply metaMatches_true in H as (_ & Hk & Hv).
  apply valueMatches_true in Hv as (_ & Hne).
  unfold metaEvidence. apply in_flat_map. exists meta. split; [exact Hin|].
  rewrite Hk. now apply present_In.
Qed.

(** What [find] answers is [undefined] or an element satisfying the
    predicate. *)
Lemma arrayFind_Normal p l r :
  arrayFind p l = Normal r -> truthy r = true -> In r l /\ p r = Normal true.
Proof.
  induction l as [|x l IH]; simpl; intros H T.
  - injection H as <-. discriminate.
  - apply bindC_Normal_inv in H as (b & Hp & H). destruct b.
    + injection H as <-. auto.
    + destruct (IH H T). auto.
Qed.

(** When [find] completes and some element satisfies the meta predicate,
    the element found is an object, hence truthy. *)
Lemma arrayFind_metaMatches keys s l x r :
  arrayFind (metaMatches keys s) l = Normal r ->
  In x l -> metaMatches keys s x = Normal true -> truthy r = true.
Proof.
  induction l as [|y l IH]; simpl; intros H Hin Hx; [contradiction|].
  apply bindC_Normal_inv in H as (b & Hp & H). destruct b.
  - injection H as <-. now apply metaMatches_true in Hp as (T & _).
  - destruct Hin as [->|Hin]; [congruence|]. eauto.
Qed.

Lemma metaCheck_sound keys s m :
  metaCheck keys s m = Normal true ->
  exists v, In v (metaEvidence keys (elements m)) /\ valueMatches v s = Normal true.
Proof.
  unfold metaCheck. destruct (truthy m && isArray m); [|discriminate].
  intros H. apply bindC_Normal_inv in H as (r & Hf & H). injection H as T.
  destruct (arrayFind_Normal _ _ _ Hf T) as (Hin & Hm).
  exists (prop r "value"). split; [eapply metaMatches_evidence; eauto|].
  now apply metaMatches_true in Hm.
Qed.

Lemma metaCheck_complete keys s m v b :
  In v (metaEvidence keys (elements m)) -> valueMatches v s = Normal true ->
  metaCheck keys s m = Normal b -> b = true.
Proof.
  unfold metaCheck, metaEvidence. intros Hin Hv H.
  apply in_flat_map in Hin as (meta & Hin & Hval).
  destruct (existsb (strictEqStr (prop meta "key")) keys) eqn:Hk; [|contradiction].
  assert (Hp : prop meta "value" = v).
  { destruct (prop meta "value"); simpl in Hval; intuition. }
  assert (Hm : metaMatches keys s meta = Normal true).
  { destruct (alias_key_object _ _ Hk) as (ps & ->).
    unfold metaMatches. cbn [getProp bindC]. rewrite Hk, Hp. exact Hv. }
  destruct m; simpl in Hin; try contradiction. simpl in H.
  apply bindC_Normal_inv in H as (r & Hf & H). injection H as <-.
  eapply arrayFind_metaMatches; eauto.
Qed.

Lemma getProp_Normal v k r : getProp v k = Normal r -> r = prop v k.
Proof. destruct v; simpl; intros H; try discriminate; now injection H. Qed.

Lemma lineItemsBelong_sound s items :
  lineItemsBelong s items = Normal true ->
  exists v, In v (flat_map itemEvidence items) /\ valueMatches v s = Normal true.
Proof.
  induction items as [|item items IH]; simpl; intros H; [discriminate|].
  apply bindC_Normal_inv in H as (md & Hmd & H). apply getProp_Normal in Hmd as ->.
  apply bindC_Normal_inv in H as (viaMeta & Hc & H).
  destruct viaMeta.
  - destruct (metaCheck_sound _ _ _ Hc) as (v & Hin & Hv).
    exists v. split; [|exact Hv]. unfold itemEvidence. rewrite !in_app_iff. auto.
  - apply bindC_Normal_inv in H as (vid & Hvid & H). apply getProp_Normal in Hvid as ->.
    apply bindC_Normal_inv in H as (m & Hm & H). destruct m.
    + exists (prop item "vendor_id"). split; [|exact Hm].
      unfold itemEvidence. rewrite !in_app_iff. left. right.
      apply present_In. now apply valueMatches_true in Hm.
    + destruct (IH H) as (v & Hin & Hv). exists v. rewrite in_app_iff. auto.
Qed.

Lemma present_inv v x : In v (present x) -> x = v.
Proof. destruct x; simpl; intuition. Qed.

Lemma lineItemsBelong_complete s items v b :
  In v (flat_map itemEvidence items) -> valueMatches v s = Normal true ->
  lineItemsBelong s items = Normal b -> b = true.
Proof.
  induction items as [|item items IH]; simpl; intros Hin Hv H; [contradiction|].
  apply bindC_Normal_inv in H as (md & Hmd & H). apply getProp_Normal in Hmd as ->.
  apply bindC_Normal_inv in H as (viaMeta & Hc & H).
  destruct viaMeta; [now injection H|].
  apply bindC_Normal_inv in H as (vid & Hvid & H). apply getProp_Normal in Hvid as ->.
  apply bindC_Normal_inv in H as (m & Hm & H).
  destruct m; [now injection H|].
  unfold itemEvidence in Hin. rewrite !in_app_iff in Hin.
  destruct Hin as [[Hin|Hin]|Hin].
  - now pose proof (metaCheck_complete _ _ _ _ _ Hin Hv Hc).
  - apply present_inv in Hin. congruence.
  - eauto.
Qed.

Lemma fieldsBelong_sound order s fields :
  fieldsBelong order s fields = Normal true ->
  exists v, In v (flat_map (fun field => present (prop order field)) fields)
            /\ valueMatches v s = Normal true.
Proof.
  induction fields as [|f fields IH]; simpl; intros H; [discriminate|].
  apply bindC_Normal_inv in H as (m & Hm & H). destruct m.
  - exists (prop order f). split; [|exact Hm]. rewrite in_app_iff. left.
    apply present_In. now apply valueMatches_true in Hm.
  - destruct (IH H) as (v & Hin & Hv). exists v. rewrite in_app_iff. auto.
Qed.

Lemma fieldsBelong_complete order s fields v b :
  In v (flat_map (fun field => present (prop order field)) fields) ->
  valueMatches v s = Normal true ->
  fieldsBelong order s fields = Normal b -> b = true.
Proof.
  induction fields as [|f fields IH]; simpl; intros Hin Hv H; [contradiction|].
  apply bindC_Normal_inv in H as (m & Hm & H).
  destruct m; [now injection H|].
  rewrite in_app_iff in Hin. destruct Hin as [Hin|Hin]; [|eauto].
  apply present_inv in Hin. congruence.
Qed.

Lemma evidenceValues_unfold order :
  evidenceValues order =
  metaEvidence orderMetaKeys (elements (prop order "meta_data"))
  ++ flat_map itemEvidence (elements (prop order "line_items"))
  ++ flat_map (fun field => present (prop order field)) possibleFields.
Proof. reflexivity. Qed.

(** Soundness of a positive verdict: it always rests on a stored
    annotation that is truthy and prints as the vendor id. *)
Lemma verdict_true_evidence order vendorId :
  orderBelongsToVendor_try order vendorId = Normal true ->
  exists v s, In v (evidenceValues order)
              /\ toStringCall vendorId = Normal s
              /\ valueMatches v s = Normal true.
Proof.
  unfold orderBelongsToVendor_try.
  destruct (negb (truthy order) || negb (truthy vendorId)); [discriminate|].
  intros H. apply bindC_Normal_inv in H as (s & Hs & H).
  apply bindC_Normal_inv in H as (_ & _ & H).
  apply bindC_Normal_inv in H as (viaMeta & Hc & H).
  rewrite evidenceValues_unfold.
  destruct viaMeta.
  { destruct (metaCheck_sound _ _ _ Hc) as (v & Hin & Hv).
    exists v, s. rewrite !in_app_iff. auto. }
  cbv zeta in H. apply bindC_Normal_inv in H as (viaItems & Hi & H).
  destruct viaItems.
  { destruct (truthy (prop order "line_items") && isArray (prop order "line_items"));
      [|discriminate].
    destruct (lineItemsBelong_sound _ _ Hi) as (v & Hin & Hv).
    exists v, s. rewrite !in_app_iff. auto. }
  destruct (fieldsBelong_sound _ _ _ H) as (v & Hin & Hv).
  exists v, s. rewrite !in_app_iff. auto.
Qed.

(** Completeness up to errors: when the inspection completes and the
    order carries a matching annotation, the verdict is positive. *)
Lemma evidence_verdict_true order vendorId v s b :
  truthy order = true -> truthy vendorId = true ->
  In v (evidenceValues order) ->
  toStringCall vendorId = Normal s ->
  valueMatches v s = Normal true ->
  orderBelongsToVendor_try order vendorId = Normal b -> b = true.
Proof.
  unfold orderBelongsToVendor_try. intros -> -> Hin Hs Hv. simpl negb. simpl orb.
  rewrite Hs. cbn [bindC]. intros H.
  apply bindC_Normal_inv in H as (_ & _ & H).
  apply bindC_Normal_inv in H as (viaMeta & Hc & H).
  destruct viaMeta; [now injection H|].
  cbv zeta in H. apply bindC_Normal_inv in H as (viaItems & Hi & H).
  destruct viaItems; [now injection H|].
  rewrite evidenceValues_unfold, !in_app_iff in Hin.
  destruct Hin as [Hin|[Hin|Hin]].
  - now pose proof (metaCheck_complete _ _ _ _ _ Hin Hv Hc).
  - destruct (prop order "line_items") eqn:E; simpl in Hin; try contradiction.
    simpl in Hi. now pose proof (lineItemsBelong_complete _ _ _ _ Hin Hv Hi).
  - eapply fieldsBelong_complete; eauto.
Qed.

(** An order carrying evidence is an object. *)
Lemma evidence_truthy order v : In v (evidenceValues order) -> truthy order = true.
Proof. destruct order; simpl; auto. Qed.

(** The verdict is negative as soon as no stored annotation is truthy
    and prints as the vendor id: every other path of the function is a
    rejection, the error path included. *)
Lemma no_match_rejected order vendorId :
  (forall v s, In v (evidenceValues order) -> toStringCall vendorId = Normal s ->
               valueMatches v s <> Normal true) ->
  orderBelongsToVendor order vendorId = Normal false.
Proof.
  intros Hno. unfold orderBelongsToVendor, tryCatch.
  destruct (orderBelongsToVendor_try order vendorId) as [[|]|e] eqn:E; try reflexivity.
  apply verdict_true_evidence in E as (v & s & Hin & Hs & Hv).
  now destruct (Hno v s Hin Hs).
Qed.

Lemma falsy_rejected order vendorId :
  truthy order = false \/ truthy vendorId = false ->
  orderBelongsToVendor order vendorId = Normal false.
Proof.
  intros H. unfold orderBelongsToVendor, orderBelongsToVendor_try.
  destruct H as [-> | ->]; simpl; [reflexivity|].
  now rewrite orb_true_r.
Qed.

(** C2. [orderBelongsToVendor] never throws: on every pair of arguments
    it returns a boolean. It returns [false] when the order is null or
    missing (or any other falsy value), when the vendor id is null or
    missing (or any other falsy value), and for every order that carries
    no ownership evidence in any of the three categories. *)
Theorem orderBelongsToVendor_fail_closed (order vendorId : value) :
  (exists b, orderBelongsToVendor order vendorId = Normal b)
  /\ (truthy order = false -> orderBelongsToVendor order vendorId = Normal false)
  /\ (truthy vendorId = false -> orderBelongsToVendor order vendorId = Normal false)
  /\ (evidenceValues order = [] -> orderBelongsToVendor order vendorId = Normal false).
Proof.
  split; [|split; [|split]].
  - unfold orderBelongsToVendor, tryCatch.
    destruct (orderBelongsToVendor_try order vendorId); eauto.
  - intros H. apply falsy_rejected. now left.
  - intros H. apply falsy_rejected. now right.
  - intros H. apply no_match_rejected. intros v s Hin. rewrite H in Hin. contradiction.
Qed.

(** An order with billing data and a line item, none of them annotated
    with a vendor, is rejected for vendor 7; so are a null order and a
    null vendor id. *)
Lemma orderBelongsToVendor_fail_closed_witness :
  let order := JObj [("id", JNum 100); ("status", JStr "processing");
                     ("meta_data", JArr [JObj [("key", JStr "_billing_cpf");
                                               ("value", JStr "123")]]);
                     ("line_items", JArr [JObj [("name", JStr "Pizza");
                                                ("meta_data", JArr [])]])] in
  orderBelongsToVendor order (JStr "7") = Normal false
  /\ orderBelongsToVendor JNull (JStr "7") = Normal false
  /\ orderBelongsToVendor order JNull = Normal false.
Proof.
  intros order. split; [|split].
  - destruct (orderBelongsToVendor_fail_closed order (JStr "7")) as (_ & _ & _ & H).
    apply H. reflexivity.
  - destruct (orderBelongsToVendor_fail_closed JNull (JStr "7")) as (_ & H & _).
    apply H. reflexivity.
  - destruct (orderBelongsToVendor_fail_closed order JNull) as (_ & _ & H & _).
    apply H. reflexivity.
Defined.

(** C10. Ownership evidence whose stored value is falsy (the number 0,
    the empty string, null, false) never counts as a match: an order all
    of whose annotations are falsy is rejected for every vendor id. *)
Theorem falsy_evidence_ignored (order vendorId : value) :
  forallb (fun v => negb (truthy v)) (evidenceValues order) = true ->
  orderBelongsToVendor order vendorId = Normal false.
Proof.
  intros H. apply no_match_rejected. intros v s Hin _ Hv.
  rewrite forallb_forall in H. specialize (H v Hin).
  apply valueMatches_true in Hv as (T & _). rewrite T in H. discriminate.
Qed.

(** The order whose only annotation is [_dokan_vendor_id = 0] is rejected
    for the configured vendor id ["0"]. *)
Lemma falsy_evidence_ignored_witness :
  let order := JObj [("id", JNum 100);
                     ("meta_data", JArr [JObj [("key", JStr "_dokan_vendor_id");
                                               ("value", JNum 0)]])] in
  evidenceValues order = [JNum 0]
  /\ orderBelongsToVendor order (JStr "0") = Normal false.
Proof.
  intros order. split; [reflexivity|].
  apply (falsy_evidence_ignored order (JStr "0")). reflexivity.
Defined.

(** Counterexample to C7 as stated: the evidence 42 sits behind a null
    entry of [meta_data]; reading [meta.key] on it raises, the error is
    caught and the order is rejected for vendor ["42"]. The same happens
    behind an entry whose value is an object with a [toString] property
    of its own, which cannot be called. *)
Lemma string_equivalence_counterexample :
  let evidence := JObj [("key", JStr "_dokan_vendor_id"); ("value", JNum 42)] in
  let order := JObj [("id", JNum 100); ("meta_data", JArr [JNull; evidence])] in
  let order' := JObj [("id", JNum 101);
                      ("meta_data",
                       JArr [JObj [("key", JStr "vendor_id");
                                   ("value", JObj [("toString", JStr "x")])];
                             evidence])] in
  (In (JNum 42) (evidenceValues order)
   /\ orderBelongsToVendor order (JStr "42") = Normal false)
  /\ (In (JNum 42) (evidenceValues order')
      /\ orderBelongsToVendor order' (JStr "42") = Normal false).
Proof.
  intros evidence order order'.
  split; (split; [simpl; auto | reflexivity]).
Qed.

(** C7, amended. Vendor ids are compared as strings after coercion: the
    verdict for the numeric vendor id 42 and for the string ["42"] is the
    same on every order, and on every order whose inspection raises no
    internal error, evidence whose value is the number 42 matches the
    configured vendor id ["42"] and evidence whose value is the string
    ["42"] matches the configured numeric vendor id 42. *)
Theorem vendor_id_string_equivalence (order : value) :
  orderBelongsToVendor order (JNum 42) = orderBelongsToVendor order (JStr "42")
  /\ (In (JNum 42) (evidenceValues order) ->
      throws (orderBelongsToVendor_try order (JStr "42")) = false ->
      orderBelongsToVendor order (JStr "42") = Normal true)
  /\ (In (JStr "42") (evidenceValues order) ->
      throws (orderBelongsToVendor_try order (JNum 42)) = false ->
      orderBelongsToVendor order (JNum 42) = Normal true).
Proof.
  split; [reflexivity|].
  split; intros Hin Hno; unfold orderBelongsToVendor, tryCatch.
  - destruct (orderBelongsToVendor_try order (JStr "42")) as [b|e] eqn:E; [|discriminate].
    f_equal. eapply (evidence_verdict_true order (JStr "42") (JNum 42) "42"); eauto.
    eapply evidence_truthy; eauto.
  - destruct (orderBelongsToVendor_try order (JNum 42)) as [b|e] eqn:E; [|discriminate].
    f_equal. eapply (evidence_verdict_true order (JNum 42) (JStr "42") "42"); eauto.
    eapply evidence_truthy; eauto.
Qed.

Lemma vendor_id_string_equivalence_witness :
  let byMeta := JObj [("id", JNum 100);
                      ("meta_data", JArr [JObj [("key", JStr "_dokan_vendor_id");
                                                ("value", JNum 42)]])] in
  let byItem := JObj [("id", JNum 101);
                      ("line_items", JArr [JObj [("vendor_id", JStr "42")]])] in
  orderBelongsToVendor byMeta (JStr "42") = Normal true
  /\ orderBelongsToVendor byItem (JNum 42) = Normal true.
Proof.
  intros byMeta byItem. split.
  - apply (proj1 (proj2 (vendor_id_string_equivalence byMeta)));
      [left; reflexivity | reflexivity].
  - apply (proj2 (proj2 (vendor_id_string_equivalence byItem)));
      [left; reflexivity | reflexivity].
Defined.

End Verifier.


(** ** The ledger file *)

Section LedgerFile.

Context {Net Handler : Type}.
Implicit Types w : @world Net Handler.

Lemma sameValueZero_sym a b : sameValueZero a b = sameValueZero b a.
Proof.
  destruct a, b; simpl; auto.
  - now destruct b, b0.
  - apply Z.eqb_sym.
  - apply String.eqb_sym.
Qed.

Lemma distinct_middle acc x l :
  distinct (acc ++ x :: l) = true -> setHas acc x = false.
Proof.
  unfold setHas. induction acc as [|a acc IH]; simpl; [reflexivity|].
  intros [Ha Hd]%andb_prop. rewrite (IH Hd), orb_false_r.
  apply negb_true_iff in Ha. rewrite existsb_app in Ha.
  apply orb_false_elim in Ha as [_ Ha]. simpl in Ha.
  apply orb_false_elim in Ha as [Ha _]. now rewrite sameValueZero_sym.
Qed.

(** Building a [Set] from a list without repetition keeps the list. *)
Lemma fold_setAdd_distinct l acc :
  distinct (acc ++ l) = true -> fold_left setAdd l acc = acc ++ l.
Proof.
  revert acc. induction l as [|x l IH]; intros acc H; simpl.
  - now rewrite app_nil_r.
  - unfold setAdd at 2. rewrite (distinct_middle _ _ _ H).
    rewrite IH; rewrite <- app_assoc; simpl; auto.
Qed.

Lemma setOfList_distinct l : distinct l = true -> setOfList l = l.
Proof. intros H. unfold setOfList. now rewrite fold_setAdd_distinct. Qed.

Lemma save_writable w s :
  processedOrders w = Some s -> diskWritable w = true ->
  saveProcessedOrdersState w
  = (Normal true, setStateFile (Document (ledgerDocument s (clock w))) w).
Proof.
  intros Hs Hd. unfold saveProcessedOrdersState, try, bind, gets, writeStateFile, ret.
  now rewrite Hs, Hd.
Qed.

Lemma load_document w s now :
  stateFile w = Document (ledgerDocument s now) ->
  loadProcessedOrdersState w
  = (Normal true, setProcessedOrders (Some (setOfList (map jsonRoundTrip s))) w).
Proof.
  intros Hf. unfold loadProcessedOrdersState, try, bind, gets, lift, modify, ret.
  now rewrite Hf.
Qed.

Lemma fold_setAdd_incl l acc y :
  In y (fold_left setAdd l acc) -> In y acc \/ In y l.
Proof.
  revert acc. induction l as [|x l IH]; intros acc H; simpl in *; [now left|].
  apply IH in H as [H|H]; [|now right; right].
  unfold setAdd in H. destruct (setHas acc x); [now left|].
  apply in_app_or in H as [H|[<-|[]]]; [now left | now right; left].
Qed.

Lemma jsonRoundTrip_defined v : jsonRoundTrip v <> JUndefined.
Proof. destruct v; simpl; discriminate. Qed.

(** C9, amended. Saving the processed-order set and then loading it
    restores the ids as JSON reads them back, whatever the memory holds
    when the load runs (nothing at all, in a new process). For every
    in-memory set and a writable state file, the save succeeds, leaves
    the set in memory as it is and writes the document
    [{ orders: [...], lastUpdate: ISO string }]; the load that follows
    succeeds, leaves the file as it is and yields the set of the ids
    read from it. That set is the one saved, members and order, when
    every id is a value JSON represents exactly, as strings and numbers
    are; it is another set when the set saved holds [undefined], which
    is written [null]. *)
Theorem save_load_round_trip w s (memory : option (list value)) :
  processedOrders w = Some s -> distinct s = true -> diskWritable w = true ->
  let saved := saveProcessedOrdersState w in
  let loaded := loadProcessedOrdersState (setProcessedOrders memory (snd saved)) in
  fst saved = Normal true
  /\ processedOrders (snd saved) = Some s
  /\ stateFile (snd saved) = Document (ledgerDocument s (clock w))
  /\ fst loaded = Normal true
  /\ stateFile (snd loaded) = stateFile (snd saved)
  /\ processedOrders (snd loaded) = Some (setOfList (map jsonRoundTrip s))
  /\ (Forall (fun id => jsonRoundTrip id = id) s -> processedOrders (snd loaded) = Some s)
  /\ (forall id, (exists t, id = JStr t) \/ (exists n, id = JNum n) -> jsonRoundTrip id = id)
  /\ (In JUndefined s -> processedOrders (snd loaded) <> Some s).
Proof.
  intros Hs Hd Hw. cbv zeta. rewrite (save_writable _ _ Hs Hw). cbn [fst snd].
  rewrite (load_document _ s (clock w)) by reflexivity. cbn [fst snd].
  split; [reflexivity|]. split; [exact Hs|]. split; [reflexivity|].
  split; [reflexivity|]. split; [reflexivity|]. split; [reflexivity|].
  split; [|split].
  - intros Hj. simpl. f_equal.
    assert (E : map jsonRoundTrip s = s).
    { clear -Hj. induction Hj; simpl; congruence. }
    rewrite E. now apply setOfList_distinct.
  - intros id [[t ->]|[n ->]]; reflexivity.
  - intros Hu. simpl. intros [= E]. rewrite <- E in Hu.
    apply fold_setAdd_incl in Hu as [[]|Hu].
    apply in_map_iff in Hu as (x & Hx & _). now apply jsonRoundTrip_defined in Hx.
Qed.

End LedgerFile.

(** A set of three ids is saved; a process that holds nothing in memory
    loads it back. *)
Lemma save_load_round_trip_witness :
  let w := Mock.idle Mock.empty (Some [JNum 100; JStr "a-101"; JNum 102]) in
  processedOrders
    (snd (loadProcessedOrdersState
            (setProcessedOrders None (snd (saveProcessedOrdersState w)))))
  = Some [JNum 100; JStr "a-101"; JNum 102].
Proof.
  intros w.
  destruct (save_load_round_trip w [JNum 100; JStr "a-101"; JNum 102] None)
    as (_ & _ & _ & _ & _ & _ & H & _);
    [reflexivity | reflexivity | reflexivity |].
  apply H. repeat constructor.
Defined.

(** Counterexample to C9 as stated: an order that has no [id] is
    dispatched, which puts [undefined] in the set; the set
    [{undefined, 100}] is saved as [[null, 100]] and read back, in a new
    process, as [{null, 100}], which is not the set saved. *)
Lemma undefined_id_counterexample :
  let c := Mock.config7 (JNum 60) in
  let polled := snd (checkForNewOrders Mock.axiosGet Mock.StringToNumber c Mock.accepts
                       (Mock.idle (Mock.listing [Mock.anonymous]) None)) in
  let s := [JUndefined; JNum 100] in
  let saved := snd (saveProcessedOrdersState (Mock.idle Mock.empty (Some s))) in
  let loaded := snd (loadProcessedOrdersState (setProcessedOrders None saved)) in
  processedOrders polled = Some [JUndefined]
  /\ distinct s = true
  /\ stateFile saved = Document (JObj [("orders", JArr [JNull; JNum 100]);
                                       ("lastUpdate", JStr "2025-01-01T00:00:00.000Z")])
  /\ processedOrders loaded = Some [JNull; JNum 100]
  /\ processedOrders loaded <> Some s.
Proof. intros c polled s saved loaded. vm_compute. repeat split. discriminate. Qed.

(** ** The listener *)

Section Listener.

Context {Net Handler : Type}.
Variable axiosGet : request -> Net -> completion value * Net.
Variable StringToNumber : string -> option Z.
Variable getVendorIdFromCredentials : config -> Net -> string * Net.
Implicit Types w : @world Net Handler.

Lemma bind_Normal_inv A B (m : prog A) (k : A -> prog B) w b w' :
  bind m k w = (Normal b, w') ->
  exists a w1, m w = (Normal a, w1) /\ k a w1 = (Normal b, w').
Proof.
  unfold bind. destruct (m w) as [[a|e] w1]; [eauto | discriminate].
Qed.

(** C6, amended. When the listener stops, the processed-order set is
    persisted with the ids it holds, not as an empty list: after
    [stopOrderListener] returns, with a writable state file, the timer
    of the listener is cancelled ([intervalId] is [null] and the timer
    it named is no longer armed, the other timers are as they were), the
    listener is marked stopped, the set in memory is the one it was and
    the persisted file records its ids, as JSON writes them, in
    insertion order. Emptying the set is what the explicit reset does:
    [clearProcessedOrdersState] leaves an empty set in memory and an
    empty list of ids in the file. *)
Theorem stopOrderListener_persists w s :
  processedOrders w = Some s -> diskWritable w = true ->
  let stopped := @stopOrderListener Net Handler w in
  let reset := @clearProcessedOrdersState Net Handler w in
  (fst stopped = Normal true
   /\ stateFile (snd stopped) = Document (ledgerDocument s (clock w))
   /\ intervalId (snd stopped) = None
   /\ isListening (snd stopped) = false
   /\ processedOrders (snd stopped) = Some s
   /\ timers (snd stopped)
      = match intervalId w with
        | Some h => List.filter (fun t => negb (Nat.eqb (fst t) h)) (timers w)
        | None => timers w
        end
   /\ (forall h ms, intervalId w = Some h -> ~ In (h, ms) (timers (snd stopped))))
  /\ (fst reset = Normal true
      /\ processedOrders (snd reset) = Some []
      /\ stateFile (snd reset) = Document (ledgerDocument [] (clock w))).
Proof.
  intros Hs Hd. cbv zeta. split.
  - assert (Hrun : @stopOrderListener Net Handler w
                   = (Normal true,
                      setIsListening false
                        (setStateFile (Document (ledgerDocument s (clock w)))
                           (match intervalId w with
                            | Some h => setTimers None
                                          (List.filter (fun t => negb (Nat.eqb (fst t) h))
                                             (timers w))
                                          (nextTimer w) w
                            | None => w
                            end)))).
    { unfold stopOrderListener, clearIntervalId, bind, modify, gets, ret.
      destruct (intervalId w) eqn:Hi;
        cbn [processedOrders setTimers]; rewrite Hs;
        (rewrite (save_writable _ s); [|cbn; assumption..]);
        reflexivity. }
    rewrite Hrun. cbn [fst snd].
    destruct (intervalId w) as [h|] eqn:Hi; cbn.
    + repeat split; auto.
      intros h' ms [= <-] Hin. apply filter_In in Hin as [_ Hin].
      cbn in Hin. now rewrite Nat.eqb_refl in Hin.
    + repeat split; auto. intros h ms [=].
  - unfold clearProcessedOrdersState, try, bind, modify, ret.
    rewrite (save_writable _ []); [|reflexivity | exact Hd].
    cbn. auto.
Qed.

(** [(config.checkInterval || 60) * 1000] on an unset or zero interval
    and on a number. *)
Lemma intervalMs_default c :
  truthy (checkInterval c) = false -> intervalMs StringToNumber c = Normal (Some 60000%Z).
Proof. unfold intervalMs. now intros ->. Qed.

Lemma intervalMs_number c n :
  checkInterval c = JNum n -> n <> 0%Z ->
  intervalMs StringToNumber c = Normal (Some (n * 1000)%Z).
Proof.
  unfold intervalMs. intros -> Hn. simpl.
  destruct (Z.eqb_spec n 0); [contradiction | reflexivity].
Qed.

(** C8, amended. [startOrderListener] arms the repeating timer at
    [config.checkInterval] seconds: when it returns, [intervalId] is the
    handle of an armed timer whose delay is
    [(config.checkInterval || 60) * 1000] milliseconds. That delay is 60
    seconds whenever [checkInterval] is unset or zero (any falsy value),
    and [checkInterval] seconds for every other number, a negative one
    included. *)
Theorem startOrderListener_interval c callback w r w' :
  startOrderListener axiosGet StringToNumber getVendorIdFromCredentials c callback w
  = (Normal r, w') ->
  (exists h ms, intervalMs StringToNumber c = Normal ms
                /\ intervalId w' = Some h /\ In (h, ms) (timers w'))
  /\ (truthy (checkInterval c) = false ->
      intervalMs StringToNumber c = Normal (Some 60000%Z))
  /\ (forall n, checkInterval c = JNum n -> n <> 0%Z ->
      intervalMs StringToNumber c = Normal (Some (n * 1000)%Z)).
Proof.
  intros H. split; [|split; [apply intervalMs_default | apply intervalMs_number]].
  unfold startOrderListener in H.
  apply bind_Normal_inv in H as (listening & w1 & _ & H).
  apply bind_Normal_inv in H as (_ & w2 & _ & H).
  apply bind_Normal_inv in H as (missing & w3 & _ & H).
  apply bind_Normal_inv in H as (c' & w4 & Hc & H).
  assert (Hi : checkInterval c' = checkInterval c).
  { destruct missing.
    - unfold try, bind, rethrow, throw, ret in Hc.
      destruct (getVendorIdFromCredentials c (net w3)) as [v n].
      destruct (negb (v =? "")%string); [|discriminate].
      now injection Hc as <- _.
    - now injection Hc as <- _. }
  apply bind_Normal_inv in H as (_ & w5 & _ & H).
  apply bind_Normal_inv in H as (_ & w6 & _ & H).
  apply bind_Normal_inv in H as (_ & w7 & _ & H).
  apply bind_Normal_inv in H as (_ & w8 & _ & H).
  apply bind_Normal_inv in H as (_ & w9 & _ & H).
  apply bind_Normal_inv in H as (ms & w10 & Hms & H).
  apply bind_Normal_inv in H as (u & w11 & Harm & H).
  unfold lift in Hms. injection Hms as Hms E1. subst w10.
  unfold setIntervalId, modify in Harm. injection Harm as _ E2. subst w11.
  unfold ret in H. injection H as _ E3. subst w'.
  exists (nextTimer w9), ms. split; [|split].
  - rewrite <- Hms. unfold intervalMs. now rewrite Hi.
  - reflexivity.
  - cbn. apply in_or_app. right. now left.
Qed.

End Listener.

(** Counterexample to C6 as stated: a listener that has dispatched order
    100 is stopped; the set still holds 100 and so does the file. *)
Lemma stop_discards_counterexample :
  let w := Mock.idle Mock.empty (Some [JNum 100]) in
  let w' := snd (stopOrderListener w) in
  fst (stopOrderListener w) = Normal true
  /\ processedOrders w' = Some [JNum 100]
  /\ stateFile w' = Document (JObj [("orders", JArr [JNum 100]);
                                    ("lastUpdate", JStr "2025-01-01T00:00:00.000Z")]).
Proof. intros w w'. repeat split. Qed.

(** A listener that holds two ids and whose timer is armed, beside a
    timer of another owner, is stopped: its timer is gone, the other one
    is not, and the file records the two ids; a reset records none. *)
Lemma stopOrderListener_persists_witness :
  let w := Mock.listening (Some [JNum 100; JNum 101]) in
  stateFile (snd (stopOrderListener w))
  = Document (ledgerDocument [JNum 100; JNum 101] "2025-01-01T00:00:00.000Z")
  /\ processedOrders (snd (stopOrderListener w)) = Some [JNum 100; JNum 101]
  /\ timers (snd (stopOrderListener w)) = [(2, Some 1000%Z)]
  /\ stateFile (snd (clearProcessedOrdersState w))
     = Document (ledgerDocument [] "2025-01-01T00:00:00.000Z").
Proof.
  intros w.
  destruct (stopOrderListener_persists w [JNum 100; JNum 101] eq_refl eq_refl)
    as [(_ & Hfile & _ & _ & Hset & Htimers & _) (_ & _ & Hreset)].
  split; [exact Hfile|]. split; [exact Hset|]. split; [exact Htimers | exact Hreset].
Defined.

(** Counterexample to C8 as stated: with [checkInterval = -5] the timer
    is armed at -5000 ms, not at 60 seconds. *)
Lemma negative_interval_counterexample :
  let c := Mock.config7 (JNum (-5)) in
  let run := startOrderListener Mock.axiosGet Mock.StringToNumber
               Mock.getVendorIdFromCredentials c Mock.accepts
               (Mock.idle Mock.empty None) in
  fst run = Normal (true, c)
  /\ intervalId (snd run) = Some 1
  /\ timers (snd run) = [(1, Some (-5000)%Z)].
Proof. intros c run. vm_compute. repeat split. Qed.

Lemma startOrderListener_interval_witness :
  let c := Mock.config7 (JNum 0) in
  let run := startOrderListener Mock.axiosGet Mock.StringToNumber
               Mock.getVendorIdFromCredentials c Mock.accepts
               (Mock.idle Mock.empty None) in
  (exists h ms, intervalMs Mock.StringToNumber c = Normal ms
                /\ intervalId (snd run) = Some h /\ In (h, ms) (timers (snd run)))
  /\ intervalMs Mock.StringToNumber c = Normal (Some 60000%Z).
Proof.
  intros c run.
  destruct (startOrderListener_interval Mock.axiosGet Mock.StringToNumber
              Mock.getVendorIdFromCredentials c Mock.accepts
              (Mock.idle Mock.empty None) (true, c) (snd run))
    as (Harmed & Hdefault & _).
  - vm_compute. reflexivity.
  - split; [exact Harmed | apply Hdefault; reflexivity].
Defined.

(** ** The fetcher *)

Section Fetcher.

Context {Net Handler : Type}.
Variable axiosGet : request -> Net -> completion value * Net.
Variable StringToNumber : string -> option Z.
Implicit Types w : @world Net Handler.

Lemma chain_lower a b c l : a <= b -> chain b c l -> chain a c l.
Proof. destruct l; simpl; intros; [lia | intuition lia]. Qed.

Lemma chain_upper a b c l : b <= c -> chain a b l -> chain a c l.
Proof.
  revert a. induction l as [|x l IH]; simpl; intros a Hbc H; [lia|].
  destruct H. split; auto.
Qed.

Lemma chain_app a b c l1 l2 : chain a b l1 -> chain b c l2 -> chain a c (l1 ++ l2).
Proof.
  revert a. induction l1 as [|x l1 IH]; simpl; intros a H1 H2.
  - eapply chain_lower; eauto.
  - destruct H1. split; auto.
Qed.

Lemma withRequests_nil w : withRequests (net w) [] w = w.
Proof. destruct w; unfold withRequests; simpl. now rewrite app_nil_r. Qed.

Lemma withRequests_app n1 n2 r1 r2 w :
  withRequests n2 r2 (withRequests n1 r1 w) = withRequests n2 (r1 ++ r2) w.
Proof. unfold withRequests; simpl. now rewrite map_app, app_assoc. Qed.

Lemma stages_app r1 r2 : stages (r1 ++ r2) = stages r1 ++ stages r2.
Proof. apply map_app. Qed.

Section Rules.

Variable c : config.

Lemma Fetches_lift A lo hi ht (Q : A -> Prop) (m : completion A) :
  lo <= hi -> lo <= ht -> (forall a, m = Normal a -> Q a) ->
  Fetches (Net:=Net) (Handler:=Handler) c lo hi ht Q (lift m).
Proof.
  intros Hhi Hht HQ w. exists [], (net w). unfold lift. cbn [fst snd].
  rewrite withRequests_nil. repeat split; auto.
  destruct m; simpl; auto.
Qed.

Lemma Fetches_ret A lo hi ht (Q : A -> Prop) (a : A) :
  lo <= hi -> lo <= ht -> Q a ->
  Fetches (Net:=Net) (Handler:=Handler) c lo hi ht Q (ret a).
Proof.
  intros Hhi Hht HQ. apply (Fetches_lift _ lo hi ht Q (Normal a)); auto.
  now intros ? [= <-].
Qed.

Lemma Fetches_throw A lo hi ht (Q : A -> Prop) e :
  lo <= hi -> lo <= ht ->
  Fetches (Net:=Net) (Handler:=Handler) c lo hi ht Q (throw e).
Proof.
  intros Hhi Hht. apply (Fetches_lift _ lo hi ht Q (Throw e)); auto. discriminate.
Qed.

Lemma Fetches_weaken A lo lo' hi hi' ht ht' (Q Q' : A -> Prop) (m : @prog Net Handler A) :
  Fetches c lo hi ht Q m -> lo' <= lo -> hi <= hi' -> ht <= ht' ->
  (forall a, Q a -> Q' a) -> Fetches c lo' hi' ht' Q' m.
Proof.
  intros H Hlo Hhi Hht HQ w. destruct (H w) as (reqs & n & Hw & Hc & Hr).
  exists reqs, n. split; [exact Hw|]. split; [exact Hc|].
  revert Hr. destruct (fst (m w)).
  - intros [Hch Ha]. split; auto. eapply chain_lower, chain_upper; eauto.
  - intros Hch. eapply chain_lower, chain_upper; eauto.
Qed.

(** A program that always returns raises at no stage. *)
Lemma Fetches_total A lo hi ht ht' (Q : A -> Prop) (m : @prog Net Handler A) :
  Fetches c lo hi ht Q m -> (forall w, throws (fst (m w)) = false) ->
  Fetches c lo hi ht' Q m.
Proof.
  intros H Ht w. destruct (H w) as (reqs & n & Hw & Hc & Hr).
  exists reqs, n. split; [exact Hw|]. split; [exact Hc|].
  specialize (Ht w). revert Hr Ht. destruct (fst (m w)); [tauto | discriminate].
Qed.

Lemma Fetches_bind A B lo h1 t1 h2 t2 t (P : A -> Prop) (Q : B -> Prop)
  (m : @prog Net Handler A) (k : A -> @prog Net Handler B) :
  Fetches c lo h1 t1 P m -> (forall a, P a -> Fetches c h1 h2 t2 Q (k a)) ->
  t1 <= t -> t2 <= t -> Fetches c lo h2 t Q (bind m k).
Proof.
  intros Hm Hk Ht1 Ht2 w. destruct (Hm w) as (r1 & n1 & Hw1 & Hc1 & Hr1).
  unfold bind. destruct (m w) as [[a|e] w1]; cbn [fst snd] in *.
  - destruct Hr1 as [Hch HP]. subst w1.
    destruct (Hk a HP (withRequests n1 r1 w)) as (r2 & n2 & Hw2 & Hc2 & Hr2).
    exists (r1 ++ r2), n2. rewrite Hw2, withRequests_app.
    split; [reflexivity|]. split; [apply Forall_app; auto|].
    rewrite stages_app. revert Hr2. destruct (fst (k a _)).
    + intros [Hch2 HQ]. split; auto. eapply chain_app; eauto.
    + intros Hch2. eapply chain_upper; [exact Ht2|]. eapply chain_app; eauto.
  - exists r1, n1. repeat split; auto. eapply chain_upper; [exact Ht1 | exact Hr1].
Qed.

Lemma Fetches_try A lo h1 t1 h2 t2 h (Q : A -> Prop)
  (body : @prog Net Handler A) (handler : exn -> @prog Net Handler A) :
  Fetches c lo h1 t1 Q body -> (forall e, Fetches c t1 h2 t2 Q (handler e)) ->
  h1 <= h -> h2 <= h -> Fetches c lo h t2 Q (try body handler).
Proof.
  intros Hb Hh H1 H2 w. destruct (Hb w) as (r1 & n1 & Hw1 & Hc1 & Hr1).
  unfold try. destruct (body w) as [[a|e] w1]; cbn [fst snd] in *.
  - exists r1, n1. repeat split; auto; try tauto.
    eapply chain_upper; [exact H1|]. tauto.
  - subst w1.
    destruct (Hh e (withRequests n1 r1 w)) as (r2 & n2 & Hw2 & Hc2 & Hr2).
    exists (r1 ++ r2), n2. rewrite Hw2, withRequests_app.
    split; [reflexivity|]. split; [apply Forall_app; auto|].
    rewrite stages_app. revert Hr2. destruct (fst (handler e _)).
    + intros [Hch2 HQ]. split; auto.
      eapply chain_upper; [exact H2|]. eapply chain_app; eauto.
    + intros Hch2. eapply chain_app; eauto.
Qed.

(** *** The same rules for a block over [orders] *)

Section BlockRules.

Variable I : value -> Prop.

Lemma FetchesB_ret A lo hi ht (a : A) :
  lo <= hi -> lo <= ht ->
  FetchesB (Net:=Net) (Handler:=Handler) c lo hi ht I (retB a).
Proof.
  intros Hhi Hht o w Ho. exists [], (net w). unfold retB. cbn [fst snd].
  rewrite withRequests_nil. repeat split; auto.
Qed.

Lemma FetchesB_test A lo hi ht (f : value -> completion A) :
  lo <= hi -> lo <= ht ->
  FetchesB (Net:=Net) (Handler:=Handler) c lo hi ht I (test f).
Proof.
  intros Hhi Hht o w Ho. exists [], (net w). unfold test. cbn [fst snd].
  rewrite withRequests_nil. repeat split; auto. destruct (f o); simpl; auto.
Qed.

Lemma FetchesB_assign lo hi ht (m : @prog Net Handler value) :
  Fetches c lo hi ht I m -> FetchesB c lo hi ht I (assign m).
Proof.
  intros Hm o w Ho. destruct (Hm w) as (reqs & n & Hw & Hc & Hr).
  exists reqs, n. unfold assign. destruct (m w) as [[v|e] w1]; cbn [fst snd] in *.
  - repeat split; tauto.
  - repeat split; auto.
Qed.

Lemma FetchesB_bind A B lo h1 t1 h2 t2 t
  (m : @block Net Handler A) (k : A -> @block Net Handler B) :
  FetchesB c lo h1 t1 I m -> (forall a, FetchesB c h1 h2 t2 I (k a)) ->
  t1 <= t -> t2 <= t -> FetchesB c lo h2 t I (bindB m k).
Proof.
  intros Hm Hk Ht1 Ht2 o w Ho.
  destruct (Hm o w Ho) as (r1 & n1 & Hw1 & Hc1 & Hi1 & Hr1).
  unfold bindB. destruct (m o w) as [[[a|e] o1] w1]; cbn [fst snd] in *.
  - subst w1.
    destruct (Hk a o1 (withRequests n1 r1 w) Hi1) as (r2 & n2 & Hw2 & Hc2 & Hi2 & Hr2).
    exists (r1 ++ r2), n2. rewrite Hw2, withRequests_app.
    split; [reflexivity|]. split; [apply Forall_app; auto|]. split; [exact Hi2|].
    rewrite stages_app. revert Hr2. destruct (fst (fst (k a o1 _))).
    + intros Hch2. eapply chain_app; eauto.
    + intros Hch2. eapply chain_upper; [exact Ht2|]. eapply chain_app; eauto.
  - exists r1, n1. repeat split; auto. eapply chain_upper; [exact Ht1 | exact Hr1].
Qed.

Lemma FetchesB_try A lo h1 t1 h2 t2 h
  (body : @block Net Handler A) (handler : exn -> @block Net Handler A) :
  FetchesB c lo h1 t1 I body -> (forall e, FetchesB c t1 h2 t2 I (handler e)) ->
  h1 <= h -> h2 <= h -> FetchesB c lo h t2 I (tryB body handler).
Proof.
  intros Hb Hh H1 H2 o w Ho.
  destruct (Hb o w Ho) as (r1 & n1 & Hw1 & Hc1 & Hi1 & Hr1).
  unfold tryB. destruct (body o w) as [[[a|e] o1] w1]; cbn [fst snd] in *.
  - exists r1, n1. repeat split; auto. eapply chain_upper; [exact H1 | exact Hr1].
  - subst w1.
    destruct (Hh e o1 (withRequests n1 r1 w) Hi1) as (r2 & n2 & Hw2 & Hc2 & Hi2 & Hr2).
    exists (r1 ++ r2), n2. rewrite Hw2, withRequests_app.
    split; [reflexivity|]. split; [apply Forall_app; auto|]. split; [exact Hi2|].
    rewrite stages_app. revert Hr2. destruct (fst (fst (handler e o1 _))).
    + intros Hch2. eapply chain_upper; [exact H2|]. eapply chain_app; eauto.
    + intros Hch2. eapply chain_app; eauto.
Qed.

Lemma Fetches_runBlock lo hi ht init (body : @block Net Handler unit) :
  FetchesB c lo hi ht I body -> I init -> Fetches c lo hi ht I (runBlock init body).
Proof.
  intros Hb Hi w. destruct (Hb init w Hi) as (reqs & n & Hw & Hc & Ho & Hr).
  exists reqs, n. unfold runBlock.
  destruct (body init w) as [[[a|e] o1] w1]; cbn [fst snd] in *; repeat split; auto.
Qed.

End BlockRules.

(** What the store may answer: every response satisfies [P]. *)
Variable P : value -> Prop.
Hypothesis responses :
  forall r n data n', axiosGet r n = (Normal data, n') -> P data.

Lemma Fetches_httpGet lo k :
  lo < stage k ->
  Fetches (Net:=Net) (Handler:=Handler) c lo (stage k) (stage k) P
    (httpGet axiosGet (requestOf c k)).
Proof.
  intros Hlo w. unfold httpGet.
  destruct (axiosGet (requestOf c k) (net w)) as [res n] eqn:E.
  exists [requestOf c k], n. cbn [fst snd].
  split; [reflexivity|]. split; [repeat constructor|].
  destruct res; simpl; [|lia]. split; [lia|]. eapply responses; eauto.
Qed.

(** The batches the store answers with satisfy [P], and so does every
    part of a batch. *)
Hypothesis P_nil : P (JArr []).
Hypothesis P_filter :
  forall p l l', arrayFilter p l = Normal l' -> P (JArr l) -> P (JArr l').

Lemma P_verified data vendor l :
  verifyOrdersBelongToVendor data vendor = Normal l -> P data -> P (JArr l).
Proof.
  unfold verifyOrdersBelongToVendor.
  destruct (negb (truthy data) || negb (isArray data) || negb (truthy vendor)) eqn:G.
  - now intros [= <-].
  - intros H Hd. apply bindC_Normal_inv in H as (_ & _ & H).
    apply bindC_Normal_inv in H as (v & Hv & H).
    apply bindC_Normal_inv in H as (_ & _ & H). injection H as <-.
    apply orb_false_elim in G as [G _]. apply orb_false_elim in G as [_ G].
    apply negb_false_iff in G. destruct data; try discriminate.
    eapply P_filter; eauto.
Qed.

Lemma Fetches_attempt lo k :
  lo < stage k ->
  Fetches (Net:=Net) (Handler:=Handler) c lo (stage k) (stage k)
    (fun o => forall d, o = Some d -> P d)
    (attempt axiosGet StringToNumber (requestOf c k)).
Proof.
  intros Hlo. unfold attempt.
  eapply Fetches_try with (h1 := stage k) (t1 := stage k) (h2 := stage k); try lia.
  - eapply Fetches_bind with (t1 := stage k) (t2 := stage k);
      [apply Fetches_httpGet; exact Hlo | | lia | lia].
    intros data Hd.
    eapply Fetches_bind with (h1 := stage k) (t1 := stage k) (t2 := stage k)
                             (P := fun _ => True); try lia;
      [apply Fetches_lift; auto|].
    intros ok _. apply Fetches_ret; try lia. destruct ok; intros d [= <-]. exact Hd.
  - intros e. apply Fetches_ret; try lia. discriminate.
Qed.

Lemma getWooCommerceOrders_fetches params :
  Fetches (Net:=Net) (Handler:=Handler) c 0 3 3 P
    (getWooCommerceOrders axiosGet StringToNumber c params).
Proof.
  unfold getWooCommerceOrders.
  eapply Fetches_try with (h1 := 3) (t1 := 3) (h2 := 3); try lia;
    [|intros e; apply Fetches_throw; lia].
  eapply Fetches_bind with (h1 := 1) (t1 := 1) (t2 := 3); try lia;
    [apply (Fetches_attempt 0 (OrdersWith params)); simpl; lia|].
  intros [data|] Hfirst; [apply Fetches_ret; try lia; auto|].
  eapply Fetches_bind with (h1 := 1) (t1 := 1) (t2 := 3) (P := fun _ => True);
    try lia; [apply Fetches_lift; auto|].
  intros configured _.
  eapply Fetches_bind with (h1 := 2) (t1 := 2) (t2 := 3)
                           (P := fun o => forall d, o = Some d -> P d); try lia.
  { destruct configured.
    - apply (Fetches_attempt 1 (OrdersMetaQuery (vendorId c))). simpl. lia.
    - apply Fetches_ret; try lia. discriminate. }
  intros [data|] Hsecond; [apply Fetches_ret; try lia; auto|].
  eapply Fetches_try with (h1 := 3) (t1 := 3) (h2 := 3); try lia;
    [|intros e; apply Fetches_throw; lia].
  eapply Fetches_bind with (h1 := 3) (t1 := 3) (t2 := 3); try lia;
    [apply (Fetches_httpGet 2 OrdersUnfiltered); simpl; lia|].
  intros data Hd.
  eapply Fetches_bind with (h1 := 3) (t1 := 3) (t2 := 3) (P := fun _ => True);
    try lia; [apply Fetches_lift; auto|].
  intros ok _. destruct ok; [|apply Fetches_ret; auto].
  eapply Fetches_bind with (h1 := 3) (t1 := 3) (t2 := 3)
                           (P := fun l => P (JArr l)); try lia.
  - apply Fetches_lift; try lia. intros l Hl.
    destruct data; simpl in Hl; try discriminate.
    eapply P_filter; eauto.
  - intros l Hl. now apply Fetches_ret.
Qed.

Lemma getDokanOrders_fetches :
  Fetches (Net:=Net) (Handler:=Handler) c 3 5 5 P (getDokanOrders axiosGet c).
Proof.
  unfold getDokanOrders.
  eapply Fetches_try with (h1 := 5) (t1 := 5) (h2 := 5); try lia;
    [|intros e; apply Fetches_throw; lia].
  eapply Fetches_try with (h1 := 4) (t1 := 4) (h2 := 5); try lia.
  - eapply Fetches_bind with (h1 := 3) (t1 := 3) (t2 := 4) (P := fun _ => True);
      try lia; [apply Fetches_lift; auto|].
    intros _ _. apply (Fetches_httpGet 3 DokanOrders). simpl. lia.
  - intros e. apply (Fetches_httpGet 4 (OrdersMetaQueryString (vendorId c))).
    simpl. lia.
Qed.

(** [getAllOrdersAndFilter] answers an array whatever happens. *)
Lemma getAllOrdersAndFilter_returns vendor w :
  exists l, fst (getAllOrdersAndFilter axiosGet c vendor w) = Normal (JArr l).
Proof.
  unfold getAllOrdersAndFilter, try.
  match goal with
  | |- context [match ?b w with _ => _ end] => destruct (b w) as [[a|e] w1] eqn:E
  end; cbn [fst]; [|unfold ret; cbn; eauto].
  destruct ((apiUrl c =? "")%string || (username c =? "")%string
            || (password c =? "")%string); [discriminate|].
  apply bind_Normal_inv in E as (missing & w2 & _ & E).
  destruct missing; [discriminate|].
  apply bind_Normal_inv in E as (data & w3 & _ & E).
  destruct (negb (truthy data) || negb (isArray data)).
  - injection E as <- _. eauto.
  - apply bind_Normal_inv in E as (l & w4 & _ & E). injection E as <- _. eauto.
Qed.

Lemma getAllOrdersAndFilter_fetches vendor t :
  Fetches (Net:=Net) (Handler:=Handler) c 5 6 t
    (fun v => P v /\ exists l, v = JArr l)
    (getAllOrdersAndFilter axiosGet c vendor).
Proof.
  apply Fetches_total with (ht := 6).
  2:{ intros w. destruct (getAllOrdersAndFilter_returns vendor w) as (l & ->).
      reflexivity. }
  unfold getAllOrdersAndFilter.
  eapply Fetches_try with (h1 := 6) (t1 := 6) (h2 := 6); try lia.
  2:{ intros e. apply Fetches_ret; eauto. }
  destruct ((apiUrl c =? "")%string || (username c =? "")%string
            || (password c =? "")%string); [apply Fetches_throw; lia|].
  eapply Fetches_bind with (h1 := 5) (t1 := 5) (t2 := 6) (P := fun _ => True);
    try lia; [apply Fetches_lift; auto|].
  intros missing _. destruct missing; [apply Fetches_throw; lia|].
  eapply Fetches_bind with (h1 := 6) (t1 := 6) (t2 := 6); try lia;
    [apply (Fetches_httpGet 5 OrdersRecent); simpl; lia|].
  intros data Hd.
  destruct (negb (truthy data) || negb (isArray data)); [apply Fetches_ret; eauto|].
  eapply Fetches_bind with (h1 := 6) (t1 := 6) (t2 := 6)
                           (P := fun l => P (JArr l)); try lia.
  - apply Fetches_lift; try lia. intros l Hl. eapply P_verified; eauto.
  - intros l Hl. apply Fetches_ret; eauto.
Qed.

(** The manual filter always returns, with an array in [orders]. *)
Lemma manualFilter_returns vendor o w :
  exists l, fst (manualFilter axiosGet StringToNumber c vendor o w) = (Normal tt, JArr l).
Proof.
  unfold manualFilter, bindB, assign, test, retB.
  destruct (getAllOrdersAndFilter_returns vendor w) as (l & Hl).
  destruct (getAllOrdersAndFilter axiosGet c vendor w) as [res w1].
  cbn [fst] in Hl. subst res. cbn. unfold hasItems, lengthPositive, gtZero. cbn.
  eauto.
Qed.

Lemma manualFilter_fetches vendor t :
  FetchesB (Net:=Net) (Handler:=Handler) c 5 6 t P
    (manualFilter axiosGet StringToNumber c vendor).
Proof.
  intros o w Ho.
  assert (H : FetchesB (Net:=Net) (Handler:=Handler) c 5 6 6 P
                (manualFilter axiosGet StringToNumber c vendor)).
  { unfold manualFilter.
    eapply FetchesB_bind with (h1 := 6) (t1 := 6) (t2 := 6); try lia.
    - apply FetchesB_assign.
      eapply Fetches_weaken; [apply (getAllOrdersAndFilter_fetches vendor 6) | lia..|].
      now intros a [Ha _].
    - intros _. eapply FetchesB_bind with (h1 := 6) (t1 := 6) (t2 := 6); try lia.
      + apply FetchesB_test; lia.
      + intros _. apply FetchesB_ret; lia. }
  destruct (H o w Ho) as (reqs & n & Hw & Hc & Hi & Hr).
  exists reqs, n. repeat split; auto.
  destruct (manualFilter_returns vendor o w) as (l & Hl).
  rewrite Hl in Hr |- *. exact Hr.
Qed.

(** The methods are tried in increasing stages, each at most once, and
    what they leave in [orders] is a batch of the store or a part of
    one. *)
Lemma fetchOrders_fetches apiParams vendor :
  Fetches (Net:=Net) (Handler:=Handler) c 0 6 6 P
    (fetchOrders axiosGet StringToNumber c apiParams vendor).
Proof.
  unfold fetchOrders. apply Fetches_runBlock; [|exact P_nil].
  eapply FetchesB_try with (h1 := 6) (t1 := 5) (h2 := 6); try lia.
  - eapply FetchesB_bind with (h1 := 3) (t1 := 3) (t2 := 5); try lia.
    { apply FetchesB_assign, getWooCommerceOrders_fetches. }
    intros _. eapply FetchesB_bind with (h1 := 3) (t1 := 3) (t2 := 5); try lia.
    { apply FetchesB_test; lia. }
    intros found. destruct found; [apply FetchesB_ret; lia|].
    eapply FetchesB_try with (h1 := 6) (t1 := 5) (h2 := 6); try lia.
    + eapply FetchesB_bind with (h1 := 5) (t1 := 5) (t2 := 5); try lia.
      { apply FetchesB_assign, getDokanOrders_fetches. }
      intros _. eapply FetchesB_bind with (h1 := 5) (t1 := 5) (t2 := 5); try lia.
      { apply FetchesB_test; lia. }
      intros found. destruct found; [apply FetchesB_ret; lia|].
      apply manualFilter_fetches.
    + intros e. apply manualFilter_fetches.
  - intros e. eapply FetchesB_try with (h1 := 6) (t1 := 5) (h2 := 6); try lia.
    + apply manualFilter_fetches.
    + intros e'. apply FetchesB_ret; lia.
Qed.

End Rules.













End Fetcher.



(** ** The polling cycle *)

Section Cycle.

Context {Net Handler : Type}.
Variable axiosGet : request -> Net -> completion value * Net.
Variable StringToNumber : string -> option Z.
Implicit Types w : @world Net Handler.
Implicit Types callback : value -> Handler -> completion unit * Handler.

(** *** The batch verifier *)

Lemma arrayFilter_In p l r :
  arrayFilter p l = Normal r -> forall x, In x r -> In x l /\ p x = Normal true.
Proof.
  revert r. induction l as [|y l IH]; simpl; intros r H x Hx.
  - injection H as <-. contradiction.
  - apply bindC_Normal_inv in H as (b & Hb & H).
    apply bindC_Normal_inv in H as (r' & Hr & H). injection H as <-.
    destruct b.
    + destruct Hx as [<-|Hx]; [auto|]. destruct (IH _ Hr _ Hx). auto.
    + destruct (IH _ Hr _ Hx). auto.
Qed.

Lemma arrayFilter_pure p q l :
  (forall x, In x l -> p x = Normal (q x)) ->
  arrayFilter p l = Normal (List.filter q l).
Proof.
  induction l as [|y l IH]; simpl; intros H; [reflexivity|].
  rewrite (H y) by auto. simpl. rewrite IH by auto. simpl.
  now destruct (q y).
Qed.

Lemma arrayFilter_countId id p l r :
  arrayFilter p l = Normal r -> countId id r <= countId id l.
Proof.
  unfold countId. revert r. induction l as [|y l IH]; simpl; intros r H.
  - injection H as <-. simpl. lia.
  - apply bindC_Normal_inv in H as (b & Hb & H).
    apply bindC_Normal_inv in H as (r' & Hr & H). injection H as <-.
    specialize (IH _ Hr).
    destruct b; simpl; destruct (sameValueZero (prop y "id") id); simpl; lia.
Qed.

Lemma verified_elements orders vendor verified :
  verifyOrdersBelongToVendor orders vendor = Normal verified ->
  verified = []
  \/ arrayFilter (fun order => orderBelongsToVendor order vendor) (elements orders)
     = Normal verified.
Proof.
  unfold verifyOrdersBelongToVendor.
  destruct (negb (truthy orders) || negb (isArray orders) || negb (truthy vendor)).
  - intros [= <-]. now left.
  - intros H. apply bindC_Normal_inv in H as (_ & _ & H).
    apply bindC_Normal_inv in H as (v & Hv & H).
    apply bindC_Normal_inv in H as (_ & _ & H). injection H as <-. now right.
Qed.

(** Every order the batch verifier lets through belongs to the vendor. *)
Lemma verified_belong orders vendor verified :
  verifyOrdersBelongToVendor orders vendor = Normal verified ->
  forall o, In o verified ->
            In o (elements orders) /\ orderBelongsToVendor o vendor = Normal true.
Proof.
  intros [->|H]%verified_elements; [contradiction|].
  exact (arrayFilter_In _ _ _ H).
Qed.

Lemma verified_countId id orders vendor verified :
  verifyOrdersBelongToVendor orders vendor = Normal verified ->
  countId id verified <= countId id (elements orders).
Proof.
  intros [->|H]%verified_elements; [unfold countId; simpl; lia|].
  eapply arrayFilter_countId; eauto.
Qed.

(** An order that belongs to the vendor is an object or another truthy
    value, and its id prints. *)
Lemma belongs_inspected o vendor :
  orderBelongsToVendor o vendor = Normal true ->
  truthy o = true /\ exists s, ToString (prop o "id") = Normal s.
Proof.
  unfold orderBelongsToVendor, tryCatch, orderBelongsToVendor_try.
  destruct (truthy o); simpl; [|discriminate].
  destruct (negb (truthy vendor)); [discriminate|].
  destruct (toStringCall vendor); simpl; [|discriminate].
  destruct (ToString (prop o "id")); simpl; [eauto | discriminate].
Qed.

Lemma getProp_truthy o k : truthy o = true -> getProp o k = Normal (prop o k).
Proof. destruct o; simpl; auto; discriminate. Qed.

(** *** The dispatch loop *)

Lemma withDispatches_nil w s :
  processedOrders w = Some s -> withDispatches s (handler w) [] w = w.
Proof.
  destruct w; unfold withDispatches; simpl. intros ->. now rewrite app_nil_r.
Qed.

(** The loop marks and hands over the orders one by one and stops at the
    first one on which the callback throws; the error leaves the loop. *)
Lemma dispatchAll_run vendor callback newOrders :
  forall w s,
    processedOrders w = Some s ->
    (forall o, In o newOrders -> orderBelongsToVendor o vendor = Normal true) ->
    dispatchAll vendor callback newOrders w
    = (snd (fst (served callback newOrders (handler w))),
       withDispatches
         (fold_left setAdd (idsOf (fst (fst (served callback newOrders (handler w))))) s)
         (snd (served callback newOrders (handler w)))
         (fst (fst (served callback newOrders (handler w)))) w).
Proof.
  induction newOrders as [|o rest IH]; intros w s Hs Hall.
  - simpl. unfold ret. now rewrite withDispatches_nil.
  - cbn [dispatchAll]. unfold bind at 1. unfold lift at 1.
    rewrite (Hall o) by now left.
    destruct (belongs_inspected _ _ (Hall o (or_introl eq_refl))) as (To & sid & Hid).
    unfold bind at 1. unfold bind at 1. unfold lift at 1.
    rewrite (getProp_truthy _ "id" To).
    unfold bind at 1. unfold ledger at 1. rewrite Hs.
    unfold bind at 1. unfold modify at 1.
    unfold bind at 1. unfold lift at 1. rewrite Hid.
    unfold invoke. cbn [handler setProcessedOrders served].
    destruct (callback o (handler w)) as [[u|e] h'].
    + rewrite (IH _ (setAdd s (prop o "id"))); [|reflexivity | intros; apply Hall; now right].
      cbn [handler setHandler].
      destruct (served callback rest h') as [[invoked res] hf]. cbn [fst snd].
      f_equal. unfold withDispatches, setHandler, setProcessedOrders. cbn.
      now rewrite <- app_assoc.
    + reflexivity.
Qed.

Lemma served_all callback l :
  (forall o h, fst (callback o h) = Normal tt) ->
  forall h, fst (served callback l h) = (l, Normal tt).
Proof.
  intros Hcb. induction l as [|o l IH]; intros h; simpl; [reflexivity|].
  specialize (Hcb o h). destruct (callback o h) as [[[]|e] h']; [|discriminate].
  specialize (IH h'). destruct (served callback l h') as [[invoked res] hf].
  simpl in *. now injection IH as -> ->.
Qed.


(** The orders served are the first ones of the list. *)
Lemma served_prefix callback l :
  forall h, exists post, l = fst (fst (served callback l h)) ++ post.
Proof.
  induction l as [|o l IH]; intros h; simpl; [now exists []|].
  destruct (callback o h) as [[u|e] h'].
  - destruct (IH h') as (post & Hpost).
    destruct (served callback l h') as [[invoked res] hf]. simpl in *.
    exists post. now f_equal.
  - now exists l.
Qed.

(** *** Filtering against the ledger, cutting it *)

Lemma filterNew_run verified w s :
  processedOrders w = Some s ->
  (forall o, In o verified -> truthy o = true) ->
  filterNew verified w = (Normal (newOrdersOf s verified), w).
Proof.
  intros Hs Ht. unfold filterNew, bind, ledger, lift. rewrite Hs. f_equal.
  apply arrayFilter_pure. intros o Ho. now rewrite (getProp_truthy _ _ (Ht o Ho)).
Qed.

Lemma save_run w :
  saveProcessedOrdersState w
  = if diskWritable w
    then (Normal true,
          setStateFile
            (Document (ledgerDocument
                         (match processedOrders w with Some s => s | None => [] end)
                         (clock w))) w)
    else (Normal false, w).
Proof.
  unfold saveProcessedOrdersState, try, bind, gets, writeStateFile, ret.
  now destruct (diskWritable w).
Qed.

Lemma prune_small w s :
  processedOrders w = Some s -> List.length s <= 1000 ->
  pruneProcessedOrders w = (Normal tt, w).
Proof.
  intros Hs Hl. unfold pruneProcessedOrders, bind, ledger. rewrite Hs.
  destruct (Nat.ltb_spec 1000 (List.length s)); [lia | reflexivity].
Qed.

Lemma prune_large w s :
  processedOrders w = Some s -> 1000 < List.length s ->
  pruneProcessedOrders w
  = (Normal tt,
     snd (saveProcessedOrdersState
            (setProcessedOrders (Some (setOfList (sliceLast 500 s)))
               (logEvent EvPrune w)))).
Proof.
  intros Hs Hl. unfold pruneProcessedOrders, bind, ledger. rewrite Hs.
  destruct (Nat.ltb_spec 1000 (List.length s)); [|lia].
  unfold modify, ret. rewrite save_run. now destruct (diskWritable _).
Qed.

(** *** Pruning *)

Lemma distinct_skipn n l : distinct l = true -> distinct (skipn n l) = true.
Proof.
  revert l. induction n as [|n IH]; intros [|x l]; simpl; auto.
  intros [_ H]%andb_prop. auto.
Qed.

Lemma distinct_sliceLast n l : distinct l = true -> distinct (sliceLast n l) = true.
Proof. apply distinct_skipn. Qed.

Lemma sliceLast_length n l : n <= List.length l -> List.length (sliceLast n l) = n.
Proof. intros H. unfold sliceLast. rewrite length_skipn. lia. Qed.

Lemma distinct_fresh acc l x :
  distinct (acc ++ l) = true -> In x l -> setHas acc x = false.
Proof.
  intros H Hin. apply in_split in Hin as (l1 & l2 & ->).
  rewrite app_assoc in H. apply distinct_middle in H.
  unfold setHas in *. rewrite existsb_app in H. now apply orb_false_elim in H.
Qed.

Lemma filter_all {A} (q : A -> bool) l :
  (forall x, In x l -> q x = true) -> List.filter q l = l.
Proof.
  induction l as [|x l IH]; simpl; intros H; [reflexivity|].
  rewrite (H x) by auto. f_equal. auto.
Qed.

(** A batch all of whose orders belong to the vendor passes the batch
    verifier whole; no audit line is composed. *)
Lemma verify_all batch vendor :
  batch <> [] ->
  (forall o, In o batch -> orderBelongsToVendor o vendor = Normal true) ->
  verifyOrdersBelongToVendor (JArr batch) vendor = Normal batch.
Proof.
  intros Hne Hall. destruct batch as [|o batch]; [contradiction|].
  assert (Hv : truthy vendor = true /\ exists s, ToString vendor = Normal s).
  { specialize (Hall o (or_introl eq_refl)).
    unfold orderBelongsToVendor, tryCatch, orderBelongsToVendor_try in Hall.
    destruct (truthy o); simpl in Hall; [|discriminate].
    destruct (truthy vendor) eqn:Tv; simpl in Hall; [|discriminate].
    split; [reflexivity|].
    assert (E : toStringCall vendor = ToString vendor)
      by (destruct vendor; try reflexivity; discriminate).
    rewrite <- E. destruct (toStringCall vendor); simpl in Hall; [eauto | discriminate]. }
  destruct Hv as (Tv & sv & Hsv).
  unfold verifyOrdersBelongToVendor. rewrite Tv. cbn [truthy isArray negb orb elements].
  rewrite Hsv. cbn [bindC].
  rewrite (arrayFilter_pure _ (fun _ => true)) by (intros x Hx; now apply Hall).
  rewrite filter_all by reflexivity. cbn [bindC].
  now rewrite Nat.ltb_irrefl.
Qed.

(** A cycle over a batch of new orders of the vendor, with a callback
    that returns: every order is marked and dispatched, the ledger is
    saved, then cut if it has grown too large. *)
Lemma processOrders_new_batch vendor callback batch w s :
  processedOrders w = Some s -> distinct (s ++ idsOf batch) = true ->
  batch <> [] ->
  (forall o, In o batch -> orderBelongsToVendor o vendor = Normal true) ->
  (forall o h, fst (callback o h) = Normal tt) ->
  processOrders StringToNumber vendor callback (JArr batch) w
  = pruneProcessedOrders
      (snd (saveProcessedOrdersState
              (withDispatches (s ++ idsOf batch)
                 (snd (served callback batch (handler w))) batch w))).
Proof.
  intros Hs Hd Hne Hall Hcb.
  unfold processOrders.
  unfold bind at 1. unfold lift at 1.
  assert (Hpos : lengthPositive StringToNumber (JArr batch) = Normal true).
  { destruct batch; [contradiction | reflexivity]. }
  rewrite Hpos.
  unfold bind at 1. unfold lift at 1. rewrite (verify_all _ _ Hne Hall).
  unfold bind at 1.
  rewrite (filterNew_run _ _ _ Hs)
    by (intros o Ho; exact (proj1 (belongs_inspected o vendor (Hall o Ho)))).
  assert (Hnew : newOrdersOf s batch = batch).
  { apply filter_all. intros o Ho. apply negb_true_iff.
    apply (distinct_fresh _ _ _ Hd).
    exact (in_map (fun o' => prop o' "id") batch o Ho). }
  rewrite Hnew. destruct batch as [|o0 batch0] eqn:Eb; [contradiction|].
  rewrite <- Eb in *. clear Hnew.
  unfold bind at 1. rewrite (dispatchAll_run _ _ _ _ _ Hs Hall).
  pose proof (served_all callback batch Hcb (handler w)) as Hserved.
  destruct (served callback batch (handler w)) as [[invoked res] hf].
  cbn [fst snd] in *. injection Hserved as -> ->.
  rewrite (fold_setAdd_distinct _ _ Hd).
  unfold bind at 1. rewrite save_run.
  now destruct (diskWritable _).
Qed.

Lemma dispatchedOf_app tr1 tr2 :
  dispatchedOf (tr1 ++ tr2) = dispatchedOf tr1 ++ dispatchedOf tr2.
Proof. apply flat_map_app. Qed.

Lemma dispatchedOf_dispatches l : dispatchedOf (map EvDispatch l) = l.
Proof. induction l; simpl; congruence. Qed.

(** C4. Whenever the size of the in-memory processed-order set exceeds
    1000 at the check that follows a dispatch batch, the set is replaced
    by its 500 most recently added ids, in insertion order, and is
    persisted at once. In particular, when a batch of new orders of the
    vendor brings a set of at most 1000 ids above 1000 (to 1001, say),
    the cycle leaves a set of exactly 500 ids, the most recently added
    ones, in memory and in the state file. *)
Theorem ledger_pruning :
  (forall w s,
     processedOrders w = Some s -> distinct s = true -> diskWritable w = true ->
     1000 < List.length s ->
     let cut := pruneProcessedOrders w in
     let kept := sliceLast 500 s in
     fst cut = Normal tt
     /\ processedOrders (snd cut) = Some kept
     /\ List.length kept = 500
     /\ s = firstn (List.length s - 500) s ++ kept
     /\ stateFile (snd cut) = Document (ledgerDocument kept (clock w)))
  /\ (forall vendor callback batch w s,
        processedOrders w = Some s -> distinct (s ++ idsOf batch) = true ->
        diskWritable w = true ->
        (forall o, In o batch -> orderBelongsToVendor o vendor = Normal true) ->
        (forall o h, fst (callback o h) = Normal tt) ->
        List.length s <= 1000 < List.length (s ++ idsOf batch) ->
        let cycle := processOrders StringToNumber vendor callback (JArr batch) w in
        let kept := sliceLast 500 (s ++ idsOf batch) in
        fst cycle = Normal tt
        /\ processedOrders (snd cycle) = Some kept
        /\ List.length kept = 500
        /\ dispatchedOf (trace (snd cycle)) = dispatchedOf (trace w) ++ batch
        /\ stateFile (snd cycle) = Document (ledgerDocument kept (clock w))).
Proof.
  assert (Hcut : forall w s,
     processedOrders w = Some s -> distinct s = true -> diskWritable w = true ->
     1000 < List.length s ->
     pruneProcessedOrders w
     = (Normal tt,
        setStateFile (Document (ledgerDocument (sliceLast 500 s) (clock w)))
          (setProcessedOrders (Some (sliceLast 500 s)) (logEvent EvPrune w)))).
  { intros w s Hs Hd Hw Hl. rewrite (prune_large _ _ Hs Hl), save_run.
    match goal with
    | |- context [if diskWritable ?x then _ else _] =>
        change (diskWritable x) with (diskWritable w)
    end.
    rewrite Hw. cbn [snd]. f_equal.
    unfold setStateFile, setProcessedOrders, logEvent, setHandler.
    cbn [processedOrders stateFile clock trace].
    now rewrite (setOfList_distinct _ (distinct_sliceLast _ _ Hd)). }
  split.
  - intros w s Hs Hd Hw Hl. cbv zeta. rewrite (Hcut _ _ Hs Hd Hw Hl).
    repeat split; auto.
    + apply sliceLast_length. lia.
    + unfold sliceLast. now rewrite firstn_skipn.
  - intros vendor callback batch w s Hs Hd Hw Hall Hcb [Hl1 Hl2]. cbv zeta.
    assert (Hne : batch <> []).
    { intros ->. simpl in Hl2. rewrite app_nil_r in Hl2. lia. }
    rewrite (processOrders_new_batch _ _ _ _ _ Hs Hd Hne Hall Hcb), save_run.
    change (diskWritable (withDispatches (s ++ idsOf batch)
                            (snd (served callback batch (handler w))) batch w))
      with (diskWritable w).
    rewrite Hw. cbn [snd].
    rewrite (Hcut _ (s ++ idsOf batch)); try reflexivity; try assumption.
    cbn [fst snd]. repeat split; auto.
    + apply sliceLast_length. lia.
    + unfold setStateFile, setProcessedOrders, logEvent, setHandler, withDispatches.
      cbn [trace]. rewrite !dispatchedOf_app, dispatchedOf_dispatches.
      simpl. now rewrite app_nil_r.
Qed.

(** *** A callback that throws *)



(** *** At most one dispatch per id *)

Section AtMostOnce.

Variable id : value.

Lemma once_refl w : once id w w.
Proof.
  exists []. rewrite app_nil_r. split; [reflexivity|].
  intros _. unfold countId. simpl. repeat split; auto; lia.
Qed.

Lemma countId_app l1 l2 : countId id (l1 ++ l2) = countId id l1 + countId id l2.
Proof. unfold countId. now rewrite filter_app, length_app. Qed.

Lemma once_trans w w1 w2 : once id w w1 -> once id w1 w2 -> once id w w2.
Proof.
  intros (new1 & Ht1 & H1) (new2 & Ht2 & H2).
  exists (new1 ++ new2). split; [now rewrite Ht2, Ht1, app_assoc|].
  unfold pruned. rewrite existsb_app. intros [P1 P2]%orb_false_elim.
  destruct (H1 P1) as (A1 & B1 & C1). destruct (H2 P2) as (A2 & B2 & C2).
  rewrite dispatchedOf_app, countId_app.
  split; [|split].
  - destruct (countId id (dispatchedOf new1)) as [|k].
    + simpl. exact A2.
    + destruct (B2 (C1 ltac:(lia))) as [E _]. lia.
  - intros Hs. destruct (B1 Hs) as [E1 Hs1]. destruct (B2 Hs1) as [E2 Hs2].
    split; [lia | exact Hs2].
  - intros Hc. destruct (countId id (dispatchedOf new1)) as [|k].
    + apply C2. simpl in Hc. exact Hc.
    + now apply B2, C1; lia.
Qed.

(** Steps that dispatch nothing and leave the ledger alone. *)
Lemma once_quiet w w' new :
  trace w' = trace w ++ new -> dispatchedOf new = [] -> ledgerOf w' = ledgerOf w ->
  once id w w'.
Proof.
  intros Ht Hd Hl. exists new. split; [exact Ht|]. intros _.
  rewrite Hd, Hl. unfold countId. simpl. repeat split; auto; lia.
Qed.

Lemma dispatchedOf_requests reqs : dispatchedOf (map EvRequest reqs) = [].
Proof. induction reqs; simpl; auto. Qed.

Lemma once_requests w n reqs : once id w (withRequests n reqs w).
Proof.
  apply once_quiet with (new := map EvRequest reqs);
    [reflexivity | apply dispatchedOf_requests | reflexivity].
Qed.

Lemma once_setStateFile w f : once id w (setStateFile f w).
Proof.
  apply once_quiet with (new := []); [|reflexivity..].
  simpl. now rewrite app_nil_r.
Qed.

(** What the ledger compares equal is equal. *)
Lemma sameValueZero_eq a b : sameValueZero a b = true -> a = b.
Proof.
  destruct a, b; simpl; try discriminate; auto.
  - intros H. f_equal. now apply Bool.eqb_prop.
  - intros H%Z.eqb_eq. congruence.
  - intros H%String.eqb_eq. congruence.
Qed.

Lemma setHas_setAdd_keeps s x y : setHas s x = true -> setHas (setAdd s y) x = true.
Proof.
  intros H. unfold setAdd. destruct (setHas s y); [exact H|].
  unfold setHas in *. rewrite existsb_app, H. reflexivity.
Qed.

Lemma setHas_fold_keeps l s x :
  setHas s x = true -> setHas (fold_left setAdd l s) x = true.
Proof.
  revert s. induction l as [|y l IH]; simpl; intros s H; [exact H|].
  apply IH. now apply setHas_setAdd_keeps.
Qed.

Lemma setHas_setAdd_same s a : sameValueZero a id = true -> setHas (setAdd s a) id = true.
Proof.
  intros H. pose proof (sameValueZero_eq _ _ H) as ->.
  unfold setAdd. destruct (setHas s id) eqn:E; [exact E|].
  unfold setHas. rewrite existsb_app. simpl. rewrite H. apply orb_true_r.
Qed.

Lemma setHas_fold_counted l s :
  1 <= countId id l -> setHas (fold_left setAdd (idsOf l) s) id = true.
Proof.
  revert s. unfold countId. induction l as [|o l IH]; simpl; intros s H; [lia|].
  destruct (sameValueZero (prop o "id") id) eqn:E.
  - apply setHas_fold_keeps. now apply setHas_setAdd_same.
  - now apply IH.
Qed.

(** The loop, seen from one id. *)
Lemma once_dispatches w s h invoked :
  processedOrders w = Some s ->
  countId id invoked <= 1 ->
  (setHas s id = true -> countId id invoked = 0) ->
  once id w (withDispatches (fold_left setAdd (idsOf invoked) s) h invoked w).
Proof.
  intros Hs Hc Hz. exists (map EvDispatch invoked). split; [reflexivity|].
  intros _. rewrite dispatchedOf_dispatches.
  unfold ledgerOf. rewrite Hs. cbn [processedOrders withDispatches].
  split; [exact Hc|]. split.
  - intros H. split; [auto|]. now apply setHas_fold_keeps.
  - apply setHas_fold_counted.
Qed.

Lemma countId_filter q l : countId id (List.filter q l) <= countId id l.
Proof.
  unfold countId. induction l as [|o l IH]; simpl; [lia|].
  destruct (q o); simpl; destruct (sameValueZero (prop o "id") id); simpl; lia.
Qed.

Lemma countId_new_held s verified :
  setHas s id = true -> countId id (newOrdersOf s verified) = 0.
Proof.
  intros H. unfold countId, newOrdersOf.
  induction verified as [|o l IH]; simpl; [reflexivity|].
  destruct (setHas s (prop o "id")) eqn:E; simpl; [exact IH|].
  destruct (sameValueZero (prop o "id") id) eqn:S; simpl; [|exact IH].
  apply sameValueZero_eq in S. congruence.
Qed.

(** How a program ends when it is a [bind]. *)
Lemma bind_inv A B (m : @prog Net Handler A) (k : A -> @prog Net Handler B) w res w' :
  bind m k w = (res, w') ->
  (exists a w1, m w = (Normal a, w1) /\ k a w1 = (res, w'))
  \/ (exists e, m w = (Throw e, w') /\ res = Throw e).
Proof.
  unfold bind. destruct (m w) as [[a|e] w1]; intros H.
  - left. eauto.
  - right. injection H as <- <-. eauto.
Qed.

Lemma lift_inv A (c : completion A) w res w' :
  @lift Net Handler A c w = (res, w') -> res = c /\ w' = w.
Proof. unfold lift. now intros [= <- <-]. Qed.

Variable callback : value -> Handler -> completion unit * Handler.

(** What is done with the orders obtained, seen from one id. *)
Lemma processOrders_once vendor orders w s res w' :
  processedOrders w = Some s ->
  countId id (elements orders) <= 1 ->
  processOrders StringToNumber vendor callback orders w = (res, w') ->
  once id w w'.
Proof.
  intros Hs Hc H. unfold processOrders in H.
  apply bind_inv in H as [(some & w1 & H1 & H)|(e & H1 & _)];
    apply lift_inv in H1 as [_ ->]; [|apply once_refl].
  destruct some; [|injection H as _ <-; apply once_refl].
  apply bind_inv in H as [(verified & w1 & H1 & H)|(e & H1 & _)];
    apply lift_inv in H1 as [Hv ->]; [|apply once_refl].
  symmetry in Hv.
  assert (Hbel := verified_belong _ _ _ Hv).
  assert (Hcv := verified_countId id _ _ _ Hv).
  unfold bind at 1 in H.
  rewrite (filterNew_run _ _ _ Hs) in H
    by (intros o Ho; exact (proj1 (belongs_inspected o vendor (proj2 (Hbel o Ho))))).
  assert (HcN : countId id (newOrdersOf s verified) <= 1).
  { etransitivity; [apply countId_filter | lia]. }
  assert (HbN : forall o, In o (newOrdersOf s verified) ->
                          orderBelongsToVendor o vendor = Normal true).
  { intros o Ho. apply filter_In in Ho as [Ho _]. now apply Hbel. }
  destruct (newOrdersOf s verified) as [|o0 rest] eqn:EN;
    [injection H as _ <-; apply once_refl|].
  rewrite <- EN in *.
  unfold bind at 1 in H. rewrite (dispatchAll_run _ _ _ _ _ Hs HbN) in H.
  destruct (served_prefix callback (newOrdersOf s verified) (handler w)) as (post & Hpost).
  destruct (served callback (newOrdersOf s verified) (handler w))
    as [[invoked sres] hf] eqn:ES.
  cbn [fst snd] in *.
  assert (Hci : countId id invoked <= countId id (newOrdersOf s verified)).
  { rewrite Hpost, countId_app. lia. }
  assert (Hd : once id w (withDispatches (fold_left setAdd (idsOf invoked) s) hf invoked w)).
  { apply once_dispatches; [exact Hs | lia |].
    intros Hh. pose proof (countId_new_held s verified Hh). lia. }
  destruct sres as [[]|e]; [|now injection H as _ <-].
  unfold bind at 1 in H. rewrite save_run in H.
  set (wd := withDispatches (fold_left setAdd (idsOf invoked) s) hf invoked w) in *.
  assert (Hsave : exists wsave, once id wd wsave
                    /\ processedOrders wsave = processedOrders wd
                    /\ pruneProcessedOrders wsave = (res, w')).
  { destruct (diskWritable wd); cbn [snd] in H.
    - match type of H with
      | pruneProcessedOrders ?x = _ => exists x
      end.
      split; [apply once_setStateFile|]. split; [reflexivity | exact H].
    - exists wd. split; [apply once_refl|]. split; [reflexivity | exact H]. }
  destruct Hsave as (wsave & Hos & Hps & Hprune).
  eapply once_trans; [exact Hd|]. eapply once_trans; [exact Hos|].
  clear H. destruct (processedOrders wsave) as [s2|] eqn:Es2; [|discriminate].
  destruct (le_lt_dec (List.length s2) 1000) as [Hle|Hlt].
  - rewrite (prune_small _ _ Es2 Hle) in Hprune. injection Hprune as _ <-.
    apply once_refl.
  - rewrite (prune_large _ _ Es2 Hlt) in Hprune. injection Hprune as _ <-.
    exists [EvPrune]. split; [|discriminate].
    rewrite save_run. now destruct (diskWritable _).
Qed.

End AtMostOnce.

(** *** A listener session *)

Section Session.

Variable id : value.

(** No response of the store lists two orders with the id. *)
Hypothesis listed_once :
  forall r n data n', axiosGet r n = (Normal data, n') -> countId id (elements data) <= 1.

Variable c : config.
Variable callback : value -> Handler -> completion unit * Handler.

Lemma fetchOrders_batch apiParams vendor w :
  let run := fetchOrders axiosGet StringToNumber c apiParams vendor w in
  (exists n reqs, snd run = withRequests n reqs w)
  /\ (forall orders, fst run = Normal orders -> countId id (elements orders) <= 1).
Proof.
  cbv zeta.
  destruct (fetchOrders_fetches axiosGet StringToNumber c
              (fun v => countId id (elements v) <= 1) listed_once
              (Nat.le_0_l 1)
              (fun p l l' H Hl => Nat.le_trans _ _ _ (arrayFilter_countId id p l l' H) Hl)
              apiParams vendor w) as (reqs & n & Hw & _ & Hr).
  split; [eauto|]. intros orders Ho. rewrite Ho in Hr. tauto.
Qed.

Lemma once_init w :
  once id w (snd (@initProcessedOrders Net Handler w))
  /\ processedOrders (snd (@initProcessedOrders Net Handler w)) = Some (ledgerOf w).
Proof.
  unfold initProcessedOrders, modify, ledgerOf. cbn [snd].
  destruct (processedOrders w) as [s|] eqn:E.
  - split; [apply once_refl | exact E].
  - split; [|reflexivity].
    apply once_quiet with (new := []); simpl;
      [now rewrite app_nil_r | reflexivity |].
    unfold ledgerOf. simpl. now rewrite E.
Qed.

(** One polling cycle, seen from one id. *)
Lemma checkForNewOrders_once w :
  once id w (snd (checkForNewOrders axiosGet StringToNumber c callback w)).
Proof.
  unfold checkForNewOrders, try.
  match goal with
  | |- once id w (snd (match ?body w with _ => _ end)) =>
      destruct (body w) as [res w'] eqn:E
  end.
  assert (H : once id w w'); [|destruct res; exact H].
  apply bind_inv in E as [(missing & w1 & H1 & E)|(e & H1 & _)];
    apply lift_inv in H1 as [_ ->]; [|apply once_refl].
  destruct missing; [injection E as _ <-; apply once_refl|].
  apply bind_inv in E as [(trimmed & w1 & H1 & E)|(e & H1 & _)];
    apply lift_inv in H1 as [_ ->]; [|apply once_refl].
  cbv zeta in E.
  destruct (once_init w) as [Hinit Hled].
  apply bind_inv in E as [([] & w1 & H1 & E)|(e & H1 & _)]; [|discriminate].
  assert (w1 = snd (@initProcessedOrders Net Handler w)) as -> by now rewrite H1.
  eapply once_trans; [exact Hinit|]. clear H1.
  set (wi := snd (@initProcessedOrders Net Handler w)) in *.
  match type of E with
  | bind (fetchOrders _ _ _ ?p ?v) _ _ = _ =>
      destruct (fetchOrders_batch p v wi) as [(n & reqs & Hw) Hbatch]
  end.
  apply bind_inv in E as [(orders & w2 & H2 & E)|(e & H2 & _)].
  - rewrite H2 in Hw, Hbatch. cbn [fst snd] in *. subst w2.
    eapply once_trans; [apply once_requests|].
    eapply processOrders_once; [exact Hled | apply Hbatch; reflexivity | exact E].
  - rewrite H2 in Hw. cbn [snd] in Hw. subst w'. apply once_requests.
Qed.

Lemma runCycles_once n : forall w, once id w (runCycles axiosGet StringToNumber n c callback w).
Proof.
  induction n as [|n IH]; intros w; simpl; [apply once_refl|].
  eapply once_trans; [apply checkForNewOrders_once | apply IH].
Qed.

End Session.

(** C1, amended. For every order id, compared as the ledger compares
    ids, and within a single listener session (any number of polling
    cycles during which the processed-order set is not pruned), the
    dispatch callback is invoked at most once for an order with that id,
    and not at all when the loaded set already held the id, provided no
    single response of the store lists two orders with that id.
    Whatever the store answers otherwise and whether the callback
    returns or throws does not matter. *)
Theorem dispatched_at_most_once id c callback n w :
  (forall r m data m',
     axiosGet r m = (Normal data, m') -> countId id (elements data) <= 1) ->
  exists new,
    trace (runCycles axiosGet StringToNumber n c callback w) = trace w ++ new
    /\ (pruned new = false ->
        countId id (dispatchedOf new) <= 1
        /\ (setHas (ledgerOf w) id = true -> countId id (dispatchedOf new) = 0)).
Proof.
  intros Hlisted.
  destruct (runCycles_once id Hlisted c callback n w) as (new & Ht & H).
  exists new. split; [exact Ht|]. intros Hp.
  destruct (H Hp) as (Hc & Hheld & _). split; [exact Hc|].
  intros Hs. now destruct (Hheld Hs).
Qed.

End Cycle.

Lemma ledger_pruning_witness :
  let w := Mock.idle Mock.empty (Some (Mock.ids 1 1000)) in
  let cycle := processOrders Mock.StringToNumber (JStr "7") Mock.accepts
                 (JArr [Mock.order 1001]) w in
  let full := Mock.idle Mock.empty (Some (Mock.ids 1 1001)) in
  processedOrders (snd (pruneProcessedOrders full)) = Some (Mock.ids 502 500)
  /\ processedOrders (snd cycle) = Some (Mock.ids 502 500)
  /\ stateFile (snd cycle)
     = Document (ledgerDocument (Mock.ids 502 500) "2025-01-01T00:00:00.000Z").
Proof.
  intros w cycle full.
  destruct (ledger_pruning (Net:=Mock.Net) (Handler:=unit) Mock.StringToNumber)
    as [Hcut Hcycle].
  split.
  - destruct (Hcut full (Mock.ids 1 1001)) as (_ & H & _).
    + reflexivity.
    + vm_compute. reflexivity.
    + reflexivity.
    + apply Nat.ltb_lt. vm_compute. reflexivity.
    + rewrite H. vm_compute. reflexivity.
  - destruct (Hcycle (JStr "7") Mock.accepts [Mock.order 1001] w (Mock.ids 1 1000))
      as (_ & H & _ & _ & Hfile).
    + reflexivity.
    + vm_compute. reflexivity.
    + reflexivity.
    + intros o [<-|[]]. vm_compute. reflexivity.
    + reflexivity.
    + split; [apply Nat.leb_le | apply Nat.ltb_lt]; vm_compute; reflexivity.
    + fold cycle in H, Hfile. rewrite H, Hfile. vm_compute. split; reflexivity.
Defined.



(** Counterexample to C1 as stated: the store lists order 100 twice in
    one response. Both entries pass the filter against the ledger, which
    is evaluated before the loop, and the callback is invoked twice for
    id 100 in a single cycle. *)
Lemma duplicate_in_batch_counterexample :
  let c := Mock.config7 (JNum 60) in
  let w' := runCycles (Mock.steadyGet [Mock.order 100; Mock.order 100])
              Mock.StringToNumber 1 c Mock.accepts (Mock.idleSteady (Some [])) in
  pruned (trace w') = false
  /\ dispatchedOf (trace w') = [Mock.order 100; Mock.order 100]
  /\ countId (JNum 100) (dispatchedOf (trace w')) = 2.
Proof. intros c w'. vm_compute. repeat split. Qed.

(** Three polls of a store that keeps listing orders 100 and 101: each
    is dispatched once. *)
Lemma dispatched_at_most_once_witness :
  let c := Mock.config7 (JNum 60) in
  let w' := runCycles (Mock.steadyGet [Mock.order 100; Mock.order 101])
              Mock.StringToNumber 3 c Mock.accepts (Mock.idleSteady (Some [])) in
  countId (JNum 100) (dispatchedOf (trace w')) <= 1
  /\ dispatchedOf (trace w') = [Mock.order 100; Mock.order 101].
Proof.
  intros c w'. split; [|vm_compute; reflexivity].
  destruct (dispatched_at_most_once
              (Mock.steadyGet [Mock.order 100; Mock.order 101]) Mock.StringToNumber
              (JNum 100) c Mock.accepts 3 (Mock.idleSteady (Some [])))
    as (new & Ht & H).
  - intros [b cr k] m data m'. unfold Mock.steadyGet. cbn [what].
    destruct k; intros [= <- _]; apply Nat.leb_le; reflexivity.
  - fold w' in Ht. cbn [trace Mock.idleSteady app] in Ht. rewrite Ht.
    apply H. rewrite <- Ht. vm_compute. reflexivity.
Defined.

(** ** The scenarios of the specification, run on the model *)

(** Happy path: vendor 7, the first method lists order 100 annotated
    [_dokan_vendor_id = "7"]; the callback is invoked once with it and
    the ledger holds its id, in memory and in the state file. *)
Example scenario_happy_path :
  let run := checkForNewOrders Mock.axiosGet Mock.StringToNumber
               (Mock.config7 (JNum 60)) Mock.accepts
               (Mock.idle (Mock.listing [Mock.order 100]) None) in
  dispatchedOf (trace (snd run)) = [Mock.order 100]
  /\ setHas (ledgerOf (snd run)) (JNum 100) = true
  /\ stateFile (snd run)
     = Document (ledgerDocument [JNum 100] "2025-01-01T00:00:00.000Z").
Proof. vm_compute. repeat split. Qed.

(** Cross-vendor leak blocked: the only order the store shows, in the
    listing that is filtered locally, belongs to vendor 9; the callback
    is never invoked. *)
Example scenario_cross_vendor_leak_blocked :
  let run := checkForNewOrders Mock.axiosGet Mock.StringToNumber
               (Mock.config7 (JNum 60)) Mock.accepts
               (Mock.idle Mock.recentOnly None) in
  map what (requestsOf (trace (snd run)))
  = [OrdersWith Mock.apiParams7; OrdersMetaQuery (JStr "7"); OrdersUnfiltered;
     DokanOrders; OrdersRecent]
  /\ dispatchedOf (trace (snd run)) = [].
Proof. vm_compute. repeat split. Qed.

(** Resumed session: the state file holds id 100; the listener is
    started, which loads it, and two more polls follow. Order 100, still
    listed by the store, is not dispatched again. *)
Example scenario_resumed_session :
  let c := Mock.config7 (JNum 60) in
  let started := startOrderListener Mock.axiosGet Mock.StringToNumber
                   Mock.getVendorIdFromCredentials c Mock.accepts
                   (Mock.resumed (Mock.listing [Mock.order 100])) in
  let later := runCycles Mock.axiosGet Mock.StringToNumber 2 c Mock.accepts
                 (snd started) in
  fst started = Normal (true, c)
  /\ processedOrders later = Some [JNum 100]
  /\ dispatchedOf (trace later) = [].
Proof. vm_compute. repeat split. Qed.

(** Restart safety: a second start stops the first timer before it arms
    its own; one timer is left. *)
Example scenario_restart :
  let c := Mock.config7 (JNum 30) in
  let start := startOrderListener Mock.axiosGet Mock.StringToNumber
                 Mock.getVendorIdFromCredentials c Mock.accepts in
  let twice := snd (start (snd (start (Mock.idle Mock.empty None)))) in
  intervalId twice = Some 2 /\ timers twice = [(2, Some 30000%Z)].
Proof. vm_compute. repeat split. Qed.

(* ================================================================== *)
(** * Further properties *)
(* ================================================================== *)

(** ** The verifier, the batch verifier and the manual filter *)

Section BatchVerifier.

Context {Net Handler : Type}.
Variable axiosGet : request -> Net -> completion value * Net.
Implicit Types w : @world Net Handler.

Local Open Scope exc_scope.

Lemma orderBelongsToVendor_verdict o v :
  orderBelongsToVendor o v = Normal (verdict o v).
Proof.
  unfold verdict, orderBelongsToVendor, tryCatch.
  destruct (orderBelongsToVendor_try o v); reflexivity.
Qed.

Lemma valueMatches_inv x s :
  valueMatches x s = Normal true -> truthy x = true /\ toStringCall x = Normal s.
Proof.
  unfold valueMatches. destruct (truthy x); [|discriminate].
  destruct (toStringCall x) as [t|e]; simpl; [|discriminate].
  intros [= H]. apply String.eqb_eq in H. subst t. auto.
Qed.

Lemma valueMatches_intro x s :
  truthy x = true -> toStringCall x = Normal s -> valueMatches x s = Normal true.
Proof.
  unfold valueMatches. intros -> ->. simpl. now rewrite String.eqb_refl.
Qed.

(** X1. A positive verdict always rests on a stored annotation that is
    truthy and whose string form is that of the vendor id; and, unless
    the inspection raises an internal error, every such annotation
    yields a positive verdict. *)
Theorem verdict_rests_on_evidence (order vendorId : value) :
  (orderBelongsToVendor order vendorId = Normal true ->
   exists v s, In v (evidenceValues order) /\ truthy v = true
               /\ toStringCall v = Normal s /\ toStringCall vendorId = Normal s)
  /\ (forall v s,
        In v (evidenceValues order) -> truthy v = true -> truthy vendorId = true ->
        toStringCall v = Normal s -> toStringCall vendorId = Normal s ->
        throws (orderBelongsToVendor_try order vendorId) = false ->
        orderBelongsToVendor order vendorId = Normal true).
Proof.
  split.
  - unfold orderBelongsToVendor, tryCatch. intros H.
    destruct (orderBelongsToVendor_try order vendorId) as [[|]|e] eqn:E;
      try discriminate.
    apply verdict_true_evidence in E as (v & s & Hin & Hs & Hv).
    apply valueMatches_inv in Hv as [Tv Sv]. eauto 8.
  - intros v s Hin Tv Tvendor Sv Svendor Hno.
    unfold orderBelongsToVendor, tryCatch.
    destruct (orderBelongsToVendor_try order vendorId) as [b|e] eqn:E; [|discriminate].
    f_equal. eapply (evidence_verdict_true order vendorId v s); eauto.
    + eapply evidence_truthy; eauto.
    + now apply valueMatches_intro.
Qed.

(** *** The batch verifier *)

Lemma arrayFilter_throws p l x :
  In x l -> throws (p x) = true -> throws (arrayFilter p l) = true.
Proof.
  induction l as [|y l IH]; simpl; intros Hin Hx; [contradiction|].
  destruct Hin as [->|Hin].
  - destruct (p x); [discriminate | reflexivity].
  - destruct (p y); simpl; [|reflexivity].
    specialize (IH Hin Hx). destruct (arrayFilter p l); [discriminate | reflexivity].
Qed.

Lemma arrayMap_throws f l x :
  In x l -> throws (f x) = true -> throws (arrayMap f l) = true.
Proof.
  induction l as [|y l IH]; simpl; intros Hin Hx; [contradiction|].
  destruct Hin as [->|Hin].
  - destruct (f x); [discriminate | reflexivity].
  - destruct (f y); simpl; [|reflexivity].
    specialize (IH Hin Hx). destruct (arrayMap f l); [discriminate | reflexivity].
Qed.

Lemma arrayMap_pure f g l :
  (forall x, In x l -> f x = Normal (g x)) -> arrayMap f l = Normal (map g l).
Proof.
  induction l as [|y l IH]; simpl; intros H; [reflexivity|].
  rewrite (H y) by auto. simpl. rewrite IH by auto. reflexivity.
Qed.

Lemma arraySome_pure p q l :
  (forall x, In x l -> p x = Normal (q x)) -> arraySome p l = Normal (existsb q l).
Proof.
  induction l as [|y l IH]; simpl; intros H; [reflexivity|].
  rewrite (H y) by auto. simpl. destruct (q y); [reflexivity | auto].
Qed.

Lemma joinWith_returns conv sep l :
  (forall x, In x l -> exists s, conv x = Normal s) ->
  exists s, joinWith conv sep l = Normal s.
Proof.
  induction l as [|x l IH]; intros H; [simpl; eauto|].
  destruct IH as (sr & Hr); [intros; apply H; now right|].
  destruct (H x (or_introl eq_refl)) as (sx & Hx).
  cbn [joinWith]. fold (joinWith conv sep l). rewrite Hr.
  destruct x; try rewrite Hx; cbn [bindC]; destruct l; eauto.
Qed.

Lemma filter_length_lt {A} (q : A -> bool) l x :
  In x l -> q x = false -> List.length (List.filter q l) < List.length l.
Proof.
  induction l as [|y l IH]; simpl; intros Hin Hx; [contradiction|].
  pose proof (filter_length_le q l).
  destruct Hin as [->|Hin].
  - rewrite Hx. lia.
  - specialize (IH Hin Hx). destruct (q y); simpl; lia.
Qed.

Lemma verified_is_filter l vendorId :
  arrayFilter (fun order => orderBelongsToVendor order vendorId) l
  = Normal (List.filter (fun o => verdict o vendorId) l).
Proof. apply arrayFilter_pure. intros x _. apply orderBelongsToVendor_verdict. Qed.

Lemma verdict_falsy_vendor o vendorId : truthy vendorId = false -> verdict o vendorId = false.
Proof.
  intros H. unfold verdict. rewrite falsy_rejected; [reflexivity | now right].
Qed.

Lemma verdict_true o vendorId :
  verdict o vendorId = true <-> orderBelongsToVendor o vendorId = Normal true.
Proof. rewrite orderBelongsToVendor_verdict. split; [now intros -> | now intros [= ->]]. Qed.

(** The audit line of a batch of order objects whose ids print. *)
Lemma blockedIdsLine_returns l verified :
  (forall o, In o l -> exists ps, o = JObj ps) ->
  (forall o, In o l -> exists s, ToString (prop o "id") = Normal s) ->
  (forall o, In o verified -> In o l) ->
  exists s, blockedIdsLine l verified = Normal s.
Proof.
  intros Hobj Hid Hsub. unfold blockedIdsLine.
  rewrite (arrayFilter_pure _
             (fun order => negb (existsb (fun vo => strictEq (prop vo "id") (prop order "id"))
                                         verified))).
  2:{ intros o Ho. destruct (Hobj o Ho) as (ps & ->).
      rewrite (arraySome_pure _ (fun vo => strictEq (prop vo "id") (prop (JObj ps) "id"))).
      - reflexivity.
      - intros vo Hvo. destruct (Hobj vo (Hsub vo Hvo)) as (qs & ->). reflexivity. }
  cbn [bindC].
  rewrite (arrayMap_pure _ (fun order => prop order "id")).
  2:{ intros o Ho. apply filter_In in Ho as [Ho _].
      destruct (Hobj o Ho) as (ps & ->). reflexivity. }
  cbn [bindC]. apply joinWith_returns.
  intros x Hx. apply in_map_iff in Hx as (o & <- & Ho).
  apply filter_In in Ho as [Ho _]. auto.
Qed.

(** X2. [verifyOrdersBelongToVendor] keeps exactly the orders of the batch
    on which the verifier answers [true], in their order. Whenever it
    returns, that is what it returns; it returns the empty list on
    anything but an array and on a falsy vendor id; and it does return
    on every batch of order objects whose ids can be printed, for a
    vendor id that can be printed. *)
Theorem verifyOrdersBelongToVendor_exact (orders vendorId : value) :
  (forall verified,
     verifyOrdersBelongToVendor orders vendorId = Normal verified ->
     verified = List.filter (fun o => verdict o vendorId) (elements orders)
     /\ forall o, In o verified -> orderBelongsToVendor o vendorId = Normal true)
  /\ (isArray orders = false \/ truthy vendorId = false ->
      verifyOrdersBelongToVendor orders vendorId = Normal [])
  /\ ((exists s, ToString vendorId = Normal s) ->
      (forall o, In o (elements orders) ->
                 (exists ps, o = JObj ps) /\ exists s, ToString (prop o "id") = Normal s) ->
      verifyOrdersBelongToVendor orders vendorId
      = Normal (List.filter (fun o => verdict o vendorId) (elements orders))).
Proof.
  assert (Hguard : negb (truthy orders) || negb (isArray orders) || negb (truthy vendorId) = true ->
                   List.filter (fun o => verdict o vendorId) (elements orders) = []).
  { intros G. destruct orders; try reflexivity. simpl in G.
    apply negb_true_iff in G.
    induction elems as [|o l IH]; simpl; [reflexivity|].
    now rewrite (verdict_falsy_vendor o _ G). }
  split; [|split].
  - intros verified H.
    assert (E : verified = List.filter (fun o => verdict o vendorId) (elements orders)).
    { unfold verifyOrdersBelongToVendor in H.
      destruct (negb (truthy orders) || negb (isArray orders) || negb (truthy vendorId)) eqn:G.
      - injection H as <-. symmetry. now apply Hguard.
      - apply bindC_Normal_inv in H as (_ & _ & H).
        apply bindC_Normal_inv in H as (v & Hv & H).
        apply bindC_Normal_inv in H as (_ & _ & H). injection H as <-.
        rewrite verified_is_filter in Hv. now injection Hv. }
    split; [exact E|]. intros o Ho. rewrite E in Ho.
    apply filter_In in Ho as [_ Ho]. now apply verdict_true.
  - intros H. unfold verifyOrdersBelongToVendor.
    destruct H as [H|H]; rewrite H; cbn [negb]; now rewrite !orb_true_r.
  - intros (sv & Hsv) Hbatch. unfold verifyOrdersBelongToVendor.
    destruct (negb (truthy orders) || negb (isArray orders) || negb (truthy vendorId)) eqn:G.
    + now rewrite Hguard.
    + rewrite Hsv. cbn [bindC]. rewrite verified_is_filter. cbn [bindC].
      destruct (_ <? _)%nat; [|reflexivity].
      destruct (blockedIdsLine_returns (elements orders)
                  (List.filter (fun o => verdict o vendorId) (elements orders)))
        as (line & ->); try reflexivity.
      * intros o Ho. now apply Hbatch.
      * intros o Ho. now apply Hbatch.
      * intros o Ho. now apply filter_In in Ho.
Qed.

(** What [getAllOrdersAndFilter] computes. *)
Lemma getAllOrdersAndFilter_run (c : config) (vendor : value) w :
  getAllOrdersAndFilter axiosGet c vendor w
  = if ((apiUrl c =? "") || (username c =? "") || (password c =? ""))%string
    then (Normal (JArr []), w)
    else match vendorMissing vendor with
         | Normal false =>
             let (res, n) := axiosGet (requestOf c OrdersRecent) (net w) in
             (match res with
              | Normal data =>
                  if negb (truthy data) || negb (isArray data) then Normal (JArr [])
                  else match verifyOrdersBelongToVendor data vendor with
                       | Normal l => Normal (JArr l)
                       | Throw _ => Normal (JArr [])
                       end
              | Throw _ => Normal (JArr [])
              end, withRequests n [requestOf c OrdersRecent] w)
         | _ => (Normal (JArr []), w)
         end.
Proof.
  unfold getAllOrdersAndFilter, try, bind, lift, throw, ret, httpGet.
  destruct ((apiUrl c =? "") || (username c =? "") || (password c =? ""))%string;
    [reflexivity|].
  destruct (vendorMissing vendor) as [[|]|e]; try reflexivity.
  destruct (axiosGet (requestOf c OrdersRecent) (net w)) as [[data|e] n]; [|reflexivity].
  destruct (negb (truthy data) || negb (isArray data)); [reflexivity|].
  destruct (verifyOrdersBelongToVendor data vendor); reflexivity.
Qed.

Lemma vendorMissing_false vendor :
  vendorMissing vendor = Normal false <-> exists s, vendor = JStr s /\ trim s <> "".
Proof.
  unfold vendorMissing. split.
  - destruct (truthy vendor); [|discriminate].
    destruct vendor; try discriminate. simpl. intros [= H].
    apply String.eqb_neq in H. eauto.
  - intros (s & -> & Hs). simpl.
    destruct (String.eqb_spec s ""); [subst s; now destruct Hs|].
    simpl. apply String.eqb_neq in Hs. now rewrite Hs.
Qed.

(** X3. A [null] entry in the batch makes the batch verifier raise: the
    entry is never among the verified orders, so the audit line is
    composed, and composing it reads the [id] of every order of the
    batch. The manual filter catches the error and answers the empty
    list, whatever else the listing holds. *)
Theorem verifyOrdersBelongToVendor_null_entry (l : list value) (vendorId : value) :
  In JNull l ->
  (truthy vendorId = true ->
   throws (verifyOrdersBelongToVendor (JArr l) vendorId) = true)
  /\ (forall c w n,
        axiosGet (requestOf c OrdersRecent) (net w) = (Normal (JArr l), n) ->
        fst (getAllOrdersAndFilter (Handler:=Handler) axiosGet c vendorId w)
        = Normal (JArr [])).
Proof.
  intros Hnull.
  assert (Hthrows : truthy vendorId = true ->
                    throws (verifyOrdersBelongToVendor (JArr l) vendorId) = true).
  { intros Tv. unfold verifyOrdersBelongToVendor. rewrite Tv. cbn [truthy isArray negb orb elements].
    destruct (ToString vendorId); cbn [bindC]; [|reflexivity].
    rewrite verified_is_filter. cbn [bindC].
    set (verified := List.filter (fun o => verdict o vendorId) l).
    assert (Hlt : (List.length verified <? List.length l)%nat = true).
    { apply Nat.ltb_lt. apply (filter_length_lt _ l JNull Hnull). reflexivity. }
    rewrite Hlt.
    assert (Hline : throws (blockedIdsLine l verified) = true).
    { unfold blockedIdsLine. destruct verified as [|vo rest].
      - rewrite (arrayFilter_pure _ (fun _ => true)) by reflexivity.
        cbn [bindC]. rewrite filter_all by reflexivity.
        pose proof (arrayMap_throws (fun order => getProp order "id") l JNull Hnull eq_refl) as Hm.
        destruct (arrayMap _ l); [discriminate | reflexivity].
      - match goal with
        | |- throws (bindC (arrayFilter ?p l) _) = true =>
            pose proof (arrayFilter_throws p l JNull Hnull) as Hf
        end.
        cbn [arraySome] in Hf.
        destruct (arrayFilter _ l); [|reflexivity].
        exfalso. assert (false = true); [|discriminate]. apply Hf.
        destruct (getProp vo "id"); reflexivity. }
    destruct (blockedIdsLine l verified); [discriminate | reflexivity]. }
  split; [exact Hthrows|].
  intros c w n Hget. rewrite getAllOrdersAndFilter_run.
  destruct ((apiUrl c =? "") || (username c =? "") || (password c =? ""))%string;
    [reflexivity|].
  destruct (vendorMissing vendorId) as [[|]|e] eqn:Hm; try reflexivity.
  apply vendorMissing_false in Hm as (s & -> & Hs).
  rewrite Hget. cbn [fst truthy isArray negb orb].
  assert (Ts : truthy (JStr s) = true) by (destruct s; [now destruct Hs | reflexivity]).
  specialize (Hthrows Ts).
  destruct (verifyOrdersBelongToVendor (JArr l) (JStr s)); [discriminate | reflexivity].
Qed.

(** X4. [getAllOrdersAndFilter] never raises and answers a list; every order
    of the list has passed the verifier for the vendor; it sends one
    request at most, and none at all, answering the empty list, when
    the credentials are incomplete or the vendor id is not a string with
    something else than white space in it. *)
Theorem getAllOrdersAndFilter_safe (c : config) (vendor : value) w :
  let run := getAllOrdersAndFilter axiosGet c vendor w in
  (exists l, fst run = Normal (JArr l)
             /\ forall o, In o l -> orderBelongsToVendor o vendor = Normal true)
  /\ (snd run = w \/ exists n, snd run = withRequests n [requestOf c OrdersRecent] w)
  /\ (apiUrl c = "" \/ username c = "" \/ password c = ""
      \/ (forall s, vendor = JStr s -> trim s = "") ->
      run = (Normal (JArr []), w)).
Proof.
  cbv zeta. rewrite getAllOrdersAndFilter_run.
  assert (Hnil : forall o, In o (@nil value) -> orderBelongsToVendor o vendor = Normal true)
    by (intros o []).
  destruct ((apiUrl c =? "") || (username c =? "") || (password c =? ""))%string eqn:Hcred.
  { cbn. repeat split; eauto. }
  assert (Hc : apiUrl c <> "" /\ username c <> "" /\ password c <> "").
  { apply orb_false_elim in Hcred as [Hcred H3]. apply orb_false_elim in Hcred as [H1 H2].
    repeat split; now apply String.eqb_neq. }
  destruct (vendorMissing vendor) as [[|]|e] eqn:Hm;
    [cbn; repeat split; eauto | | cbn; repeat split; eauto].
  apply vendorMissing_false in Hm as (s & -> & Hs).
  assert (Hlast : apiUrl c = "" \/ username c = "" \/ password c = ""
                  \/ (forall s', JStr s = JStr s' -> trim s' = "") -> False).
  { intros [H|[H|[H|H]]]; try tauto. now destruct (Hs (H s eq_refl)). }
  destruct (axiosGet (requestOf c OrdersRecent) (net w)) as [[data|e] n] eqn:Hget;
    cbn [fst snd].
  2:{ split; [eauto|]. split; [eauto|]. intros H. now destruct (Hlast H). }
  split; [|split; [eauto | intros H; now destruct (Hlast H)]].
  destruct (negb (truthy data) || negb (isArray data)); [eauto|].
  destruct (verifyOrdersBelongToVendor data (JStr s)) as [verified|e] eqn:Hver; [|eauto].
  exists verified. split; [reflexivity|].
  intros o Ho. exact (proj2 (verified_belong _ _ _ Hver o Ho)).
Qed.

End BatchVerifier.

Lemma verdict_rests_on_evidence_witness :
  let order := JObj [("id", JNum 100);
                     ("line_items",
                      JArr [JObj [("name", JStr "Pizza");
                                  ("meta_data",
                                   JArr [JObj [("key", JStr "_vendor_id");
                                               ("value", JNum 7)]])]])] in
  (exists v s, In v (evidenceValues order) /\ truthy v = true
               /\ toStringCall v = Normal s /\ toStringCall (JStr "7") = Normal s)
  /\ orderBelongsToVendor order (JStr "7") = Normal true.
Proof.
  intros order.
  destruct (verdict_rests_on_evidence order (JStr "7")) as [Hsound Hcomplete].
  split.
  - apply Hsound. reflexivity.
  - apply (Hcomplete (JNum 7) "7"); try reflexivity. left. reflexivity.
Defined.

Lemma verifyOrdersBelongToVendor_exact_witness :
  verifyOrdersBelongToVendor (JArr [Mock.order 100; Mock.foreign; Mock.order 101]) (JStr "7")
  = Normal [Mock.order 100; Mock.order 101]
  /\ verifyOrdersBelongToVendor (JStr "orders") (JStr "7") = Normal [].
Proof.
  split.
  - destruct (verifyOrdersBelongToVendor_exact
                (JArr [Mock.order 100; Mock.foreign; Mock.order 101]) (JStr "7"))
      as (_ & _ & H).
    rewrite H; [reflexivity | now exists "7" |].
    intros o [<-|[<-|[<-|[]]]]; (split; [eexists; reflexivity | eexists; reflexivity]).
  - apply (proj1 (proj2 (verifyOrdersBelongToVendor_exact (JStr "orders") (JStr "7")))).
    left. reflexivity.
Defined.

Lemma verifyOrdersBelongToVendor_null_entry_witness :
  let listing := [Mock.order 100; JNull] in
  throws (verifyOrdersBelongToVendor (JArr listing) (JStr "7")) = true
  /\ fst (getAllOrdersAndFilter Mock.axiosGet (Mock.config7 (JNum 60)) (JStr "7")
            (Mock.idle (Mock.recent listing) None))
     = Normal (JArr []).
Proof.
  intros listing.
  destruct (verifyOrdersBelongToVendor_null_entry (Handler:=unit) Mock.axiosGet
              listing (JStr "7")) as [Hraise Hfilter].
  - right. left. reflexivity.
  - split; [apply Hraise; reflexivity|].
    apply (Hfilter (Mock.config7 (JNum 60)) (Mock.idle (Mock.recent listing) None)
             (Mock.recent listing)).
    reflexivity.
Defined.

Lemma getAllOrdersAndFilter_safe_witness :
  let c := Mock.config7 (JNum 60) in
  let w := Mock.idle (Mock.recent [Mock.order 100]) None in
  getAllOrdersAndFilter Mock.axiosGet c (JStr "  ") w = (Normal (JArr []), w)
  /\ getAllOrdersAndFilter Mock.axiosGet c (JNum 7) w = (Normal (JArr []), w).
Proof.
  intros c w. split.
  - apply (proj2 (proj2 (getAllOrdersAndFilter_safe Mock.axiosGet c (JStr "  ") w))).
    right. right. right. intros s [= <-]. reflexivity.
  - apply (proj2 (proj2 (getAllOrdersAndFilter_safe Mock.axiosGet c (JNum 7) w))).
    right. right. right. intros s [=].
Defined.

(** ** The ledger file, in its edge cases *)

Section LedgerEdges.

Context {Net Handler : Type}.
Implicit Types w : @world Net Handler.

Lemma distinct_snoc s x :
  distinct s = true -> setHas s x = false -> distinct (s ++ [x]) = true.
Proof.
  unfold setHas. induction s as [|a s IH]; simpl; [reflexivity|].
  intros [Ha Hd]%andb_prop [Hx Hs]%orb_false_elim.
  rewrite existsb_app, (IH Hd Hs). simpl.
  apply negb_true_iff in Ha. rewrite Ha, sameValueZero_sym, Hx. reflexivity.
Qed.

Lemma distinct_setAdd s x : distinct s = true -> distinct (setAdd s x) = true.
Proof.
  intros H. unfold setAdd. destruct (setHas s x) eqn:E; [exact H|].
  now apply distinct_snoc.
Qed.

Lemma distinct_fold_setAdd l s :
  distinct s = true -> distinct (fold_left setAdd l s) = true.
Proof.
  revert s. induction l as [|x l IH]; simpl; intros s H; [exact H|].
  apply IH. now apply distinct_setAdd.
Qed.

(** Whatever [new Set(iterable)] builds has no repeated member. *)
Lemma distinct_setOfList l : distinct (setOfList l) = true.
Proof. now apply distinct_fold_setAdd. Qed.

Lemma newSet_distinct v s : newSet v = Normal s -> distinct s = true.
Proof.
  destruct v; simpl; intros [= <-]; try reflexivity; apply distinct_setOfList.
Qed.

(** X5. [loadProcessedOrdersState] never raises and always leaves a [Set] in
    memory, touching nothing else. The set is empty when there is no
    state file (the load succeeds) and whenever the load fails: on a
    file that cannot be parsed and on a document whose [orders] cannot
    be iterated. On a document with a list of ids whose [lastUpdate]
    prints, the load succeeds and the set holds the ids of the list,
    each once, in the order of their first occurrence. *)
Theorem loadProcessedOrdersState_total w :
  let run := loadProcessedOrdersState w in
  exists b s,
    run = (Normal b, setProcessedOrders (Some s) w)
    /\ distinct s = true
    /\ (b = false -> s = [])
    /\ (stateFile w = NoFile -> b = true /\ s = [])
    /\ (stateFile w = Unparsable -> b = false)
    /\ (forall data ids t,
          stateFile w = Document data -> prop data "orders" = JArr ids ->
          ToString (prop data "lastUpdate") = Normal t ->
          b = true /\ s = setOfList ids).
Proof.
  cbv zeta. unfold loadProcessedOrdersState, try, bind, gets, lift, modify, throw, ret.
  assert (Hfail : forall (f : file) (Q : bool -> list value -> Prop),
            f <> NoFile -> Q false [] ->
            exists b s,
              (Normal false, setProcessedOrders (Some []) w)
              = (Normal b, setProcessedOrders (Some s) w)
              /\ distinct s = true /\ (b = false -> s = [])
              /\ (f = NoFile -> b = true /\ s = [])
              /\ (f = Unparsable -> b = false)
              /\ Q b s).
  { intros f Q Hnot HQ. exists false, [].
    split; [reflexivity|]. split; [reflexivity|]. split; [reflexivity|].
    split; [|split; [reflexivity | exact HQ]].
    intros Hn. now destruct Hnot. }
  destruct (stateFile w) as [| |data] eqn:Hf.
  - exists true, [].
    split; [reflexivity|]. split; [reflexivity|]. split; [reflexivity|].
    split; [auto|]. split; discriminate.
  - apply Hfail; [discriminate|]. intros data ids t [=].
  - destruct (getProp data "orders") as [orders|e] eqn:Ho.
    2:{ apply Hfail; [discriminate|].
        intros data' ids t [= <-] Hids _.
        destruct data; simpl in Ho, Hids; discriminate. }
    apply getProp_Normal in Ho.
    destruct (newSet orders) as [s|e] eqn:Hs.
    2:{ apply Hfail; [discriminate|].
        intros data' ids t [= <-] Hids _.
        rewrite Ho, Hids in Hs. discriminate. }
    destruct (ToString (prop data "lastUpdate")) as [t|e] eqn:Ht.
    + exists true, s.
      split; [reflexivity|]. split; [eapply newSet_distinct; eauto|].
      split; [discriminate|]. split; [discriminate|]. split; [discriminate|].
      intros data' ids t' [= <-] Hids _.
      rewrite Ho, Hids in Hs. simpl in Hs. split; congruence.
    + assert (E : setProcessedOrders (Some []) (setProcessedOrders (Some s) w)
                  = setProcessedOrders (Some []) w) by reflexivity.
      rewrite E. apply Hfail; [discriminate|].
      intros data' ids t' [= <-] _ Ht'. congruence.
Qed.

(** X6. When the state file cannot be written, the explicit reset still
    answers [true] and empties the set in memory, but the file keeps the
    ids it held: the next load brings them back. *)
Theorem reset_not_persisted w (s : list value) (now : string) :
  diskWritable w = false ->
  stateFile w = Document (ledgerDocument s now) ->
  let reset := clearProcessedOrdersState w in
  fst reset = Normal true
  /\ processedOrders (snd reset) = Some []
  /\ stateFile (snd reset) = stateFile w
  /\ processedOrders (snd (loadProcessedOrdersState (snd reset)))
     = Some (setOfList (map jsonRoundTrip s)).
Proof.
  intros Hd Hf. cbv zeta.
  assert (E : clearProcessedOrdersState w = (Normal true, setProcessedOrders (Some []) w)).
  { unfold clearProcessedOrdersState, try, bind, modify, ret. rewrite save_run.
    cbn [diskWritable setProcessedOrders]. now rewrite Hd. }
  rewrite E. cbn [fst snd]. repeat split.
  rewrite (load_document _ s now) by exact Hf. reflexivity.
Qed.

(** What [stopOrderListener] computes. *)
Lemma stopOrderListener_run w :
  @stopOrderListener Net Handler w
  = (Normal true,
     setIsListening false
       (let w1 := snd (clearIntervalId w) in
        match processedOrders w with
        | Some _ => snd (saveProcessedOrdersState w1)
        | None => w1
        end)).
Proof.
  unfold stopOrderListener. unfold bind at 1.
  destruct (clearIntervalId w) as [[[]|e] w1] eqn:E1; [|discriminate E1].
  assert (Hp : processedOrders w1 = processedOrders w).
  { unfold clearIntervalId, modify in E1. injection E1 as <-.
    destruct (intervalId w); reflexivity. }
  cbn [snd]. unfold bind at 1. unfold gets at 1. rewrite Hp.
  destruct (processedOrders w).
  - unfold bind at 1. unfold bind at 1. rewrite save_run.
    destruct (diskWritable w1); reflexivity.
  - reflexivity.
Qed.

(** X7. [stopOrderListener] never raises and answers [true]. Afterwards the
    listener is marked as stopped and its timer, if one was armed, is
    cancelled. The set in memory, the events and the network are as they
    were; so is the state file when there is no set to save or the file
    cannot be written. *)
Theorem stopOrderListener_total w :
  let run := @stopOrderListener Net Handler w in
  fst run = Normal true
  /\ isListening (snd run) = false
  /\ intervalId (snd run) = None
  /\ (forall h ms, intervalId w = Some h -> ~ In (h, ms) (timers (snd run)))
  /\ processedOrders (snd run) = processedOrders w
  /\ trace (snd run) = trace w
  /\ net (snd run) = net w
  /\ (processedOrders w = None \/ diskWritable w = false ->
      stateFile (snd run) = stateFile w).
Proof.
  cbv zeta. rewrite stopOrderListener_run. cbn [fst snd].
  unfold clearIntervalId, modify. cbn [snd].
  set (w1 := match intervalId w with
             | Some h => setTimers None
                           (List.filter (fun t => negb (Nat.eqb (fst t) h)) (timers w))
                           (nextTimer w) w
             | None => w
             end).
  assert (H1 : intervalId w1 = None
               /\ (forall h ms, intervalId w = Some h -> ~ In (h, ms) (timers w1))
               /\ processedOrders w1 = processedOrders w /\ trace w1 = trace w
               /\ net w1 = net w /\ stateFile w1 = stateFile w
               /\ diskWritable w1 = diskWritable w).
  { subst w1. destruct (intervalId w) as [h|] eqn:Hi; cbn.
    - split; [reflexivity|]. split; [|auto 6].
      intros h' ms [= <-] Hin. apply filter_In in Hin as [_ Hin]. cbn in Hin.
      now rewrite Nat.eqb_refl in Hin.
    - split; [exact Hi|]. split; [discriminate | auto 6]. }
  destruct H1 as (Hi & Ht & Hp & Htr & Hn & Hf & Hd).
  split; [reflexivity|].
  destruct (processedOrders w) as [s|] eqn:Hs.
  - rewrite save_run. rewrite Hd.
    destruct (diskWritable w) eqn:Hdw; cbn [snd]; cbn;
      (split; [reflexivity|]); (split; [exact Hi|]); (split; [exact Ht|]);
      (split; [congruence|]); (split; [exact Htr|]); (split; [exact Hn|]).
    + intros [H|H]; discriminate.
    + intros _. exact Hf.
  - cbn. split; [reflexivity|]. split; [exact Hi|]. split; [exact Ht|].
    split; [exact Hp|]. split; [exact Htr|]. split; [exact Hn|]. intros _. exact Hf.
Qed.

End LedgerEdges.

Lemma loadProcessedOrdersState_total_witness :
  let doc := JObj [("orders", JArr [JNum 100; JStr "a-101"; JNum 100]);
                   ("lastUpdate", JStr "2024-12-31T23:00:00.000Z")] in
  let w := setStateFile (Document doc) (Mock.idle Mock.empty None) in
  loadProcessedOrdersState w
  = (Normal true, setProcessedOrders (Some [JNum 100; JStr "a-101"]) w)
  /\ loadProcessedOrdersState (setStateFile Unparsable w)
     = (Normal false, setProcessedOrders (Some []) (setStateFile Unparsable w)).
Proof.
  intros doc w. split.
  - destruct (loadProcessedOrdersState_total w) as (b & s & Hrun & _ & _ & _ & _ & Hdoc).
    destruct (Hdoc doc [JNum 100; JStr "a-101"; JNum 100] "2024-12-31T23:00:00.000Z")
      as [Hb Hs]; [reflexivity | reflexivity | reflexivity |].
    rewrite Hrun, Hb, Hs. reflexivity.
  - destruct (loadProcessedOrdersState_total (setStateFile Unparsable w))
      as (b & s & Hrun & _ & Hfail & _ & Hbad & _).
    rewrite Hrun. rewrite (Hbad eq_refl) in *. now rewrite (Hfail eq_refl).
Defined.

Lemma reset_not_persisted_witness :
  let w := setStateFile (Document (ledgerDocument [JNum 100] "2024-12-31T23:00:00.000Z"))
             (Mock.readOnly (Some [JNum 100; JNum 101])) in
  fst (clearProcessedOrdersState w) = Normal true
  /\ processedOrders (snd (loadProcessedOrdersState (snd (clearProcessedOrdersState w))))
     = Some [JNum 100].
Proof.
  intros w.
  destruct (reset_not_persisted w [JNum 100] "2024-12-31T23:00:00.000Z" eq_refl eq_refl)
    as (Hret & _ & _ & Hload).
  split; [exact Hret | exact Hload].
Defined.

Lemma stopOrderListener_total_witness :
  let w := Mock.readOnly (Some [JNum 100]) in
  fst (stopOrderListener w) = Normal true
  /\ stateFile (snd (stopOrderListener w)) = NoFile
  /\ processedOrders (snd (stopOrderListener w)) = Some [JNum 100].
Proof.
  intros w.
  destruct (stopOrderListener_total w) as (Hret & _ & _ & _ & Hset & _ & _ & Hfile).
  split; [exact Hret|]. split; [|exact Hset].
  apply Hfile. right. reflexivity.
Defined.

(** ** What a polling cycle can do to the world *)

Section CycleShape.

Context {Net Handler : Type}.
Variable axiosGet : request -> Net -> completion value * Net.
Variable StringToNumber : string -> option Z.
Implicit Types w : @world Net Handler.
Implicit Types callback : value -> Handler -> completion unit * Handler.

(** When the loop is left by an error, the callback raised it. *)
Lemma served_raises callback l : forall h e,
  snd (fst (served callback l h)) = Throw e ->
  exists o h', fst (callback o h') = Throw e.
Proof.
  induction l as [|o l IH]; intros h e; simpl; [discriminate|].
  destruct (callback o h) as [[u|e'] h'] eqn:E.
  - specialize (IH h' e). destruct (served callback l h') as [[invoked res] hf].
    exact IH.
  - simpl. intros [= ->]. exists o, h. now rewrite E.
Qed.

(** What is done with the orders obtained: nothing, or some orders of
    the vendor are marked and dispatched, after which either the
    callback has raised or the ledger is saved and cut if need be. *)
Lemma processOrders_shape vendor callback orders w s res w' :
  processedOrders w = Some s ->
  processOrders StringToNumber vendor callback orders w = (res, w') ->
  w' = w
  \/ exists invoked h,
       (forall o, In o invoked -> orderBelongsToVendor o vendor = Normal true)
       /\ ((exists o h' e, fst (callback o h') = Throw e)
            /\ w' = withDispatches (fold_left setAdd (idsOf invoked) s) h invoked w
           \/ w' = afterBatch (fold_left setAdd (idsOf invoked) s) h invoked w).
Proof.
  intros Hs H. unfold processOrders in H.
  apply bind_inv in H as [(some & w1 & H1 & H)|(e & H1 & _)];
    apply lift_inv in H1 as [_ ->]; [|now left].
  destruct some; [|injection H as _ <-; now left].
  apply bind_inv in H as [(verified & w1 & H1 & H)|(e & H1 & _)];
    apply lift_inv in H1 as [Hv ->]; [|now left].
  symmetry in Hv.
  assert (Hbel := verified_belong _ _ _ Hv).
  unfold bind at 1 in H.
  rewrite (filterNew_run _ _ _ Hs) in H
    by (intros o Ho; exact (proj1 (belongs_inspected o vendor (proj2 (Hbel o Ho))))).
  assert (HbN : forall o, In o (newOrdersOf s verified) ->
                          orderBelongsToVendor o vendor = Normal true).
  { intros o Ho. apply filter_In in Ho as [Ho _]. now apply Hbel. }
  destruct (newOrdersOf s verified) as [|o0 rest] eqn:EN;
    [injection H as _ <-; now left|].
  rewrite <- EN in *.
  unfold bind at 1 in H. rewrite (dispatchAll_run _ _ _ _ _ Hs HbN) in H.
  destruct (served_prefix callback (newOrdersOf s verified) (handler w)) as (post & Hpost).
  pose proof (served_raises callback (newOrdersOf s verified) (handler w)) as Hraise.
  destruct (served callback (newOrdersOf s verified) (handler w))
    as [[invoked sres] hf] eqn:ES.
  cbn [fst snd] in *.
  right. exists invoked, hf. split.
  { intros o Ho. apply HbN. rewrite Hpost. apply in_or_app. now left. }
  destruct sres as [[]|e].
  - right. unfold bind at 1 in H. rewrite save_run in H.
    unfold afterBatch. rewrite save_run.
    destruct (diskWritable _); cbn [snd] in *; now rewrite H.
  - left. injection H as _ <-. split; [|reflexivity].
    destruct (Hraise e eq_refl) as (o & h' & Ho). eauto.
Qed.

Lemma fetchOrders_requests c apiParams vendor w :
  exists n reqs,
    snd (fetchOrders axiosGet StringToNumber c apiParams vendor w) = withRequests n reqs w.
Proof.
  destruct (fetchOrders_fetches axiosGet StringToNumber c (fun _ => True)
              (fun _ _ _ _ _ => Logic.I) Logic.I (fun _ _ _ _ _ => Logic.I)
              apiParams vendor w) as (reqs & n & Hw & _).
  eauto.
Qed.

(** A relation between worlds that holds across the steps of a cycle
    holds across any number of cycles. *)
Lemma cycles_keep (R : @world Net Handler -> @world Net Handler -> Prop) c callback :
  (forall w, R w w) ->
  (forall w1 w2 w3, R w1 w2 -> R w2 w3 -> R w1 w3) ->
  (forall w, R w (snd (initProcessedOrders w))) ->
  (forall w n reqs, R w (withRequests n reqs w)) ->
  (forall v w s invoked h,
     vendorId c = JStr v -> trim v <> "" -> processedOrders w = Some s ->
     (forall o, In o invoked -> orderBelongsToVendor o (JStr (trim v)) = Normal true) ->
     ((exists o h' e, fst (callback o h') = Throw e) ->
      R w (withDispatches (fold_left setAdd (idsOf invoked) s) h invoked w))
     /\ R w (afterBatch (fold_left setAdd (idsOf invoked) s) h invoked w)) ->
  forall n w, R w (runCycles axiosGet StringToNumber n c callback w).
Proof.
  intros Hrefl Htrans Hinit Hreq Hbatch.
  assert (Hcycle : forall w, R w (snd (checkForNewOrders axiosGet StringToNumber c callback w))).
  { intros w. unfold checkForNewOrders, try.
    match goal with
    | |- R w (snd (match ?body w with _ => _ end)) =>
        destruct (body w) as [res w'] eqn:E
    end.
    assert (H : R w w'); [|destruct res; exact H].
    apply bind_inv in E as [(missing & w1 & H1 & E)|(e & H1 & _)];
      apply lift_inv in H1 as [Hm ->]; [|apply Hrefl].
    destruct missing; [injection E as _ <-; apply Hrefl|].
    symmetry in Hm. apply vendorMissing_false in Hm as (v & Hv & Hne).
    apply bind_inv in E as [(trimmed & w1 & H1 & E)|(e & H1 & _)];
      apply lift_inv in H1 as [Ht ->]; [|apply Hrefl].
    rewrite Hv in Ht. simpl in Ht. injection Ht as ->.
    cbv zeta in E.
    apply bind_inv in E as [([] & w1 & H1 & E)|(e & H1 & _)]; [|discriminate].
    assert (w1 = snd (@initProcessedOrders Net Handler w)) as -> by now rewrite H1.
    eapply Htrans; [apply Hinit|]. clear H1.
    assert (Hled : exists s, processedOrders (snd (@initProcessedOrders Net Handler w)) = Some s).
    { unfold initProcessedOrders, modify. cbn [snd].
      destruct (processedOrders w) eqn:Ep; [rewrite Ep | cbn]; eauto. }
    destruct Hled as (s & Hs).
    set (wi := snd (@initProcessedOrders Net Handler w)) in *.
    match type of E with
    | bind (fetchOrders _ _ _ ?p ?vd) _ _ = _ =>
        destruct (fetchOrders_requests c p vd wi) as (n & reqs & Hw)
    end.
    apply bind_inv in E as [(orders & w2 & H2 & E)|(e & H2 & _)].
    - rewrite H2 in Hw. cbn [snd] in Hw. subst w2.
      eapply Htrans; [apply Hreq|].
      apply (processOrders_shape _ _ _ _ s) in E; [|exact Hs].
      destruct E as [->|(invoked & h & Hbel & E)]; [apply Hrefl|].
      destruct (Hbatch v (withRequests n reqs wi) s invoked h Hv Hne Hs Hbel)
        as [Hthrown Hdone].
      destruct E as [[Hraise ->]| ->]; auto.
    - rewrite H2 in Hw. cbn [snd] in Hw. subst w'. apply Hreq. }
  induction n as [|n IH]; intros w; simpl; [apply Hrefl|].
  eapply Htrans; [apply Hcycle | apply IH].
Qed.

End CycleShape.

(** ** Invariants of the polling loop *)

Section CycleInvariants.

Context {Net Handler : Type}.
Variable axiosGet : request -> Net -> completion value * Net.
Variable StringToNumber : string -> option Z.
Implicit Types w : @world Net Handler.
Implicit Types callback : value -> Handler -> completion unit * Handler.

(** The world after a batch, field by field. *)
Lemma afterBatch_cases s h invoked w :
  let w' := afterBatch s h invoked w in
  sameListener w w'
  /\ (List.length s <= 1000 /\ processedOrders w' = Some s
      /\ trace w' = trace w ++ map EvDispatch invoked
      \/ 1000 < List.length s
         /\ processedOrders w' = Some (setOfList (sliceLast 500 s))
         /\ trace w' = (trace w ++ map EvDispatch invoked) ++ [EvPrune]).
Proof.
  cbv zeta. unfold afterBatch. rewrite save_run.
  change (diskWritable (withDispatches s h invoked w)) with (diskWritable w).
  destruct (le_lt_dec (List.length s) 1000) as [Hle|Hlt].
  - destruct (diskWritable w); cbn [snd];
      (rewrite (prune_small _ s); [|reflexivity | exact Hle]);
      (split; [repeat split | left; repeat split; assumption]).
  - destruct (diskWritable w) eqn:Hd; cbn [snd];
      (rewrite (prune_large _ s); [|reflexivity | exact Hlt]);
      rewrite save_run; cbn [snd diskWritable setProcessedOrders logEvent setHandler
                              setStateFile withDispatches];
      rewrite Hd; cbn [snd];
      (split; [repeat split | right; repeat split; assumption]).
Qed.

Lemma dispatchedOf_prune l : dispatchedOf (l ++ [EvPrune]) = dispatchedOf l.
Proof. rewrite dispatchedOf_app. simpl. apply app_nil_r. Qed.

(** Membership in a [Set] built by additions. *)
Lemma In_setAdd s x y : In y (setAdd s x) <-> In y s \/ y = x.
Proof.
  unfold setAdd. destruct (setHas s x) eqn:E.
  - split; [auto|]. intros [H | ->]; [exact H|].
    unfold setHas in E. apply existsb_exists in E as (z & Hz & Hzx).
    apply sameValueZero_eq in Hzx. now subst z.
  - rewrite in_app_iff. simpl. intuition.
Qed.

Lemma In_fold_setAdd l s y :
  In y (fold_left setAdd l s) <-> In y s \/ In y l.
Proof.
  revert s. induction l as [|x l IH]; intros s; simpl; [tauto|].
  rewrite IH, In_setAdd. intuition.
Qed.

Lemma In_setOfList l y : In y (setOfList l) <-> In y l.
Proof. unfold setOfList. rewrite In_fold_setAdd. simpl. tauto. Qed.

Lemma In_sliceLast n l y : In y (sliceLast n l) -> In y l.
Proof.
  unfold sliceLast. intros H.
  rewrite <- (firstn_skipn (List.length l - n) l). apply in_or_app. now right.
Qed.

Lemma length_fold_setAdd l s :
  List.length (fold_left setAdd l s) <= List.length s + List.length l.
Proof.
  revert s. induction l as [|x l IH]; intros s; simpl; [lia|].
  etransitivity; [apply IH|]. unfold setAdd.
  destruct (setHas s x); [lia|]. rewrite length_app. simpl. lia.
Qed.

Lemma length_setOfList l : List.length (setOfList l) <= List.length l.
Proof. unfold setOfList. pose proof (length_fold_setAdd l []). simpl in *. lia. Qed.

Lemma length_sliceLast n l : List.length (sliceLast n l) <= n.
Proof. unfold sliceLast. rewrite length_skipn. lia. Qed.

(** X8. Security of the dispatch: over any number of polling cycles,
    whatever the store answers, every order handed to the callback has
    passed the ownership verifier for the configured vendor id, trimmed,
    which is a string with something else than white space in it. *)
Theorem dispatched_orders_belong (c : config) callback (n : nat) w :
  exists new,
    trace (runCycles axiosGet StringToNumber n c callback w) = trace w ++ new
    /\ forall o, In o (dispatchedOf new) ->
                 exists v, vendorId c = JStr v /\ trim v <> ""
                           /\ orderBelongsToVendor o (JStr (trim v)) = Normal true.
Proof.
  set (P := fun o => exists v, vendorId c = JStr v /\ trim v <> ""
                               /\ orderBelongsToVendor o (JStr (trim v)) = Normal true).
  assert (H : dispatchesOnly P w (runCycles axiosGet StringToNumber n c callback w)).
  { apply cycles_keep.
    - intros w0. exists []. now rewrite app_nil_r.
    - intros w1 w2 w3 (n1 & H1 & F1) (n2 & H2 & F2). exists (n1 ++ n2).
      split; [now rewrite H2, H1, app_assoc|].
      rewrite dispatchedOf_app. now apply Forall_app.
    - intros w0. exists []. split; [|constructor].
      unfold initProcessedOrders, modify. cbn [snd].
      destruct (processedOrders w0); cbn; now rewrite app_nil_r.
    - intros w0 m reqs. exists (map EvRequest reqs). split; [reflexivity|].
      rewrite dispatchedOf_requests. constructor.
    - intros v w0 s invoked h Hv Hne Hs Hbel.
      assert (HP : Forall P invoked).
      { apply Forall_forall. intros o Ho. exists v. auto. }
      split.
      + intros _. exists (map EvDispatch invoked). split; [reflexivity|].
        now rewrite dispatchedOf_dispatches.
      + destruct (afterBatch_cases (fold_left setAdd (idsOf invoked) s) h invoked w0)
          as (_ & [(_ & _ & Ht)|(_ & _ & Ht)]).
        * exists (map EvDispatch invoked). split; [exact Ht|].
          now rewrite dispatchedOf_dispatches.
        * exists (map EvDispatch invoked ++ [EvPrune]).
          split; [now rewrite Ht, app_assoc|].
          now rewrite dispatchedOf_prune, dispatchedOf_dispatches. }
  destruct H as (new & Ht & HF). exists new. split; [exact Ht|].
  intros o Ho. rewrite Forall_forall in HF. exact (HF o Ho).
Qed.

(** X9. The ledger follows the dispatches: over any number of polling
    cycles, an id the ledger holds afterwards was held before or is the
    id of an order dispatched meanwhile; and, unless the ledger was cut
    meanwhile, every id held before and the id of every order dispatched
    is held afterwards. *)
Theorem ledger_tracks_dispatches (c : config) callback (n : nat) w :
  let w' := runCycles axiosGet StringToNumber n c callback w in
  exists new,
    trace w' = trace w ++ new
    /\ (forall id, In id (ledgerOf w') ->
                   In id (ledgerOf w) \/ In id (idsOf (dispatchedOf new)))
    /\ (pruned new = false ->
        forall id, In id (ledgerOf w) \/ In id (idsOf (dispatchedOf new)) ->
                   In id (ledgerOf w')).
Proof.
  cbv zeta.
  change (ledgerTracks w (runCycles axiosGet StringToNumber n c callback w)).
  apply cycles_keep.
  - intros w0. exists []. rewrite app_nil_r. split; [reflexivity|]. simpl. tauto.
  - intros w1 w2 w3 (n1 & H1 & A1 & B1) (n2 & H2 & A2 & B2). exists (n1 ++ n2).
    split; [now rewrite H2, H1, app_assoc|].
    rewrite dispatchedOf_app. unfold idsOf in *. rewrite map_app. split.
    + intros id Hid. rewrite in_app_iff.
      destruct (A2 id Hid) as [H|H]; [|tauto]. destruct (A1 id H); tauto.
    + unfold pruned. rewrite existsb_app. intros [P1 P2]%orb_false_elim id Hid.
      rewrite in_app_iff in Hid. apply (B2 P2).
      destruct Hid as [H|[H|H]]; [left; apply (B1 P1); tauto
                                 |left; apply (B1 P1); tauto | tauto].
  - intros w0. exists [].
    assert (E : ledgerOf (snd (@initProcessedOrders Net Handler w0)) = ledgerOf w0).
    { unfold initProcessedOrders, modify, ledgerOf. cbn [snd].
      destruct (processedOrders w0) eqn:Ep; [now rewrite Ep | reflexivity]. }
    rewrite E. split; [|simpl; tauto].
    unfold initProcessedOrders, modify. cbn [snd].
    destruct (processedOrders w0); cbn; now rewrite app_nil_r.
  - intros w0 m reqs. exists (map EvRequest reqs). split; [reflexivity|].
    rewrite dispatchedOf_requests. simpl. cbn. tauto.
  - intros v w0 s invoked h Hv Hne Hs Hbel.
    assert (Hl : ledgerOf w0 = s) by (unfold ledgerOf; now rewrite Hs).
    split.
    + intros _. exists (map EvDispatch invoked). split; [reflexivity|].
      rewrite dispatchedOf_dispatches, Hl. unfold ledgerOf. cbn [processedOrders withDispatches].
      split; [intros id; now rewrite In_fold_setAdd
             |intros _ id; now rewrite In_fold_setAdd].
    + destruct (afterBatch_cases (fold_left setAdd (idsOf invoked) s) h invoked w0)
        as (_ & [(_ & Hp & Ht)|(_ & Hp & Ht)]).
      * exists (map EvDispatch invoked). split; [exact Ht|].
        rewrite dispatchedOf_dispatches, Hl. unfold ledgerOf. rewrite Hp.
        split; [intros id; now rewrite In_fold_setAdd
               |intros _ id; now rewrite In_fold_setAdd].
      * exists (map EvDispatch invoked ++ [EvPrune]).
        split; [now rewrite Ht, app_assoc|].
        rewrite dispatchedOf_prune, dispatchedOf_dispatches, Hl.
        unfold ledgerOf. rewrite Hp. split.
        -- intros id Hid%In_setOfList%In_sliceLast. now apply In_fold_setAdd.
        -- unfold pruned. rewrite existsb_app. simpl. rewrite orb_true_r. discriminate.
Qed.

(** X10. The ledger stays bounded: if it holds at most 1000 ids, it holds at
    most 1000 ids after any number of polling cycles, provided the
    callback does not throw into the loop (a batch that brings the set
    above the bound is followed by the cut to 500 ids). *)
Theorem ledger_stays_bounded (c : config) callback (n : nat) w :
  (forall o h, fst (callback o h) = Normal tt) ->
  List.length (ledgerOf w) <= 1000 ->
  List.length (ledgerOf (runCycles axiosGet StringToNumber n c callback w)) <= 1000.
Proof.
  intros Hcb.
  apply (cycles_keep axiosGet StringToNumber
           (fun w0 w1 => List.length (ledgerOf w0) <= 1000 ->
                         List.length (ledgerOf w1) <= 1000)).
  - auto.
  - auto.
  - intros w0. unfold initProcessedOrders, modify, ledgerOf. cbn [snd].
    destruct (processedOrders w0) eqn:Ep; [now rewrite Ep | auto].
  - auto.
  - intros v w0 s invoked h Hv Hne Hs Hbel. split.
    + intros (o & h' & e & He). rewrite Hcb in He. discriminate.
    + intros _.
      destruct (afterBatch_cases (fold_left setAdd (idsOf invoked) s) h invoked w0)
        as (_ & [(Hle & Hp & _)|(_ & Hp & _)]); unfold ledgerOf; rewrite Hp.
      * exact Hle.
      * etransitivity; [apply length_setOfList|].
        etransitivity; [apply length_sliceLast|]. lia.
Qed.

(** X11. Without a usable vendor id a polling cycle does nothing at all: no
    request, no dispatch, no change of the ledger. That is so when
    [config.vendorId] is unset or blank, and also when it is not a
    string (a numeric id, say: [trim] is then not a function and the
    error is caught by the cycle). *)
Theorem cycle_without_vendor_id (c : config) callback w :
  (forall v, vendorId c = JStr v -> trim v = "") ->
  checkForNewOrders axiosGet StringToNumber c callback w = (Normal tt, w).
Proof.
  intros Hblank. unfold checkForNewOrders, try, bind, lift.
  destruct (vendorMissing (vendorId c)) as [[|]|e] eqn:Hm; try reflexivity.
  apply vendorMissing_false in Hm as (v & Hv & Hne). now destruct (Hne (Hblank v Hv)).
Qed.

End CycleInvariants.

(** A store that keeps listing order 1001 to a ledger of 1000 ids: the
    ledger is cut after the batch and stays within the bound. *)
Lemma ledger_stays_bounded_witness :
  let c := Mock.config7 (JNum 60) in
  let w := Mock.idleSteady (Some (Mock.ids 1 1000)) in
  List.length (ledgerOf (runCycles (Mock.steadyGet [Mock.order 1001]) Mock.StringToNumber
                           2 c Mock.accepts w)) <= 1000.
Proof.
  intros c w.
  apply (ledger_stays_bounded (Mock.steadyGet [Mock.order 1001]) Mock.StringToNumber
           c Mock.accepts 2 w).
  - intros o h. reflexivity.
  - apply Nat.leb_le. vm_compute. reflexivity.
Defined.

(** A numeric vendor id and a blank one: the cycle leaves the world as
    it found it, though the store lists an order. *)
Lemma cycle_without_vendor_id_witness :
  let numeric := withVendorId (Mock.config7 (JNum 60)) (JNum 7) in
  let blank := withVendorId (Mock.config7 (JNum 60)) (JStr "  ") in
  let w := Mock.idle (Mock.listing [Mock.order 100]) None in
  checkForNewOrders Mock.axiosGet Mock.StringToNumber numeric Mock.accepts w
  = (Normal tt, w)
  /\ checkForNewOrders Mock.axiosGet Mock.StringToNumber blank Mock.accepts w
     = (Normal tt, w).
Proof.
  intros numeric blank w. split.
  - apply (cycle_without_vendor_id Mock.axiosGet Mock.StringToNumber numeric Mock.accepts w).
    intros v [=].
  - apply (cycle_without_vendor_id Mock.axiosGet Mock.StringToNumber blank Mock.accepts w).
    intros v [= <-]. reflexivity.
Defined.

(** ** The listener: its timer, and a start without vendor id *)

Section ListenerInvariant.

Context {Net Handler : Type}.
Variable axiosGet : request -> Net -> completion value * Net.
Variable StringToNumber : string -> option Z.
Variable getVendorIdFromCredentials : config -> Net -> string * Net.
Implicit Types w : @world Net Handler.
Implicit Types callback : value -> Handler -> completion unit * Handler.
Implicit Types P Q : @world Net Handler -> Prop.

(** *** Rules for [Ensures] *)

Lemma Ensures_bind A B P Qm Q (m : @prog Net Handler A) (k : A -> @prog Net Handler B) :
  Ensures P m Qm -> (forall w, Qm w -> Q w) -> (forall a, Ensures Qm (k a) Q) ->
  Ensures P (bind m k) Q.
Proof.
  intros Hm Himp Hk w HP. unfold bind. specialize (Hm w HP).
  destruct (m w) as [[a|e] w1]; cbn [snd] in *; [now apply Hk | auto].
Qed.

Lemma Ensures_try A P Qm Q (body : @prog Net Handler A) handler :
  Ensures P body Qm -> (forall w, Qm w -> Q w) -> (forall e, Ensures Qm (handler e) Q) ->
  Ensures P (try body handler) Q.
Proof.
  intros Hm Himp Hk w HP. unfold try. specialize (Hm w HP).
  destruct (body w) as [[a|e] w1]; cbn [snd] in *; [auto | now apply Hk].
Qed.

Lemma Ensures_lift A P (m : completion A) : Ensures P (lift m) P.
Proof. intros w HP. exact HP. Qed.

Lemma Ensures_ret A P (a : A) : Ensures P (ret a) P.
Proof. intros w HP. exact HP. Qed.

Lemma Ensures_throw A P e : Ensures P (@throw Net Handler A e) P.
Proof. intros w HP. exact HP. Qed.

Lemma Ensures_modify P Q (f : @world Net Handler -> @world Net Handler) :
  (forall w, P w -> Q (f w)) -> Ensures P (modify f) Q.
Proof. intros H w HP. now apply H. Qed.

Lemma Ensures_detached A P Q (m : @prog Net Handler A) :
  Ensures P m Q -> Ensures P (detached m) Q.
Proof. intros H w HP. now apply H. Qed.

(** *** The steps of a start *)

Lemma load_run w :
  exists b s, loadProcessedOrdersState w = (Normal b, setProcessedOrders (Some s) w).
Proof.
  unfold loadProcessedOrdersState, try, bind, gets, lift, modify, throw, ret.
  destruct (stateFile w) as [| |data]; eauto.
  destruct (getProp data "orders") as [orders|e]; eauto.
  destruct (newSet orders) as [s|e]; eauto.
  destruct (ToString (prop data "lastUpdate")); [eauto|].
  exists false, []. reflexivity.
Qed.

Lemma cycles_sameListener c callback n w :
  sameListener w (runCycles axiosGet StringToNumber n c callback w).
Proof.
  apply (cycles_keep axiosGet StringToNumber sameListener c callback).
  - intros w0. repeat split.
  - intros w1 w2 w3 (A1 & B1 & C1 & D1) (A2 & B2 & C2 & D2).
    repeat split; congruence.
  - intros w0. unfold initProcessedOrders, modify. cbn [snd].
    destruct (processedOrders w0); repeat split.
  - intros w0 m reqs. repeat split.
  - intros v w0 s invoked h _ _ _ _. split; [intros _; repeat split|].
    exact (proj1 (afterBatch_cases _ _ _ _)).
Qed.

Lemma unarmed_oneTimer w : unarmed w -> oneTimer w.
Proof. intros [Hi Ht]. unfold oneTimer. now rewrite Hi. Qed.

(** A stop leaves no timer armed. *)
Lemma stop_unarmed w : oneTimer w -> unarmed (snd (@stopOrderListener Net Handler w)).
Proof.
  intros H. rewrite stopOrderListener_run. cbn [snd].
  unfold clearIntervalId, modify. cbn [snd].
  assert (H1 : unarmed (match intervalId w with
                        | Some h => setTimers None
                                      (List.filter (fun t => negb (Nat.eqb (fst t) h)) (timers w))
                                      (nextTimer w) w
                        | None => w
                        end)).
  { unfold oneTimer in H. destruct (intervalId w) as [h|] eqn:Hi.
    - destruct H as (_ & ms & Ht). split; [reflexivity|]. cbn. rewrite Ht. cbn.
      now rewrite Nat.eqb_refl.
    - split; assumption. }
  destruct (processedOrders w); [|exact H1].
  rewrite save_run. destruct (diskWritable _); exact H1.
Qed.

(** The start as it is modelled is the start during whose [await]
    nothing else runs. *)
Lemma startOrderListener_alone c callback w :
  startOrderListener axiosGet StringToNumber getVendorIdFromCredentials c callback w
  = startAlone axiosGet StringToNumber getVendorIdFromCredentials c callback w.
Proof.
  assert (Hgen : forall rest : config -> @prog Net Handler (bool * config),
    bind (gets isListening) (fun listening =>
    bind (if listening then bind stopOrderListener (fun _ => ret tt) else ret tt) (fun _ =>
    bind (lift (vendorMissing (vendorId c))) (fun missing =>
    bind (if missing
          then try (bind (fun w => let (v, n) := getVendorIdFromCredentials c (net w) in
                                   (Normal v, setNetQuiet n w))
                      (fun autoVendorId =>
                         if negb (String.eqb autoVendorId "")
                         then ret (withVendorId c (JStr autoVendorId))
                         else throw (Failure "ID do vendedor não fornecido e não foi possível detectar automaticamente")))
                   rethrow
          else ret c)
         rest))) w
    = bind (bind (gets isListening) (fun listening =>
            bind (if listening then bind stopOrderListener (fun _ => ret tt) else ret tt)
              (fun _ => lift (vendorMissing (vendorId c)))))
        (fun waits =>
           if waits
           then bind (awaitedDetection getVendorIdFromCredentials c)
                  (fun autoVendorId =>
                     bind (try (if negb (String.eqb autoVendorId "")
                                then ret (withVendorId c (JStr autoVendorId))
                                else throw (Failure "ID do vendedor não fornecido e não foi possível detectar automaticamente"))
                               rethrow)
                          rest)
           else rest c) w).
  { intros rest. unfold awaitedDetection, bind, gets, lift, try, rethrow, throw, ret.
    destruct (isListening w).
    - destruct (stopOrderListener w) as [[b|e] w1]; [|reflexivity].
      destruct (vendorMissing (vendorId c)) as [[|]|e]; [|reflexivity|reflexivity].
      destruct (getVendorIdFromCredentials c (net w1)) as [v m].
      destruct (negb (v =? "")%string); reflexivity.
    - destruct (vendorMissing (vendorId c)) as [[|]|e]; [|reflexivity|reflexivity].
      destruct (getVendorIdFromCredentials c (net w)) as [v m].
      destruct (negb (v =? "")%string); reflexivity. }
  exact (Hgen (fun c0 => startArm axiosGet StringToNumber c0 callback)).
Qed.

(** The part of a start before its [await] leaves no timer armed. *)
Lemma startUntilAwait_run c w :
  oneTimer w ->
  exists w1,
    startUntilAwait c w = (vendorMissing (vendorId c), w1)
    /\ unarmed w1 /\ isListening w1 = false /\ nextTimer w1 = nextTimer w.
Proof.
  intros H. unfold startUntilAwait. unfold bind at 1. unfold gets. unfold bind at 1.
  destruct (isListening w) eqn:Hl.
  - exists (snd (@stopOrderListener Net Handler w)).
    split; [unfold bind; rewrite stopOrderListener_run; reflexivity|].
    split; [now apply stop_unarmed|].
    rewrite stopOrderListener_run. cbn [snd]. split; [reflexivity|].
    unfold clearIntervalId, modify. cbn [snd].
    assert (Hn : nextTimer (match intervalId w with
                            | Some h => setTimers None
                                          (List.filter (fun t => negb (Nat.eqb (fst t) h))
                                             (timers w))
                                          (nextTimer w) w
                            | None => w
                            end) = nextTimer w) by now destruct (intervalId w).
    destruct (processedOrders w); [|exact Hn].
    rewrite save_run. now destruct (diskWritable _).
  - exists w. split; [reflexivity|].
    unfold oneTimer in H. destruct (intervalId w) eqn:Hi.
    + destruct H as [H _]. congruence.
    + repeat split; assumption.
Qed.

(** The part of a start after the test of the vendor id arms one more
    timer and names it. *)
Lemma startArm_run c callback t ms w :
  ToString (checkInterval c) = Normal t -> intervalMs StringToNumber c = Normal ms ->
  exists w',
    startArm axiosGet StringToNumber c callback w = (Normal (true, c), w')
    /\ isListening w' = true
    /\ intervalId w' = Some (nextTimer w)
    /\ timers w' = timers w ++ [(nextTimer w, ms)]
    /\ nextTimer w' = S (nextTimer w).
Proof.
  intros Ht Hms. unfold startArm.
  unfold bind at 1. unfold modify at 1.
  unfold bind at 1. destruct (load_run (setIsListening true w)) as (b & s & ->).
  unfold bind at 1. unfold initProcessedOrders, modify at 1.
  set (w3 := match processedOrders _ with Some _ => _ | None => _ end).
  assert (H3 : isListening w3 = true /\ intervalId w3 = intervalId w
               /\ timers w3 = timers w /\ nextTimer w3 = nextTimer w).
  { unfold w3. cbn. repeat split. }
  clearbody w3. destruct H3 as (A3 & B3 & C3 & D3).
  unfold bind at 1. unfold lift at 1. rewrite Ht.
  unfold bind at 1. unfold detached.
  destruct (cycles_sameListener c callback 1 w3) as (A & B & C & D).
  cbn [runCycles] in A, B, C, D. cbn [snd].
  set (w4 := snd (checkForNewOrders axiosGet StringToNumber c callback w3)) in *.
  clearbody w4.
  unfold bind at 1. unfold lift at 1. rewrite Hms.
  unfold bind, setIntervalId, modify, ret.
  eexists. split; [reflexivity|]. cbn.
  repeat split; congruence.
Qed.

(** What follows the [await] when the detection has found a vendor. *)
Lemma resume_run c callback t ms w :
  fst (getVendorIdFromCredentials c (net w)) <> "" ->
  ToString (checkInterval c) = Normal t -> intervalMs StringToNumber c = Normal ms ->
  exists r w',
    bind (awaitedDetection getVendorIdFromCredentials c)
      (startFromAwait axiosGet StringToNumber c callback) w = (Normal r, w')
    /\ isListening w' = true
    /\ intervalId w' = Some (nextTimer w)
    /\ timers w' = timers w ++ [(nextTimer w, ms)]
    /\ nextTimer w' = S (nextTimer w).
Proof.
  intros Hv Ht Hms. unfold bind at 1. unfold awaitedDetection.
  destruct (getVendorIdFromCredentials c (net w)) as [v m]. cbn [fst] in Hv.
  unfold startFromAwait. unfold bind at 1. unfold try.
  apply String.eqb_neq in Hv. rewrite Hv. cbn [negb]. unfold ret at 1.
  destruct (startArm_run (withVendorId c (JStr v)) callback t ms (setNetQuiet m w) Ht Hms)
    as (w' & -> & A & B & C & D).
  eauto 10.
Qed.

(** X12. At most one polling timer, as long as starts do not overlap.
    The start as it is modelled is the start during whose [await]
    nothing else runs: the function up to its [await], the detection,
    then the function from its [await] on. If at most one interval
    timer is armed, the one [intervalId] names, then that is still so
    after such a start (which stops a running listener before it arms
    its own timer, and arms none when it fails), after a stop (no timer
    is left) and after any number of polling cycles. It is not so after
    overlapping starts: when a second start is called while the first
    waits for the detection of the vendor id, and both detections find a
    vendor, two timers are armed, [intervalId] names the second only,
    and a stop leaves the first armed. *)
Theorem one_timer_at_most (c : config) callback (n : nat) w :
  oneTimer w ->
  let start := startOrderListener axiosGet StringToNumber getVendorIdFromCredentials in
  start c callback w
  = startAlone axiosGet StringToNumber getVendorIdFromCredentials c callback w
  /\ oneTimer (snd (start c callback w))
  /\ unarmed (snd (@stopOrderListener Net Handler w))
  /\ oneTimer (runCycles axiosGet StringToNumber n c callback w)
  /\ (forall c2 callback2 t t2 ms ms2,
        vendorMissing (vendorId c) = Normal true ->
        vendorMissing (vendorId c2) = Normal true ->
        (forall m, fst (getVendorIdFromCredentials c m) <> "") ->
        (forall m, fst (getVendorIdFromCredentials c2 m) <> "") ->
        ToString (checkInterval c) = Normal t ->
        ToString (checkInterval c2) = Normal t2 ->
        intervalMs StringToNumber c = Normal ms ->
        intervalMs StringToNumber c2 = Normal ms2 ->
        let both := snd (overlappingStarts axiosGet StringToNumber
                           getVendorIdFromCredentials c callback c2 callback2 w) in
        intervalId both = Some (S (nextTimer w))
        /\ timers both = [(nextTimer w, ms); (S (nextTimer w), ms2)]
        /\ ~ oneTimer both
        /\ timers (snd (@stopOrderListener Net Handler both)) = [(nextTimer w, ms)]).
Proof.
  intros H. cbv zeta. split; [apply startOrderListener_alone|].
  split; [|split; [|split]].
  - unfold startOrderListener. unfold bind at 1. unfold gets at 1.
    unfold bind at 1.
    assert (Hpre : exists w1,
               (if isListening w then bind stopOrderListener (fun _ => ret tt) else ret tt) w
               = (Normal tt, w1) /\ unarmed w1).
    { destruct (isListening w) eqn:Hl.
      - exists (snd (@stopOrderListener Net Handler w)).
        split; [|now apply stop_unarmed].
        unfold bind. now rewrite stopOrderListener_run.
      - exists w. split; [reflexivity|].
        unfold oneTimer in H. destruct (intervalId w) eqn:Hi.
        + destruct H as [H _]. congruence.
        + split; assumption. }
    destruct Hpre as (w1 & -> & Hw1).
    revert w1 Hw1. clear H. clear w.
    match goal with
    | |- forall w1, unarmed w1 -> oneTimer (snd (?m w1)) =>
        change (Ensures (@unarmed Net Handler) m (@oneTimer Net Handler))
    end.
    set (ready := fun w : @world Net Handler => unarmed w /\ isListening w = true).
    assert (Hready : forall w, ready w -> oneTimer w).
    { intros w [H _]. now apply unarmed_oneTimer. }
    eapply Ensures_bind; [apply Ensures_lift | apply unarmed_oneTimer |].
    intros missing.
    eapply Ensures_bind with (Qm := @unarmed Net Handler); [|apply unarmed_oneTimer|].
    { destruct missing; [|apply Ensures_ret].
      eapply Ensures_try with (Qm := @unarmed Net Handler); [|auto|intros e; apply Ensures_throw].
      eapply Ensures_bind with (Qm := @unarmed Net Handler); [|auto|].
      - intros w Hw. destruct (getVendorIdFromCredentials c (net w)) as [v m]. exact Hw.
      - intros v. destruct (negb (v =? "")%string); [apply Ensures_ret | apply Ensures_throw]. }
    intros c'.
    eapply Ensures_bind with (Qm := ready); [|exact Hready|].
    { apply Ensures_modify. intros w Hw. split; [exact Hw | reflexivity]. }
    intros _.
    eapply Ensures_bind with (Qm := ready); [|exact Hready|].
    { intros w Hw. destruct (load_run w) as (b & s & ->). exact Hw. }
    intros _.
    eapply Ensures_bind with (Qm := ready); [|exact Hready|].
    { apply Ensures_modify. intros w Hw. destruct (processedOrders w); exact Hw. }
    intros _.
    eapply Ensures_bind; [apply Ensures_lift | exact Hready |].
    intros _.
    eapply Ensures_bind with (Qm := ready); [|exact Hready|].
    { apply Ensures_detached. intros w [[Hi Ht] Hl].
      destruct (cycles_sameListener c' callback 1 w) as (A & B & C & D).
      cbn [runCycles] in A, B, C, D. repeat split; congruence. }
    intros _.
    eapply Ensures_bind; [apply Ensures_lift | exact Hready |].
    intros ms.
    eapply Ensures_bind with (Qm := @oneTimer Net Handler); [|auto|intros _; apply Ensures_ret].
    apply Ensures_modify. intros w [[Hi Ht] Hl]. unfold oneTimer. cbn.
    split; [exact Hl|]. exists ms. now rewrite Ht.
  - now apply stop_unarmed.
  - revert H. generalize w. clear w.
    assert (Hs : forall w w', sameListener w w' -> oneTimer w -> oneTimer w').
    { intros w w' (A & B & C & D). unfold oneTimer. now rewrite A, B, C. }
    intros w H. exact (Hs _ _ (cycles_sameListener c callback n w) H).
  - intros c2 callback2 t t2 ms ms2 Hm1 Hm2 Hv1 Hv2 Ht1 Ht2 Hms1 Hms2.
    destruct (startUntilAwait_run c w H) as (w1 & E1 & [Hi1 Hts1] & Hl1 & Hn1).
    rewrite Hm1 in E1.
    assert (E2 : startUntilAwait c2 w1 = (Normal true, w1)).
    { unfold startUntilAwait, bind, gets, ret, lift. now rewrite Hl1, Hm2. }
    assert (Hrun : exists r w3,
               overlappingStarts axiosGet StringToNumber getVendorIdFromCredentials
                 c callback c2 callback2 w = (Normal r, w3)
               /\ intervalId w3 = Some (S (nextTimer w))
               /\ timers w3 = [(nextTimer w, ms); (S (nextTimer w), ms2)]).
    { unfold overlappingStarts. cbv zeta.
      unfold bind at 1. unfold settled at 1. rewrite E1. cbn [fst snd].
      unfold bind at 1. unfold settled at 1. rewrite E2. cbn [fst snd].
      unfold bind at 1. unfold detached at 1.
      destruct (resume_run c callback t ms w1 (Hv1 _) Ht1 Hms1)
        as (r1 & w2 & -> & A1 & B1 & C1 & D1).
      cbn [fst snd].
      destruct (resume_run c2 callback2 t2 ms2 w2 (Hv2 _) Ht2 Hms2)
        as (r2 & w3 & -> & A2 & B2 & C2 & D2).
      exists r2, w3. split; [reflexivity|].
      rewrite C1, Hts1, D1, Hn1 in C2. cbn [app] in C2.
      rewrite D1, Hn1 in B2. auto. }
    destruct Hrun as (r & w3 & -> & B2 & C2). cbn [snd].
    split; [exact B2|]. split; [exact C2|]. split.
    + unfold oneTimer. rewrite B2, C2. intros [_ [x [=]]].
    + rewrite stopOrderListener_run. cbn [snd].
      unfold clearIntervalId, modify. cbn [snd]. rewrite B2.
      assert (Hf : timers (setTimers None
                             (List.filter (fun t0 => negb (Nat.eqb (fst t0) (S (nextTimer w))))
                                (timers w3))
                             (nextTimer w3) w3) = [(nextTimer w, ms)]).
      { cbn. rewrite C2. cbn. rewrite Nat.eqb_refl.
        destruct (Nat.eqb_spec (nextTimer w) (S (nextTimer w))); [lia | reflexivity]. }
      destruct (processedOrders w3); [|exact Hf].
      rewrite save_run. now destruct (diskWritable _).
Qed.

(** X13. A start without a usable vendor id. When [config.vendorId] is set
    but is not a string, the start raises a type error; when it is unset
    or blank and the detection from the credentials finds no vendor, the
    start raises its own error. In both cases a running listener has
    been stopped, and nothing else has happened but the requests of the
    detection: no timer is armed, no order is fetched or dispatched. And
    a start that returns answers [true] with a configuration whose
    vendor id is a string that is not empty: the configured one, or the
    one detected. *)
Theorem startOrderListener_needs_vendor (c : config) callback w :
  let ready := if isListening w then snd (@stopOrderListener Net Handler w) else w in
  let detected := getVendorIdFromCredentials c (net ready) in
  let start := startOrderListener axiosGet StringToNumber getVendorIdFromCredentials
                 c callback w in
  (truthy (vendorId c) = true -> (forall v, vendorId c <> JStr v) ->
   start = (Throw TypeError, ready))
  /\ ((forall v, vendorId c = JStr v -> trim v = "") ->
      (truthy (vendorId c) = true -> exists v, vendorId c = JStr v) ->
      fst detected = "" ->
      start = (Throw (Failure "ID do vendedor não fornecido e não foi possível detectar automaticamente"),
               setNetQuiet (snd detected) ready))
  /\ (forall r w', start = (Normal r, w') ->
      exists v, r = (true, withVendorId c (JStr v)) /\ v <> ""
                /\ (vendorId c = JStr v \/ fst detected = v)).
Proof.
  cbv zeta.
  assert (Hpre : (if isListening w then bind stopOrderListener (fun _ => ret tt) else ret tt) w
                 = (Normal tt, if isListening w then snd (@stopOrderListener Net Handler w)
                               else w)).
  { destruct (isListening w); [|reflexivity].
    unfold bind. now rewrite stopOrderListener_run. }
  set (ready := if isListening w then snd (@stopOrderListener Net Handler w) else w) in *.
  remember (startOrderListener axiosGet StringToNumber getVendorIdFromCredentials
              c callback w) as run eqn:Hrun.
  unfold startOrderListener in Hrun. unfold bind at 1 in Hrun. unfold gets at 1 in Hrun.
  unfold bind at 1 in Hrun. rewrite Hpre in Hrun. clear Hpre.
  split; [|split]; subst run.
  - intros Tv Hns. unfold bind at 1. unfold lift at 1.
    unfold vendorMissing. rewrite Tv.
    destruct (vendorId c) eqn:Ev; try reflexivity. now destruct (Hns s).
  - intros Hblank Hstr Hnone. unfold bind at 1. unfold lift at 1.
    assert (Hm : vendorMissing (vendorId c) = Normal true).
    { unfold vendorMissing. destruct (truthy (vendorId c)) eqn:Tv; [|reflexivity].
      destruct (Hstr eq_refl) as (v & Ev). rewrite Ev. simpl.
      now rewrite (Hblank v Ev). }
    rewrite Hm. unfold bind at 1. unfold try at 1. unfold bind at 1.
    destruct (getVendorIdFromCredentials c (net ready)) as [v m].
    simpl in Hnone. subst v. reflexivity.
  - intros r w' H.
    apply bind_Normal_inv in H as (missing & w3 & Hm & H).
    apply lift_inv in Hm as [Hm ->].
    apply bind_Normal_inv in H as (c' & w4 & Hc & H).
    assert (Hc' : exists v, c' = withVendorId c (JStr v) /\ v <> ""
                            /\ (vendorId c = JStr v
                                \/ fst (getVendorIdFromCredentials c (net ready)) = v)).
    { destruct missing.
      - unfold try, bind, rethrow, throw, ret in Hc.
        destruct (getVendorIdFromCredentials c (net ready)) as [v m].
        destruct (String.eqb_spec v ""); simpl in Hc; [discriminate|].
        injection Hc as <- _. exists v. auto.
      - symmetry in Hm. apply vendorMissing_false in Hm as (v & Ev & Hne).
        injection Hc as <- _. exists v. split; [|split; [|now left]].
        + destruct c; simpl in *. now subst.
        + intros ->. now destruct Hne. }
    destruct Hc' as (v & -> & Hne & Hv).
    repeat (apply bind_Normal_inv in H as (? & ? & _ & H)).
    injection H as <- _. exists v. auto.
Qed.

End ListenerInvariant.

(** Two starts in a row, then a stop: one timer after the second start,
    none after the stop. Two starts with a blank vendor id, the second
    called while the first waits: two timers, of which a stop leaves
    one. *)
Lemma one_timer_at_most_witness :
  let c := Mock.config7 (JNum 30) in
  let blank := withVendorId c (JStr "") in
  let start := startOrderListener Mock.axiosGet Mock.StringToNumber
                 Mock.getVendorIdFromCredentials c Mock.accepts in
  let twice := snd (start (snd (start (Mock.idle Mock.empty None)))) in
  let both := snd (overlappingStarts Mock.axiosGet Mock.StringToNumber Mock.detects7
                     blank Mock.accepts blank Mock.accepts (Mock.idle Mock.empty None)) in
  oneTimer twice /\ unarmed (snd (stopOrderListener twice))
  /\ timers both = [(1, Some 30000%Z); (2, Some 30000%Z)]
  /\ timers (snd (stopOrderListener both)) = [(1, Some 30000%Z)].
Proof.
  intros c blank start twice both.
  assert (H0 : oneTimer (Mock.idle Mock.empty None)) by reflexivity.
  pose proof (proj1 (proj2 (one_timer_at_most Mock.axiosGet Mock.StringToNumber
                              Mock.getVendorIdFromCredentials c Mock.accepts 0 _ H0))) as H1.
  pose proof (proj1 (proj2 (one_timer_at_most Mock.axiosGet Mock.StringToNumber
                              Mock.getVendorIdFromCredentials c Mock.accepts 0 _ H1))) as H2.
  split; [exact H2|]. split.
  - exact (proj1 (proj2 (proj2 (one_timer_at_most Mock.axiosGet Mock.StringToNumber
                                  Mock.getVendorIdFromCredentials c Mock.accepts 0 _ H2)))).
  - destruct (one_timer_at_most Mock.axiosGet Mock.StringToNumber Mock.detects7
                blank Mock.accepts 0 _ H0) as (_ & _ & _ & _ & Hrace).
    destruct (Hrace blank Mock.accepts "30" "30" (Some 30000%Z) (Some 30000%Z))
      as (_ & Htimers & _ & Hstop);
      [reflexivity | reflexivity | discriminate | discriminate
      | reflexivity | reflexivity | reflexivity | reflexivity |].
    split; [exact Htimers | exact Hstop].
Defined.

(** Nothing in the credentials or the store tells the vendor: a start
    with a blank vendor id raises and arms no timer. *)
Lemma startOrderListener_needs_vendor_witness :
  let c := withVendorId (Mock.config7 (JNum 60)) (JStr " ") in
  let w := Mock.idle (Mock.listing [Mock.order 100]) None in
  startOrderListener Mock.axiosGet Mock.StringToNumber Mock.getVendorIdFromCredentials
    c Mock.accepts w
  = (Throw (Failure "ID do vendedor não fornecido e não foi possível detectar automaticamente"),
     w).
Proof.
  intros c w.
  apply (proj1 (proj2 (startOrderListener_needs_vendor Mock.axiosGet Mock.StringToNumber
                         Mock.getVendorIdFromCredentials c Mock.accepts w))).
  - intros v [= <-]. reflexivity.
  - intros _. now exists " ".
  - reflexivity.
Defined.

(** ** The lookups *)

Section LookupProperties.

Context {Net : Type}.
Variable axiosLookup : query -> Net -> completion value * Net.
Variable StringToNumber : string -> option Z.
Variable toLowerCase : string -> string.
Implicit Types st : @wire Net.

(** *** [getOrderDetails] *)

(** X14. [getOrderDetails] answers an order only if the store answered an
    object with a truthy [id] to the one request made for it and, when a
    vendor id is configured, only if the order passes the ownership
    verifier for it; without a configured vendor id the order is
    answered unchecked. With incomplete credentials or a falsy order id
    it raises before any request is sent. *)
Theorem getOrderDetails_guarded (c : config) (orderId : value) st :
  let run := getOrderDetails axiosLookup c orderId st in
  (forall data,
     fst run = Normal data ->
     truthy (prop data "id") = true
     /\ (truthy (vendorId c) = true ->
         orderBelongsToVendor data (vendorId c) = Normal true)
     /\ exists id n,
          ToString orderId = Normal id
          /\ axiosLookup (queryOf c (OrderById id)) (fst st) = (Normal data, n)
          /\ snd run = (n, snd st ++ [queryOf c (OrderById id)]))
  /\ (incomplete c = true \/ truthy orderId = false ->
      throws (fst run) = true /\ snd run = st)
  /\ (forall id data n,
        incomplete c = false -> truthy orderId = true -> truthy (vendorId c) = false ->
        ToString orderId = Normal id ->
        axiosLookup (queryOf c (OrderById id)) (fst st) = (Normal data, n) ->
        truthy (prop data "id") = true ->
        fst run = Normal data).
Proof.
  cbv zeta.
  remember (getOrderDetails axiosLookup c orderId st) as run eqn:Hrun.
  unfold getOrderDetails, stry, sbind, slift, sthrow, sret, httpLookup in Hrun.
  destruct (ToString orderId) as [id|e] eqn:Hid.
  2:{ subst run. cbn. split; [discriminate|]. split; [auto|]. discriminate. }
  destruct (incomplete c) eqn:Hinc.
  { subst run. cbn. split; [discriminate|]. split; [auto|]. discriminate. }
  destruct (truthy orderId) eqn:Hoid; cbn [negb] in Hrun.
  2:{ subst run. cbn. split; [discriminate|]. split; [auto|]. discriminate. }
  destruct (axiosLookup (queryOf c (OrderById id)) (fst st)) as [[data|e] n] eqn:Hget.
  2:{ subst run. cbn. split; [discriminate|].
      split; [intros [H|H]; discriminate|].
      intros id' data' n' _ _ _ [= <-]. rewrite Hget. discriminate. }
  destruct (negb (truthy data) || negb (truthy (prop data "id"))) eqn:Hvalid.
  { subst run. cbn. split; [discriminate|].
    split; [intros [H|H]; discriminate|].
    intros id' data' n' _ _ _ [= <-]. rewrite Hget. intros [= <- _] Ht.
    apply orb_true_iff in Hvalid as [H|H]; apply negb_true_iff in H.
    - destruct data; simpl in *; discriminate.
    - congruence. }
  apply orb_false_elim in Hvalid as [_ Tid]. apply negb_false_iff in Tid.
  destruct (truthy (vendorId c)) eqn:Tv.
  - destruct (orderBelongsToVendor data (vendorId c)) as [[|]|e] eqn:Hb.
    + subst run. cbn. split; [|split; [intros [H|H]; discriminate | discriminate]].
      intros data' [= <-]. split; [exact Tid|]. split; [auto|]. eauto.
    + destruct (ToString (vendorId c)); subst run; cbn;
        (split; [discriminate|]); (split; [intros [H|H]; discriminate | discriminate]).
    + subst run. cbn. split; [discriminate|].
      split; [intros [H|H]; discriminate | discriminate].
  - subst run. cbn. split; [|split; [intros [H|H]; discriminate|]].
    + intros data' [= <-]. split; [exact Tid|]. split; [discriminate|]. eauto.
    + intros id' data' n' _ _ _ [= <-]. rewrite Hget. now intros [= <- _] _.
Qed.

(** *** Rules for [Sends] *)

Section SendsRules.

Variable c : config.

Lemma Sends_pure A lo hi (m : completion A) :
  lo <= hi -> Sends (Net:=Net) c lo hi (slift m).
Proof.
  intros H st. exists (fst st), []. unfold slift. cbn [snd].
  rewrite app_nil_r. split; [now destruct st|]. split; [constructor | exact H].
Qed.

Lemma Sends_ret A lo hi (a : A) : lo <= hi -> Sends (Net:=Net) c lo hi (sret a).
Proof. apply (Sends_pure A lo hi (Normal a)). Qed.

Lemma Sends_bind A B lo mid hi (m : stateful (@wire Net) A) (k : A -> stateful (@wire Net) B) :
  Sends c lo mid m -> mid <= hi -> (forall a, Sends c mid hi (k a)) ->
  Sends c lo hi (sbind m k).
Proof.
  intros Hm Hle Hk st. destruct (Hm st) as (n1 & q1 & H1 & F1 & C1).
  unfold sbind. destruct (m st) as [[a|e] st1]; cbn [snd] in *.
  - destruct (Hk a st1) as (n2 & q2 & H2 & F2 & C2).
    exists n2, (q1 ++ q2). rewrite H2, H1. cbn [snd]. rewrite app_assoc.
    split; [reflexivity|]. split; [now apply Forall_app|].
    rewrite map_app. eapply chain_app; eauto.
  - exists n1, q1. split; [exact H1|]. split; [exact F1|].
    eapply chain_upper; eauto.
Qed.

Lemma Sends_try A lo mid hi (body : stateful (@wire Net) A) handler :
  Sends c lo mid body -> mid <= hi -> (forall e, Sends c mid hi (handler e)) ->
  Sends c lo hi (stry body handler).
Proof.
  intros Hm Hle Hk st. destruct (Hm st) as (n1 & q1 & H1 & F1 & C1).
  unfold stry. destruct (body st) as [[a|e] st1]; cbn [snd] in *.
  - exists n1, q1. split; [exact H1|]. split; [exact F1|].
    eapply chain_upper; eauto.
  - destruct (Hk e st1) as (n2 & q2 & H2 & F2 & C2).
    exists n2, (q1 ++ q2). rewrite H2, H1. cbn [snd]. rewrite app_assoc.
    split; [reflexivity|]. split; [now apply Forall_app|].
    rewrite map_app. eapply chain_app; eauto.
Qed.

Lemma Sends_httpLookup lo k :
  lo < rank k -> Sends c lo (rank k) (httpLookup axiosLookup (queryOf c k)).
Proof.
  intros H st. unfold httpLookup.
  destruct (axiosLookup (queryOf c k) (fst st)) as [res n].
  exists n, [queryOf c k]. cbn.
  split; [reflexivity|]. split; [repeat constructor | lia].
Qed.

Lemma byStoreList_sends : Sends c 0 1 (byStoreList axiosLookup toLowerCase c).
Proof.
  unfold byStoreList.
  apply Sends_try with (mid := 1); [|lia|intros e; now apply Sends_ret].
  eapply Sends_bind with (mid := 1); [apply (Sends_httpLookup 0 Stores); simpl; lia | lia|].
  intros data. destruct (_ && _); [|now apply Sends_ret].
  repeat (eapply Sends_bind with (mid := 1); [now apply Sends_pure | lia | intros ?]).
  destruct (truthy _); [|now apply Sends_ret].
  repeat (eapply Sends_bind with (mid := 1); [now apply Sends_pure | lia | intros ?]).
  now apply Sends_ret.
Qed.

Lemma byCurrentUser_sends : Sends c 1 3 (byCurrentUser axiosLookup StringToNumber c).
Proof.
  unfold byCurrentUser.
  apply Sends_try with (mid := 3); [|lia|intros e; now apply Sends_ret].
  eapply Sends_bind with (mid := 2); [apply (Sends_httpLookup 1 UsersMe); simpl; lia | lia|].
  intros data. destruct (_ && _); [|apply Sends_ret; lia].
  eapply Sends_bind with (mid := 2); [now apply Sends_pure | lia | intros _].
  eapply Sends_bind with (mid := 3); [| lia |].
  - apply Sends_try with (mid := 3); [|lia|intros e; now apply Sends_ret].
    eapply Sends_bind with (mid := 2); [now apply Sends_pure | lia | intros _].
    eapply Sends_bind with (mid := 3);
      [apply (Sends_httpLookup 2 (StoresOfOwner (prop data "id"))); simpl; lia | lia|].
    intros stores.
    eapply Sends_bind with (mid := 3); [now apply Sends_pure | lia | intros some].
    destruct some; [|now apply Sends_ret].
    repeat (eapply Sends_bind with (mid := 3); [now apply Sends_pure | lia | intros ?]).
    now apply Sends_ret.
  - intros [id|]; [now apply Sends_ret|].
    eapply Sends_bind with (mid := 3); [now apply Sends_pure | lia | intros ?].
    now apply Sends_ret.
Qed.

Lemma byOrderMeta_sends : Sends c 3 4 (byOrderMeta axiosLookup StringToNumber c).
Proof.
  unfold byOrderMeta.
  apply Sends_try with (mid := 4); [|lia|intros e; now apply Sends_ret].
  eapply Sends_bind with (mid := 4);
    [apply (Sends_httpLookup 3 OrdersSample); simpl; lia | lia|].
  intros data.
  eapply Sends_bind with (mid := 4); [now apply Sends_pure | lia | intros some].
  destruct some; [|now apply Sends_ret].
  repeat (eapply Sends_bind with (mid := 4); [now apply Sends_pure | lia | intros ?]).
  destruct a0 as [|x [|y l]]; now apply Sends_ret.
Qed.

End SendsRules.

(** *** [getVendorIdFromCredentials] *)

(** X15. [getVendorIdFromCredentials] never raises: it answers a string, the
    empty one when it finds no vendor. It sends at most four requests,
    all with the credentials of the configuration and each at most
    once, in a fixed order: the list of stores, the current user, the
    stores of that user, a sample of orders. With incomplete credentials
    it answers the empty string without sending anything. *)
Theorem getVendorIdFromCredentials_lookups (c : config) st :
  let run := getVendorIdFromCredentials axiosLookup StringToNumber toLowerCase c st in
  exists id n qs,
    run = (Normal id, (n, snd st ++ qs))
    /\ Forall (fun q => q = queryOf c (about q)) qs
    /\ chain 0 4 (map (fun q => rank (about q)) qs)
    /\ (incomplete c = true -> id = "" /\ qs = []).
Proof.
  cbv zeta.
  assert (Hsends : Sends c 0 4
            (getVendorIdFromCredentials axiosLookup StringToNumber toLowerCase c)).
  { unfold getVendorIdFromCredentials.
    apply Sends_try with (mid := 4); [|lia|intros e; now apply Sends_ret].
    destruct (incomplete c); [apply Sends_ret; lia|].
    eapply Sends_bind with (mid := 1); [apply byStoreList_sends | lia |].
    intros [id|]; [apply Sends_ret; lia|].
    eapply Sends_bind with (mid := 3); [apply byCurrentUser_sends | lia |].
    intros [id|]; [apply Sends_ret; lia|].
    eapply Sends_bind with (mid := 4); [apply byOrderMeta_sends | lia |].
    intros [id|]; apply Sends_ret; lia. }
  destruct (Hsends st) as (n & qs & Hsnd & Hbuilt & Hchain).
  assert (Hret : exists id,
             fst (getVendorIdFromCredentials axiosLookup StringToNumber toLowerCase c st)
             = Normal id).
  { unfold getVendorIdFromCredentials, stry.
    match goal with |- context [match ?b st with _ => _ end] => destruct (b st) as [[a|e] s1] end;
      cbn; eauto. }
  destruct Hret as (id & Hid).
  exists id, n, qs.
  split; [rewrite (surjective_pairing (getVendorIdFromCredentials _ _ _ _ _));
          now rewrite Hid, Hsnd|].
  split; [exact Hbuilt|]. split; [exact Hchain|].
  intros Hinc. unfold getVendorIdFromCredentials, stry, sret in Hid, Hsnd.
  rewrite Hinc in Hid, Hsnd. cbn in Hid, Hsnd. injection Hid as <-. split; [reflexivity|].
  destruct st as [n0 log]. cbn in Hsnd. injection Hsnd as _ Hlog.
  rewrite <- (app_nil_r log) in Hlog at 1. now apply app_inv_head in Hlog.
Qed.

(** *** The vendor ids met in a sample of orders *)

Lemma addString_In found x y : In y (addString found x) <-> In y found \/ y = x.
Proof.
  unfold addString. destruct (existsb (String.eqb x) found) eqn:E.
  - split; [auto|]. intros [H | ->]; [exact H|].
    apply existsb_exists in E as (z & Hz & Hzx). apply String.eqb_eq in Hzx. now subst z.
  - rewrite in_app_iff. simpl. intuition.
Qed.

(** An entry is taken for a vendor id as soon as its key has
    [vendor_id] in it. *)
Lemma hit_includes key :
  (if strictEqStr key "_dokan_vendor_id" || strictEqStr key "dokan_vendor_id"
      || strictEqStr key "_vendor_id"
   then Normal true else includesCall key "vendor_id")
  = includesCall key "vendor_id".
Proof.
  destruct (strictEqStr key "_dokan_vendor_id" || strictEqStr key "dokan_vendor_id"
            || strictEqStr key "_vendor_id") eqn:E; [|reflexivity].
  destruct key; try discriminate. simpl in E.
  repeat (apply orb_true_iff in E as [E|E]); apply String.eqb_eq in E; subst s; reflexivity.
Qed.

Lemma metaVendorIds_spec order metas : forall found r,
  metaVendorIds order metas found = Normal r ->
  forall id, In id r <->
             In id found
             \/ exists meta, In meta metas
                  /\ includesCall (prop meta "key") "vendor_id" = Normal true
                  /\ toStringCall (prop meta "value") = Normal id.
Proof.
  induction metas as [|meta metas IH]; intros found r H id.
  - simpl in H. injection H as <-. split; [auto|]. intros [H|(m & [] & _)]. exact H.
  - cbn [metaVendorIds] in H.
    apply bindC_Normal_inv in H as (key & Hkey & H). apply getProp_Normal in Hkey as ->.
    rewrite hit_includes in H.
    apply bindC_Normal_inv in H as (hit & Hhit & H).
    apply bindC_Normal_inv in H as (found' & Hf & H).
    rewrite (IH _ _ H id). clear IH H.
    destruct hit.
    + apply bindC_Normal_inv in Hf as (val & Hval & Hf).
      apply getProp_Normal in Hval as ->.
      apply bindC_Normal_inv in Hf as (s & Hs & Hf).
      apply bindC_Normal_inv in Hf as (_ & _ & Hf). injection Hf as <-.
      rewrite addString_In. split.
      * intros [[H | ->]|(m & Hm & Hk & Hv)]; auto.
        -- right. exists meta. simpl. auto.
        -- right. exists m. simpl. auto.
      * intros [H|(m & [<-|Hm] & Hk & Hv)]; auto.
        -- left. right. congruence.
        -- right. exists m. auto.
    + injection Hf as <-. split.
      * intros [H|(m & Hm & Hk & Hv)]; auto. right. exists m. simpl. auto.
      * intros [H|(m & [<-|Hm] & Hk & Hv)]; auto; [congruence|].
        right. exists m. auto.
Qed.

Lemma sampleVendorIds_spec orders : forall found r,
  sampleVendorIds orders found = Normal r ->
  forall id, In id r <->
             In id found \/ exists order, In order orders /\ carriesVendor order id.
Proof.
  induction orders as [|order orders IH]; intros found r H id.
  - simpl in H. injection H as <-. split; [auto|]. intros [H|(o & [] & _)]. exact H.
  - cbn [sampleVendorIds] in H.
    apply bindC_Normal_inv in H as (md & Hmd & H). apply getProp_Normal in Hmd as ->.
    apply bindC_Normal_inv in H as (found' & Hf & H).
    rewrite (IH _ _ H id). clear IH H.
    assert (Hfound : In id found' <-> In id found \/ carriesVendor order id).
    { unfold carriesVendor.
      destruct (truthy (prop order "meta_data") && isArray (prop order "meta_data")) eqn:E.
      - exact (metaVendorIds_spec _ _ _ _ Hf id).
      - injection Hf as <-. split; [auto|]. intros [H|(m & Hm & _)]; [exact H|].
        destruct (prop order "meta_data"); simpl in *; try contradiction. discriminate. }
    rewrite Hfound. split.
    + intros [[H|H]|(o & Ho & Hc)]; auto.
      * right. exists order. simpl. auto.
      * right. exists o. simpl. auto.
    + intros [H|(o & [<-|Ho] & Hc)]; auto. right. exists o. auto.
Qed.

(** What the first two methods leave when their first request fails. *)
Lemma byStoreList_unreachable c st e n1 :
  axiosLookup (queryOf c Stores) (fst st) = (Throw e, n1) ->
  byStoreList axiosLookup toLowerCase c st = (Normal None, (n1, snd st ++ [queryOf c Stores])).
Proof. intros H. unfold byStoreList, stry, sbind, httpLookup. now rewrite H. Qed.

Lemma byCurrentUser_unreachable c st e n1 :
  axiosLookup (queryOf c UsersMe) (fst st) = (Throw e, n1) ->
  byCurrentUser axiosLookup StringToNumber c st
  = (Normal None, (n1, snd st ++ [queryOf c UsersMe])).
Proof. intros H. unfold byCurrentUser, stry, sbind, httpLookup. now rewrite H. Qed.

(** X16. The resolver does not guess. When neither the list of stores nor
    the current user can be obtained, a vendor id is answered from the
    sample of orders only if some order of the sample carries it in its
    meta data and no order of the sample carries another one. *)
Theorem resolver_never_guesses (c : config) st (orders : list value) e1 e2 n1 n2 n3 :
  incomplete c = false ->
  axiosLookup (queryOf c Stores) (fst st) = (Throw e1, n1) ->
  axiosLookup (queryOf c UsersMe) n1 = (Throw e2, n2) ->
  axiosLookup (queryOf c OrdersSample) n2 = (Normal (JArr orders), n3) ->
  exists id,
    fst (getVendorIdFromCredentials axiosLookup StringToNumber toLowerCase c st) = Normal id
    /\ (id <> "" ->
        (exists order, In order orders /\ carriesVendor order id)
        /\ forall order id', In order orders -> carriesVendor order id' -> id' = id).
Proof.
  intros Hinc H1 H2 H3.
  unfold getVendorIdFromCredentials. rewrite Hinc.
  unfold stry at 1. unfold sbind at 1. rewrite (byStoreList_unreachable _ _ _ _ H1).
  unfold sbind at 1. rewrite (byCurrentUser_unreachable _ (_, _) e2 n2) by exact H2.
  unfold sbind at 1. unfold byOrderMeta, stry, sbind, httpLookup, slift, sret.
  cbn [fst snd]. rewrite H3.
  destruct (hasItems StringToNumber (JArr orders)) as [[|]|e];
    try (exists ""; split; [reflexivity | intros []; reflexivity]).
  cbn [iterate].
  destruct (sampleVendorIds orders []) as [found|e] eqn:Hfound;
    try (exists ""; split; [reflexivity | intros []; reflexivity]).
  pose proof (sampleVendorIds_spec _ _ _ Hfound) as Hspec.
  destruct found as [|x [|y rest]];
    try (exists ""; split; [reflexivity | intros []; reflexivity]).
  exists x. split; [reflexivity|]. intros _. split.
  - destruct (proj1 (Hspec x) (or_introl eq_refl)) as [[]|H]. exact H.
  - intros order id' Ho Hc.
    destruct (proj2 (Hspec id') (or_intror (ex_intro _ order (conj Ho Hc)))) as [H|[]].
    now symmetry.
Qed.

(** X17. The sample of orders is consulted only when the current user cannot
    be identified. When the list of stores cannot be obtained and the
    store names the current user, with an id that prints, the resolver
    answers the id of the first store it finds for that user or else the
    id of the user itself, and sends no other request. *)
Theorem resolver_falls_back_on_user (c : config) st (data : value) (uid : string) e1 n1 n2 :
  incomplete c = false ->
  axiosLookup (queryOf c Stores) (fst st) = (Throw e1, n1) ->
  axiosLookup (queryOf c UsersMe) n1 = (Normal data, n2) ->
  truthy data = true -> truthy (prop data "id") = true ->
  ToString (prop data "id") = Normal uid ->
  let asked := [queryOf c Stores; queryOf c UsersMe;
                queryOf c (StoresOfOwner (prop data "id"))] in
  let answer := axiosLookup (queryOf c (StoresOfOwner (prop data "id"))) n2 in
  exists id,
    getVendorIdFromCredentials axiosLookup StringToNumber toLowerCase c st
    = (Normal id, (snd answer, snd st ++ asked))
    /\ (id = uid
        \/ exists stores, fst answer = Normal stores
                          /\ toStringCall (prop (index0 stores) "id") = Normal id).
Proof.
  intros Hinc H1 H2 Td Tid Huid. cbv zeta.
  assert (Hcall : toStringCall (prop data "id") = Normal uid).
  { destruct (prop data "id"); try discriminate; exact Huid. }
  unfold getVendorIdFromCredentials. rewrite Hinc.
  unfold stry at 1. unfold sbind at 1. rewrite (byStoreList_unreachable _ _ _ _ H1).
  unfold byCurrentUser, stry, sbind, slift, sret, httpLookup. cbn [fst snd].
  rewrite H2, Td, Tid, Huid. cbn [andb fst snd].
  destruct (axiosLookup (queryOf c (StoresOfOwner (prop data "id"))) n2)
    as [[stores|e] n3] eqn:H3; cbn [fst snd];
    [|rewrite Hcall, <- !app_assoc; exists uid; split; [reflexivity | now left]].
  destruct (hasItems StringToNumber stores) as [[|]|e]; cbn [fst snd];
    [|rewrite Hcall, <- !app_assoc; exists uid; split; [reflexivity | now left]..].
  destruct (getProp (index0 stores) "id") as [vendorId|e] eqn:Hv; cbn [fst snd];
    [|rewrite Hcall, <- !app_assoc; exists uid; split; [reflexivity | now left]].
  apply getProp_Normal in Hv. subst vendorId.
  destruct (ToString (prop (index0 stores) "id")) as [t|e]; cbn [fst snd];
    [|rewrite Hcall, <- !app_assoc; exists uid; split; [reflexivity | now left]].
  destruct (toStringCall (prop (index0 stores) "id")) as [id|e] eqn:Hid; cbn [fst snd];
    [|rewrite Hcall, <- !app_assoc; exists uid; split; [reflexivity | now left]].
  rewrite <- !app_assoc. exists id. split; [reflexivity|]. right. exists stores. auto.
Qed.

End LookupProperties.

(** A sample of two orders of vendor 12: the resolver answers 12, the
    one vendor id the sample carries. *)
Lemma resolver_never_guesses_witness :
  let orders := [Mock.orderOf 100 "12"; Mock.orderOf 101 "12"] in
  exists id,
    fst (getVendorIdFromCredentials Mock.axiosLookup Mock.StringToNumber Mock.toLowerCase
           (Mock.config7 (JNum 30)) (Mock.sampleOf orders, []))
    = Normal id
    /\ (id <> "" ->
        (exists order, In order orders /\ carriesVendor order id)
        /\ forall order id', In order orders -> carriesVendor order id' -> id' = id).
Proof.
  intros orders.
  apply (resolver_never_guesses Mock.axiosLookup Mock.StringToNumber Mock.toLowerCase
           (Mock.config7 (JNum 30)) (Mock.sampleOf orders, []) orders
           (Failure "Request failed with status code 404")
           (Failure "Request failed with status code 404")
           (Mock.sampleOf orders) (Mock.sampleOf orders) (Mock.sampleOf orders));
    reflexivity.
Defined.

(** A store without the Dokan routes that tells the logged-in user is
    number 5: the resolver asks three times and answers 5. *)
Lemma resolver_falls_back_on_user_witness :
  let c := Mock.config7 (JNum 30) in
  let user := JObj [("id", JNum 5); ("name", JStr "ana")] in
  exists id,
    getVendorIdFromCredentials Mock.axiosLookup Mock.StringToNumber Mock.toLowerCase
      c (Mock.userOnly user, [])
    = (Normal id,
       (Mock.userOnly user,
        [queryOf c Stores; queryOf c UsersMe; queryOf c (StoresOfOwner (JNum 5))]))
    /\ (id = "5"
        \/ exists stores,
             Mock.userOnly user (StoresOfOwner (JNum 5)) = Normal stores
             /\ toStringCall (prop (index0 stores) "id") = Normal id).
Proof.
  intros c user.
  apply (resolver_falls_back_on_user Mock.axiosLookup Mock.StringToNumber Mock.toLowerCase
           c (Mock.userOnly user, []) user "5"
           (Failure "Request failed with status code 404")
           (Mock.userOnly user) (Mock.userOnly user));
    reflexivity.
Defined.

(** ** The configuration as it is saved *)

Section SanitizeProperties.

Variable JSONstringify : value -> completion (option string).
Variable StringToNumber : string -> option Z.

Lemma setProp_new k v ps :
  assoc k ps = None -> setProp k v ps = ps ++ [(k, v)].
Proof.
  induction ps as [|[k' x] ps IH]; cbn; intros H; [reflexivity|].
  destruct (String.eqb k' k); [discriminate|]. now rewrite IH.
Qed.

Lemma setProp_keys k v ps :
  assoc k ps <> None -> map fst (setProp k v ps) = map fst ps.
Proof.
  induction ps as [|[k' x] ps IH]; cbn; intros H; [now destruct H|].
  destruct (String.eqb k' k); cbn; [reflexivity|]. now rewrite IH.
Qed.

Lemma assoc_setProp k v ps k' :
  assoc k' (setProp k v ps) = if String.eqb k k' then Some v else assoc k' ps.
Proof.
  induction ps as [|[k0 x] ps IH]; cbn.
  - reflexivity.
  - destruct (String.eqb k0 k) eqn:E0; cbn.
    + apply String.eqb_eq in E0. subst k0.
      destruct (String.eqb k k'); reflexivity.
    + rewrite IH. destruct (String.eqb k k') eqn:E; [|reflexivity].
      apply String.eqb_eq in E. subst k'. now rewrite E0.
Qed.

Lemma prop_setProp k v ps k' :
  prop (JObj (setProp k v ps)) k' = if String.eqb k k' then v else prop (JObj ps) k'.
Proof. cbn. rewrite assoc_setProp. now destruct (String.eqb k k'). Qed.

Lemma prop_setProp_same k v ps :
  prop (JObj ps) k = v ->
  forall k', prop (JObj (setProp k v ps)) k' = prop (JObj ps) k'.
Proof.
  intros H k'. rewrite prop_setProp.
  destruct (String.eqb k k') eqn:E; [|reflexivity].
  apply String.eqb_eq in E. now subst k'.
Qed.

Lemma Forall_setProp (P : value -> Prop) k v ps :
  P v -> Forall (fun kv => P (snd kv)) ps ->
  Forall (fun kv => P (snd kv)) (setProp k v ps).
Proof.
  intros Hv. induction 1 as [|[k' x] ps Hx Hps IH]; cbn.
  - now repeat constructor.
  - destruct (String.eqb k' k); constructor; auto.
Qed.

Lemma assoc_None_keys k ps : assoc k ps = None <-> ~ In k (map fst ps).
Proof.
  induction ps as [|[k' x] ps IH]; cbn; [tauto|].
  destruct (String.eqb k' k) eqn:E.
  - apply String.eqb_eq in E. split; [discriminate | intros H; destruct H; now left].
  - apply String.eqb_neq in E. rewrite IH. tauto.
Qed.

Lemma assoc_In k ps x : assoc k ps = Some x -> In (k, x) ps.
Proof.
  induction ps as [|[k' y] ps IH]; cbn; [discriminate|].
  destruct (String.eqb k' k) eqn:E.
  - apply String.eqb_eq in E. intros [= ->]. left. now subst.
  - auto.
Qed.

Lemma stringified_primitive v s :
  stringified JSONstringify v = Normal s -> isObject s = false.
Proof.
  unfold stringified.
  destruct (JSONstringify v) as [[t|]|e]; cbn.
  - now intros [= <-].
  - now intros [= <-].
  - destruct (ToString v); cbn; [now intros [= <-] | discriminate].
Qed.

(** What the copying loop leaves in [safeConfig]. *)
Lemma copySafe_spec config props : forall acc ps,
  copySafe JSONstringify config props acc = Normal ps ->
  NoDup props -> (forall p, In p props -> assoc p acc = None) ->
  map fst ps = map fst acc ++ filter (fun p => defined (prop config p)) props
  /\ (forall k, ~ In k props -> assoc k ps = assoc k acc)
  /\ (forall k, In k props -> defined (prop config k) = true ->
        exists v, assoc k ps = Some v
                  /\ isObject v = false
                  /\ (isObject (prop config k) = false -> v = prop config k)).
Proof.
  induction props as [|p rest IH]; intros acc ps Hrun Hnd Hfresh.
  - cbn in Hrun. injection Hrun as <-. cbn. rewrite app_nil_r.
    repeat split; auto. intros k [].
  - cbn [copySafe] in Hrun.
    destruct (getProp config p) as [v|e] eqn:Hv; [|discriminate].
    apply getProp_Normal in Hv. subst v. cbn [bindC] in Hrun.
    inversion Hnd as [|? ? Hp Hrest]; subst.
    cbn [filter].
    destruct (defined (prop config p)) eqn:Hd.
    + assert (Hstep : exists s, isObject s = false
                /\ (isObject (prop config p) = false -> s = prop config p)
                /\ copySafe JSONstringify config rest (setProp p s acc) = Normal ps).
      { destruct (isObject (prop config p)) eqn:Ho.
        - destruct (stringified JSONstringify (prop config p)) as [s|e] eqn:Hs;
            [|discriminate].
          exists s. split; [now apply stringified_primitive in Hs|].
          split; [discriminate | exact Hrun].
        - exists (prop config p). auto. }
      destruct Hstep as (s & Hs & Hcopy & Hrest').
      assert (Hfresh' : forall q, In q rest -> assoc q (setProp p s acc) = None).
      { intros q Hq. rewrite assoc_setProp.
        destruct (String.eqb p q) eqn:E.
        - apply String.eqb_eq in E. now subst q.
        - apply Hfresh. now right. }
      destruct (IH _ _ Hrest' Hrest Hfresh') as (Hkeys & Hout & Hin).
      rewrite (setProp_new p s acc) in Hkeys by (apply Hfresh; now left).
      split; [|split].
      * rewrite Hkeys, map_app, <- app_assoc. reflexivity.
      * intros k Hk. rewrite Hout by (intros H; apply Hk; now right).
        rewrite assoc_setProp.
        destruct (String.eqb p k) eqn:E; [|reflexivity].
        apply String.eqb_eq in E. subst k. destruct Hk. now left.
      * intros k [<-|Hk] Hdk.
        -- exists s. rewrite (Hout p Hp), assoc_setProp, String.eqb_refl. auto.
        -- now apply Hin.
    + destruct (IH _ _ Hrun Hrest (fun q Hq => Hfresh q (or_intror Hq)))
        as (Hkeys & Hout & Hin).
      split; [exact Hkeys|]. split.
      * intros k Hk. apply Hout. intros H. apply Hk. now right.
      * intros k [<-|Hk] Hdk; [congruence | now apply Hin].
Qed.

Lemma numberOr_spec k d ps ps' :
  d <> 0%Z ->
  Forall (fun kv => isObject (snd kv) = false) ps ->
  numberOr StringToNumber k d ps = Normal ps' ->
  map fst ps' = map fst ps
  /\ Forall (fun kv => isObject (snd kv) = false) ps'
  /\ (forall k', k' <> k -> prop (JObj ps') k' = prop (JObj ps) k')
  /\ (truthy (prop (JObj ps') k) = true ->
      exists n, prop (JObj ps') k = JNum n /\ n <> 0%Z)
  /\ (forall n, prop (JObj ps) k = JNum n -> prop (JObj ps') k = JNum n).
Proof.
  intros Hd Hps. unfold numberOr.
  destruct (truthy (prop (JObj ps) k)) eqn:Ht.
  - destruct (ToNumber StringToNumber (prop (JObj ps) k)) as [n|e] eqn:Hn;
      [|discriminate].
    cbn [bindC]. intros [= <-].
    set (m := match n with Some z => if (z =? 0)%Z then d else z | None => d end).
    assert (Hm : m <> 0%Z).
    { unfold m. destruct n as [z|]; [|exact Hd].
      destruct (z =? 0)%Z eqn:E; [exact Hd | now apply Z.eqb_neq in E]. }
    split; [|split; [|split; [|split]]].
    + apply setProp_keys. cbn in Ht. destruct (assoc k ps); [discriminate | discriminate Ht].
    + now apply (Forall_setProp (fun v => isObject v = false)).
    + intros k' Hk'. rewrite prop_setProp.
      destruct (String.eqb k k') eqn:E; [|reflexivity].
      apply String.eqb_eq in E. congruence.
    + intros _. exists m. rewrite prop_setProp, String.eqb_refl. auto.
    + intros z Hz. rewrite prop_setProp, String.eqb_refl.
      rewrite Hz in Hn, Ht. cbn in Hn, Ht. injection Hn as <-.
      unfold m. now apply negb_true_iff in Ht; rewrite Ht.
  - intros [= <-]. repeat split; auto.
    intros H. congruence.
Qed.

Lemma booleanOf_spec k ps :
  Forall (fun kv => isObject (snd kv) = false) ps ->
  map fst (booleanOf k ps) = map fst ps
  /\ Forall (fun kv => isObject (snd kv) = false) (booleanOf k ps)
  /\ (forall k', k' <> k -> prop (JObj (booleanOf k ps)) k' = prop (JObj ps) k')
  /\ (prop (JObj (booleanOf k ps)) k = JUndefined
      \/ prop (JObj (booleanOf k ps)) k = JBool (truthy (prop (JObj ps) k)))
  /\ (forall b, prop (JObj ps) k = JBool b -> prop (JObj (booleanOf k ps)) k = JBool b).
Proof.
  intros Hps. unfold booleanOf.
  destruct (defined (prop (JObj ps) k)) eqn:Hd.
  - split; [|split; [|split; [|split]]].
    + apply setProp_keys. cbn in Hd. destruct (assoc k ps); [discriminate | discriminate Hd].
    + now apply (Forall_setProp (fun v => isObject v = false)).
    + intros k' Hk'. rewrite prop_setProp.
      destruct (String.eqb k k') eqn:E; [|reflexivity].
      apply String.eqb_eq in E. congruence.
    + right. now rewrite prop_setProp, String.eqb_refl.
    + intros b Hb. rewrite prop_setProp, String.eqb_refl, Hb. reflexivity.
  - repeat split; auto.
    left. now destruct (prop (JObj ps) k).
Qed.


Lemma defined_false v : defined v = false -> v = JUndefined.
Proof. now destruct v. Qed.

Lemma isObject_defined v : isObject v = true -> defined v = true.
Proof. now destruct v. Qed.

Lemma prop_primitive ps k :
  Forall (fun kv => isObject (snd kv) = false) ps -> isObject (prop (JObj ps) k) = false.
Proof.
  intros F. cbn. destruct (assoc k ps) as [x|] eqn:E; [|reflexivity].
  apply assoc_In in E. rewrite Forall_forall in F. exact (F _ E).
Qed.

Lemma ToNumber_primitive v :
  isObject v = false -> exists n, ToNumber StringToNumber v = Normal n.
Proof. destruct v; cbn; intros H; try discriminate; eauto. Qed.

Lemma numberOr_returns k d ps :
  Forall (fun kv => isObject (snd kv) = false) ps ->
  exists ps', numberOr StringToNumber k d ps = Normal ps'.
Proof.
  intros F. unfold numberOr.
  destruct (truthy (prop (JObj ps) k)); [|eauto].
  destruct (ToNumber_primitive _ (prop_primitive ps k F)) as [n ->]. cbn [bindC]. eauto.
Qed.

Lemma numberOr_fixed k d ps :
  (truthy (prop (JObj ps) k) = true -> exists n, prop (JObj ps) k = JNum n /\ n <> 0%Z) ->
  exists ps', numberOr StringToNumber k d ps = Normal ps'
              /\ forall k', prop (JObj ps') k' = prop (JObj ps) k'.
Proof.
  intros H. unfold numberOr.
  destruct (truthy (prop (JObj ps) k)); [|eauto].
  destruct (H eq_refl) as (n & Hn & Hz). rewrite Hn. cbn [ToNumber bindC].
  apply Z.eqb_neq in Hz. rewrite Hz.
  eexists. split; [reflexivity|]. now apply prop_setProp_same.
Qed.

Lemma booleanOf_fixed k ps :
  (prop (JObj ps) k = JUndefined \/ exists b, prop (JObj ps) k = JBool b) ->
  forall k', prop (JObj (booleanOf k ps)) k' = prop (JObj ps) k'.
Proof.
  intros H k'. unfold booleanOf.
  destruct H as [H|[b H]]; rewrite H; cbn [defined truthy]; [reflexivity|].
  now apply prop_setProp_same.
Qed.

Lemma stringified_throws v :
  (exists e, stringified JSONstringify v = Throw e)
  <-> (exists e, JSONstringify v = Throw e) /\ (exists e, ToString v = Throw e).
Proof.
  unfold stringified.
  destruct (JSONstringify v) as [r|e]; cbn.
  - split; [intros [e [=]] | intros [[e [=]] _]].
  - destruct (ToString v) as [s|e']; cbn.
    + split; [intros [x [=]] | intros [_ [x [=]]]].
    + split; eauto.
Qed.

(** The copying loop raises on a configuration that has no properties to
    read, and where neither [JSON.stringify] nor [String] can print an
    array or object it finds. *)
Lemma copySafe_throws config props : forall acc,
  (exists e, copySafe JSONstringify config props acc = Throw e)
  <-> (props <> [] /\ (config = JUndefined \/ config = JNull))
      \/ exists k, In k props /\ isObject (prop config k) = true
                   /\ exists e, stringified JSONstringify (prop config k) = Throw e.
Proof.
  induction props as [|p rest IH]; intros acc.
  - cbn. split.
    + intros [e [=]].
    + intros [[H _]|(k & [] & _)]. now destruct H.
  - cbn [copySafe].
    destruct (getProp config p) as [v|e] eqn:Hv.
    + assert (Hc : config <> JUndefined /\ config <> JNull)
        by (split; intros ->; discriminate).
      apply getProp_Normal in Hv. subst v. cbn [bindC].
      destruct (defined (prop config p)) eqn:Hd.
      * destruct (isObject (prop config p)) eqn:Ho.
        -- destruct (stringified JSONstringify (prop config p)) as [s|e] eqn:Hs; cbn [bindC].
           ++ rewrite IH. split.
              ** intros [[_ [H|H]]|(k & Hk & Hok & He)]; [now destruct Hc | now destruct Hc|].
                 right. exists k. split; [now right | auto].
              ** intros [[_ [H|H]]|(k & [<-|Hk] & Hok & He)];
                   [now destruct Hc | now destruct Hc | | ].
                 --- destruct He as [e He]. congruence.
                 --- right. eauto.
           ++ split; [|eauto]. intros _. right. exists p.
              split; [now left | eauto].
        -- cbn [bindC]. rewrite IH. split.
           ++ intros [[_ [H|H]]|(k & Hk & Hok & He)]; [now destruct Hc | now destruct Hc|].
              right. exists k. split; [now right | auto].
           ++ intros [[_ [H|H]]|(k & [<-|Hk] & Hok & He)];
                [now destruct Hc | now destruct Hc | congruence | right; eauto].
      * cbn [bindC]. rewrite IH. split.
        -- intros [[_ [H|H]]|(k & Hk & Hok & He)]; [now destruct Hc | now destruct Hc|].
           right. exists k. split; [now right | auto].
        -- intros [[_ [H|H]]|(k & [<-|Hk] & Hok & He)];
             [now destruct Hc | now destruct Hc | | right; eauto].
           apply isObject_defined in Hok. congruence.
    + cbn [bindC]. split; [|eauto]. intros _. left.
      split; [discriminate|]. destruct config; try discriminate; auto.
Qed.

Lemma safeProps_NoDup : NoDup safeProps.
Proof. unfold safeProps. repeat constructor; cbn; intuition discriminate. Qed.

(** Nothing the copying loop leaves is an array or an object. *)
Lemma copySafe_primitive config ps :
  copySafe JSONstringify config safeProps [] = Normal ps ->
  Forall (fun kv => isObject (snd kv) = false) ps.
Proof.
  intros H0.
  destruct (copySafe_spec _ _ _ _ H0 safeProps_NoDup (fun _ _ => eq_refl)) as (K0 & _ & V0).
  cbn [map app] in K0.
  apply Forall_forall. intros [k v] Hkv. cbn.
  assert (Hk : In k (map fst ps)) by (apply in_map_iff; now exists (k, v)).
  rewrite K0 in Hk. apply filter_In in Hk. destruct Hk as [Hk Hd].
  destruct (V0 k Hk Hd) as (x & Hx & Ho & _).
  enough (v = x) by now subst.
  assert (Hndk : NoDup (map fst ps)).
  { rewrite K0. apply NoDup_filter, safeProps_NoDup. }
  clear - Hkv Hx Hndk. induction ps as [|[k' y] ps IH]; [destruct Hkv|].
  cbn in Hx, Hndk. inversion Hndk as [|? ? Hk' Hrest]; subst.
  destruct (String.eqb k' k) eqn:E.
  - apply String.eqb_eq in E. subst k'. injection Hx as <-.
    destruct Hkv as [[= ->]|Hkv]; [reflexivity|].
    destruct Hk'. apply in_map_iff. now exists (k, v).
  - destruct Hkv as [[= -> ->]|Hkv]; [now rewrite String.eqb_refl in E|].
    now apply IH.
Qed.

(** What [sanitizeConfigObject] answers, step by step. *)
Lemma sanitizeConfigObject_shape config out :
  sanitizeConfigObject JSONstringify StringToNumber config = Normal out ->
  exists ps,
    out = JObj ps
    /\ map fst ps = filter (fun p => defined (prop config p)) safeProps
    /\ Forall (fun kv => isObject (snd kv) = false) ps
    /\ (forall k, In k ["apiUrl"; "username"; "password"; "vendorId"; "printerId"] ->
        isObject (prop config k) = false -> prop out k = prop config k)
    /\ (forall k, In k ["checkInterval"; "printWidth"] ->
        truthy (prop out k) = true -> exists n, prop out k = JNum n /\ n <> 0%Z)
    /\ (prop out "autostart" = JUndefined \/ exists b, prop out "autostart" = JBool b).
Proof.
  unfold sanitizeConfigObject. intros Hrun.
  destruct (copySafe JSONstringify config safeProps []) as [ps0|e] eqn:H0; [|discriminate].
  cbn [bindC] in Hrun.
  destruct (numberOr StringToNumber "checkInterval" 60 ps0) as [ps1|e] eqn:H1; [|discriminate].
  cbn [bindC] in Hrun.
  destruct (numberOr StringToNumber "printWidth" 48 (booleanOf "autostart" ps1))
    as [ps3|e] eqn:H3; [|discriminate].
  cbn [bindC] in Hrun. injection Hrun as <-.
  pose proof safeProps_NoDup as Hnd.
  destruct (copySafe_spec _ _ _ _ H0 Hnd (fun _ _ => eq_refl)) as (K0 & _ & V0).
  cbn [map app] in K0.
  assert (F0 : Forall (fun kv => isObject (snd kv) = false) ps0)
    by (eapply copySafe_primitive; eauto).
  destruct (numberOr_spec "checkInterval" 60 ps0 ps1 ltac:(discriminate) F0 H1) as (K1 & F1 & O1 & N1 & _).
  destruct (booleanOf_spec "autostart" ps1 F1) as (K2 & F2 & O2 & B2 & _).
  destruct (numberOr_spec "printWidth" 48 _ ps3 ltac:(discriminate) F2 H3) as (K3 & F3 & O3 & N3 & _).
  exists ps3. split; [reflexivity|]. split; [congruence|]. split; [exact F3|].
  assert (Hcopy : forall k, In k safeProps -> isObject (prop config k) = false ->
                            prop (JObj ps0) k = prop config k).
  { intros k Hk Ho. destruct (defined (prop config k)) eqn:Hd.
    - destruct (V0 k Hk Hd) as (x & Hx & _ & Hsame).
      cbn. rewrite Hx. now apply Hsame.
    - assert (Hnone : assoc k ps0 = None).
      { apply assoc_None_keys. rewrite K0. intros H. apply filter_In in H.
        destruct H as [_ H]. congruence. }
      cbn. rewrite Hnone. now destruct (prop config k). }
  split; [|split].
  - intros k Hk Ho.
    rewrite O3, O2, O1, Hcopy; auto;
      cbn in Hk |- *; intuition (subst; auto; discriminate).
  - intros k [<-|[<-|[]]] Ht.
    + rewrite O3, O2 in Ht |- * by discriminate. now apply N1.
    + now apply N3.
  - rewrite O3 by discriminate.
    destruct B2 as [B2|B2]; [now left | right; eauto].
Qed.

(** X18. The configuration that is saved holds nothing but the eight
    expected properties, those of them that the given configuration
    defines and in the fixed order, and none of its values is an array
    or an object; the credentials, the vendor id and the printer id are
    copied as they are unless they are arrays or objects; a truthy
    [checkInterval] or [printWidth] is a number other than zero, and
    [autostart], where present, is a boolean. *)
Theorem sanitizeConfigObject_safe config out :
  sanitizeConfigObject JSONstringify StringToNumber config = Normal out ->
  exists ps,
    out = JObj ps
    /\ map fst ps = filter (fun p => defined (prop config p)) safeProps
    /\ Forall (fun kv => isObject (snd kv) = false) ps
    /\ (forall k, In k ["apiUrl"; "username"; "password"; "vendorId"; "printerId"] ->
        isObject (prop config k) = false -> prop out k = prop config k)
    /\ (forall k, In k ["checkInterval"; "printWidth"] ->
        truthy (prop out k) = true -> exists n, prop out k = JNum n /\ n <> 0%Z)
    /\ (prop out "autostart" = JUndefined \/ exists b, prop out "autostart" = JBool b).
Proof. apply sanitizeConfigObject_shape. Qed.


(** X19. Sanitizing twice changes nothing: the sanitized configuration is
    accepted again and every property reads the same afterwards. *)
Theorem sanitizeConfigObject_idempotent config out :
  sanitizeConfigObject JSONstringify StringToNumber config = Normal out ->
  exists out',
    sanitizeConfigObject JSONstringify StringToNumber out = Normal out'
    /\ forall k, prop out' k = prop out k.
Proof.
  intros Hrun.
  destruct (sanitizeConfigObject_shape _ _ Hrun) as (ps & -> & K & F & _ & N & B).
  pose proof safeProps_NoDup as Hnd.
  unfold sanitizeConfigObject.
  destruct (copySafe JSONstringify (JObj ps) safeProps []) as [ps0|e] eqn:H0.
  - destruct (copySafe_spec _ _ _ _ H0 Hnd (fun _ _ => eq_refl)) as (K0 & O0 & V0).
    cbn [map app] in K0.
    assert (S0 : forall k, prop (JObj ps0) k = prop (JObj ps) k).
    { intros k. destruct (in_dec string_dec k safeProps) as [Hk|Hk].
      - destruct (defined (prop (JObj ps) k)) eqn:Hd.
        + destruct (V0 k Hk Hd) as (x & Hx & _ & Hsame).
          change (prop (JObj ps0) k) with (match assoc k ps0 with Some x => x | None => JUndefined end).
          rewrite Hx. apply Hsame. now apply prop_primitive.
        + assert (Hnone : assoc k ps0 = None).
          { apply assoc_None_keys. rewrite K0. intros H. apply filter_In in H.
            destruct H as [_ H]. congruence. }
          apply defined_false in Hd. rewrite Hd. cbn. now rewrite Hnone.
      - assert (H1 : assoc k ps0 = None) by (rewrite (O0 k Hk); reflexivity).
        assert (H2 : assoc k ps = None).
        { apply assoc_None_keys. rewrite K. intros H. apply filter_In in H. tauto. }
        cbn. now rewrite H1, H2. }
    cbn [bindC].
    destruct (numberOr_fixed "checkInterval" 60 ps0) as (ps1 & -> & S1).
    { rewrite S0. apply N. now left. }
    cbn [bindC].
    pose proof (booleanOf_fixed "autostart" ps1) as S2.
    rewrite S1, S0 in S2. specialize (S2 B).
    destruct (numberOr_fixed "printWidth" 48 (booleanOf "autostart" ps1)) as (ps3 & -> & S3).
    { rewrite S2, S1, S0. apply N. right. now left. }
    cbn [bindC]. eexists. split; [reflexivity|].
    intros k. now rewrite S3, S2, S1, S0.
  - exfalso.
    assert (He : exists e, copySafe JSONstringify (JObj ps) safeProps [] = Throw e) by eauto.
    apply copySafe_throws in He.
    destruct He as [[_ [H|H]]|(k & _ & Hk & _)]; [discriminate | discriminate|].
    now rewrite prop_primitive in Hk.
Qed.

(** X20. [sanitizeConfigObject] raises in two cases only: the
    configuration is [null] or [undefined], or one of the eight
    properties holds an array or an object that neither [JSON.stringify]
    nor [String] can print. *)
Theorem sanitizeConfigObject_raises config :
  (exists e, sanitizeConfigObject JSONstringify StringToNumber config = Throw e)
  <-> config = JUndefined \/ config = JNull
      \/ exists k, In k safeProps /\ isObject (prop config k) = true
                   /\ (exists e, JSONstringify (prop config k) = Throw e)
                   /\ (exists e, ToString (prop config k) = Throw e).
Proof.
  pose proof safeProps_NoDup as Hnd.
  transitivity (exists e, copySafe JSONstringify config safeProps [] = Throw e).
  - unfold sanitizeConfigObject.
    destruct (copySafe JSONstringify config safeProps []) as [ps0|e] eqn:H0; cbn [bindC];
      [|split; eauto].
    split; [|intros [e [=]]]. intros [e He]. exfalso.
    destruct (copySafe_spec _ _ _ _ H0 Hnd (fun _ _ => eq_refl)) as (K0 & _ & V0).
    cbn [map app] in K0.
    assert (F0 : Forall (fun kv => isObject (snd kv) = false) ps0)
      by (eapply copySafe_primitive; eauto).
    destruct (numberOr_returns "checkInterval" 60 ps0 F0) as [ps1 H1].
    rewrite H1 in He. cbn [bindC] in He.
    destruct (numberOr_spec "checkInterval" 60 ps0 ps1 ltac:(discriminate) F0 H1) as (_ & F1 & _).
    destruct (booleanOf_spec "autostart" ps1 F1) as (_ & F2 & _).
    destruct (numberOr_returns "printWidth" 48 _ F2) as [ps3 H3].
    rewrite H3 in He. discriminate.
  - rewrite copySafe_throws. split.
    + intros [[_ [H|H]]|(k & Hk & Ho & He)]; auto.
      right. right. exists k. apply stringified_throws in He. tauto.
    + intros [H|[H|(k & Hk & Ho & He)]].
      * left. split; [discriminate | auto].
      * left. split; [discriminate | auto].
      * right. exists k. rewrite stringified_throws. tauto.
Qed.

End SanitizeProperties.

(** A configuration with an array, a word for the interval and a
    property nobody expects: the array is printed, the interval is 60
    and the unexpected property is gone. *)
Lemma sanitizeConfigObject_safe_witness :
  let config := JObj [("apiUrl", JStr "https://loja.example");
                      ("vendorId", JArr [JNum 7]);
                      ("checkInterval", JStr "abc");
                      ("autostart", JNum 1);
                      ("onSave", JObj [])] in
  let out := JObj [("apiUrl", JStr "https://loja.example");
                   ("vendorId", JStr "[7]");
                   ("checkInterval", JNum 60);
                   ("autostart", JBool true)] in
  sanitizeConfigObject Mock.JSONstringify Mock.StringToNumber config = Normal out
  /\ exists ps,
       out = JObj ps
       /\ map fst ps = filter (fun p => defined (prop config p)) safeProps
       /\ Forall (fun kv => isObject (snd kv) = false) ps
       /\ (forall k, In k ["apiUrl"; "username"; "password"; "vendorId"; "printerId"] ->
           isObject (prop config k) = false -> prop out k = prop config k)
       /\ (forall k, In k ["checkInterval"; "printWidth"] ->
           truthy (prop out k) = true -> exists n, prop out k = JNum n /\ n <> 0%Z)
       /\ (prop out "autostart" = JUndefined \/ exists b, prop out "autostart" = JBool b).
Proof.
  intros config out. split; [reflexivity|].
  apply (sanitizeConfigObject_safe Mock.JSONstringify Mock.StringToNumber config out).
  reflexivity.
Defined.

(** The same configuration, sanitized and sanitized again. *)
Lemma sanitizeConfigObject_idempotent_witness :
  let config := JObj [("apiUrl", JStr "https://loja.example");
                      ("vendorId", JArr [JNum 7]);
                      ("checkInterval", JStr "abc");
                      ("autostart", JNum 1);
                      ("onSave", JObj [])] in
  let out := JObj [("apiUrl", JStr "https://loja.example");
                   ("vendorId", JStr "[7]");
                   ("checkInterval", JNum 60);
                   ("autostart", JBool true)] in
  exists out',
    sanitizeConfigObject Mock.JSONstringify Mock.StringToNumber out = Normal out'
    /\ forall k, prop out' k = prop out k.
Proof.
  intros config out.
  apply (sanitizeConfigObject_idempotent Mock.JSONstringify Mock.StringToNumber config out).
  reflexivity.
Defined.

(** ** The support password of the day *)

Lemma toInt32_range z : (- 2 ^ 31 <= toInt32 z < 2 ^ 31)%Z.
Proof. unfold toInt32. pose proof (Z.mod_pos_bound (z + 2 ^ 31) (2 ^ 32)). lia. Qed.

Lemma toInt32_eqm a b :
  ((a - b) mod 2 ^ 32 = 0)%Z -> toInt32 a = toInt32 b.
Proof.
  intros H. unfold toInt32. f_equal.
  apply Z.mod_divide in H; [|lia]. destruct H as [k Hk].
  replace (a + 2 ^ 31)%Z with (b + 2 ^ 31 + k * 2 ^ 32)%Z by lia.
  apply Z.mod_add. lia.
Qed.

Lemma toInt32_mod z : ((toInt32 z - z) mod 2 ^ 32 = 0)%Z.
Proof.
  unfold toInt32.
  rewrite (Z.mod_eq (z + 2 ^ 31) (2 ^ 32)) by lia.
  replace (z + 2 ^ 31 - 2 ^ 32 * ((z + 2 ^ 31) / 2 ^ 32) - 2 ^ 31 - z)%Z
    with ((- ((z + 2 ^ 31) / 2 ^ 32)) * 2 ^ 32)%Z by lia.
  apply Z.mod_mul. lia.
Qed.

Lemma hashStep_wrap h p c :
  ((h - p) mod 2 ^ 32 = 0)%Z ->
  ((hashStep h c - (31 * p + c)) mod 2 ^ 32 = 0)%Z.
Proof.
  intros H. unfold hashStep, shl5.
  rewrite Z.shiftl_mul_pow2 by lia.
  pose proof (toInt32_mod (toInt32 (toInt32 h * 2 ^ 5) - h + c)) as A.
  pose proof (toInt32_mod (toInt32 h * 2 ^ 5)) as B.
  pose proof (toInt32_mod h) as C.
  apply Z.mod_divide in A, B, C, H; try lia.
  apply Z.mod_divide; [lia|].
  destruct A as [a A], B as [b B], C as [d C], H as [e H].
  exists (a + b + 32 * d + 31 * e)%Z. lia.
Qed.

Lemma fold_hashStep_wrap codes h p :
  ((h - p) mod 2 ^ 32 = 0)%Z ->
  ((fold_left hashStep codes h
    - fold_left (fun h c => (31 * h + c)%Z) codes p) mod 2 ^ 32 = 0)%Z.
Proof.
  revert h p. induction codes as [|c codes IH]; intros h p H; cbn [fold_left]; [exact H|].
  apply IH. now apply hashStep_wrap.
Qed.

Lemma fold_hashStep_int32 codes h :
  (- 2 ^ 31 <= h < 2 ^ 31)%Z ->
  (- 2 ^ 31 <= fold_left hashStep codes h < 2 ^ 31)%Z.
Proof.
  revert h. induction codes as [|c codes IH]; intros h H; cbn [fold_left]; [exact H|].
  apply IH. apply toInt32_range.
Qed.

Lemma toInt32_id z : (- 2 ^ 31 <= z < 2 ^ 31)%Z -> toInt32 z = z.
Proof. intros H. unfold toInt32. rewrite Z.mod_small; lia. Qed.

(** X21. The hash of the loop, which cuts to 32 bits at every turn, is the
    base-31 polynomial of the character codes of the seed cut to 32 bits
    once, without its sign; it lies between 0 and 2^31. *)
Theorem simpleHash_polynomial (input : Z) :
  simpleHash input = Z.abs (toInt32 (poly31 (charCodes (numberToString input))))
  /\ (0 <= simpleHash input <= 2 ^ 31)%Z.
Proof.
  unfold simpleHash, poly31.
  set (codes := charCodes (numberToString input)).
  pose proof (fold_hashStep_int32 codes 0%Z ltac:(lia)) as R.
  split; [|lia].
  f_equal. rewrite <- (toInt32_id _ R).
  apply toInt32_eqm. apply fold_hashStep_wrap. reflexivity.
Qed.

Lemma charAt_alphabet index :
  (0 <= index < 36)%Z ->
  exists a, charAt alphabet index = String a EmptyString
            /\ In a (list_ascii_of_string alphabet).
Proof.
  intros H. unfold charAt.
  destruct (index <? 0)%Z eqn:E; [lia|].
  assert (Hn : (Z.to_nat index < 36)%nat) by lia.
  revert Hn. generalize (Z.to_nat index). intros n Hn.
  do 36 (destruct n as [|n]; [eexists; split; [reflexivity | cbn; tauto]|]).
  lia.
Qed.

(** X22. Whatever the date, the password of the day is the base word
    followed by exactly four characters of the alphabet: no index ever
    falls outside the alphabet. *)
Theorem generateDailyPassword_wellformed (fullYear month0 date : Z) :
  exists a b c d,
    generateDailyPassword fullYear month0 date
    = ("suporte" ++ String a (String b (String c (String d EmptyString))))%string
    /\ Forall (fun x => In x (list_ascii_of_string alphabet)) [a; b; c; d].
Proof.
  unfold generateDailyPassword. cbv zeta.
  set (h := simpleHash _).
  assert (Hh : (0 <= h)%Z) by (unfold h, simpleHash; apply Z.abs_nonneg).
  clearbody h.
  assert (Hidx : forall t, (0 <= t)%Z -> (0 <= Z.rem t 36 < 36)%Z).
  { intros t Ht. rewrite Z.rem_mod_nonneg by lia. apply Z.mod_pos_bound. lia. }
  assert (Hdiv : forall t, (0 <= t)%Z -> (0 <= t / 36)%Z).
  { intros t Ht. apply Z.div_pos; lia. }
  cbn [suffix]. change (Z.of_nat (String.length alphabet)) with 36%Z.
  destruct (charAt_alphabet _ (Hidx _ Hh)) as (a & -> & Ha).
  destruct (charAt_alphabet _ (Hidx _ (Hdiv _ Hh))) as (b & -> & Hb).
  destruct (charAt_alphabet _ (Hidx _ (Hdiv _ (Hdiv _ Hh)))) as (c & -> & Hc).
  destruct (charAt_alphabet _ (Hidx _ (Hdiv _ (Hdiv _ (Hdiv _ Hh))))) as (d & -> & Hd).
  exists a, b, c, d. split; [reflexivity|].
  repeat (constructor; [assumption|]). constructor.
Qed.
